(** * Ultrasonic distance meter (HC-SR04 on a Pico): the echo-timing state machine

    The repository holds three versions of the same firmware:
    - [part_001]: the state machine with all shared data in one struct
      ([system_state_t g_state]);
    - [part_000]: the same state machine on separate global variables;
    - [main_c] ([main/main.c]): a flag based version that waits for the
      end of each measurement inside the loop iteration.

    Each version is embedded below from its source: the interrupt
    callbacks as functions on the shared data, the body of [while (true)]
    as a computation in a small state-and-trace monad.  What the SDK and
    the hardware supply (console characters, clock readings, alarm ids,
    the RTC, the interrupts that preempt the loop) is an explicit input. *)

From Stdlib Require Import ZArith List Bool Lia String Ascii.
From Stdlib Require Import QArith Qpower Qabs Lqa Zpower.
From Stdlib Require Import DecimalString.
From Stdlib Require Import Floats.SpecFloat.
From stdpp Require Import base list.
Import ListNotations.

Local Open Scope Z_scope.

(** ** What the firmware does to the outside world *)

(** [datetime_t] of the RTC. *)
Record datetime_t := {
  year : Z; month : Z; day : Z; dotw : Z; hour : Z; min : Z; sec : Z
}.

(** The lines the firmware prints, one constructor per [printf] call site. *)
Inductive line :=
| msg_started            (* part_00x: "\nMedições iniciadas.\n" *)
| msg_stopped            (* part_00x: "\nMedições paradas.\n" *)
| msg_unknown (cmd : list Z)   (* part_00x: "\nComando desconhecido: %s\n" *)
| report_distance (time_str : string) (distance : spec_float)
                         (* part_00x: "\n%s - %.0f cm\n" *)
| report_falha (time_str : string)
                         (* part_00x: "\n%s - Falha\n" *)
| msg_leitura_iniciada   (* main.c: "Leitura iniciada!\n" *)
| msg_leitura_parada     (* main.c: "Leitura parada!\n" *)
| msg_desconhecido       (* main.c: "Comando desconhecido. Use 'start' ou 'stop'.\n" *)
| datetime_prefix (time_str : string)
                         (* main.c, print_datetime: "%02d:%02d:%02d - " *)
| distance_cm (distance : spec_float)
                         (* main.c: "%.2f cm\n" *)
| falha                  (* main.c: "Falha\n" *)
| leitura_nao_concluida. (* main.c: "Leitura não concluída\n" *)

(** Calls into the SDK, in the order the firmware makes them. *)
Inductive effect :=
| gpio_put (pin : Z) (level : bool)
| sleep_us (us : Z)
| sleep_ms (ms : Z)
| add_alarm_in_us (us : Z)
| add_alarm_in_ms (ms : Z)
| cancel_alarm (id : Z)
| putchar (c : Z)
| printf (l : line).

(** ** The monad of the loop body: shared data, trace, undefined behaviour *)

Inductive error :=
| out_of_bounds     (* an array access outside the array *)
| no_more_ticks.    (* the supplied schedule ended inside a wait loop *)

Inductive result (A : Type) :=
| Ok (a : A)
| Err (e : error).
Arguments Ok {A} a.
Arguments Err {A} e.

Definition M (S A : Type) : Type := S -> result (A * S * list effect).

Definition ret {S A} (a : A) : M S A := fun s => Ok (a, s, []).

Definition bind {S A B} (m : M S A) (k : A -> M S B) : M S B :=
  fun s =>
    match m s with
    | Ok (a, s1, t1) =>
        match k a s1 with
        | Ok (b, s2, t2) => Ok (b, s2, t1 ++ t2)
        | Err e => Err e
        end
    | Err e => Err e
    end.

Definition fetch {S} : M S S := fun s => Ok (s, s, []).
Definition modify {S} (f : S -> S) : M S unit := fun s => Ok (tt, f s, []).
Definition emit {S} (e : effect) : M S unit := fun s => Ok (tt, s, [e]).
Definition throw {S A} (e : error) : M S A := fun _ => Err e.
Definition lift {S A} (r : result A) : M S A :=
  fun s => match r with Ok a => Ok (a, s, []) | Err e => Err e end.

Declare Scope m_scope.
Delimit Scope m_scope with m.
Notation "'let*' x := m 'in' k" := (bind m (fun x => k))
  (at level 10, x name, m at level 100, k at level 200) : m_scope.
Notation "m ;; k" := (bind m (fun _ => k))
  (at level 100, k at level 200, right associativity) : m_scope.

(** ** C strings and arrays *)

Definition code (a : ascii) : Z := Z.of_N (N_of_ascii a).

(** A string literal as the array the compiler emits: the characters and
    the terminating NUL. *)
Definition literal (s : string) : list Z :=
  List.map code (list_ascii_of_string s) ++ [0].

(** [(char)c]: the low eight bits. *)
Definition to_char (c : Z) : Z := c mod 256.

(** [a[i] = v]; writing outside the array is undefined behaviour. *)
Definition store (a : list Z) (i v : Z) : result (list Z) :=
  if (0 <=? i) && (i <? Z.of_nat (length a))
  then Ok (<[Z.to_nat i := v]> a)
  else Err out_of_bounds.

(** [strcmp]: walks both arrays up to the first difference or NUL. *)
Fixpoint strcmp (s1 s2 : list Z) : result Z :=
  match s1, s2 with
  | c1 :: r1, c2 :: r2 =>
      if c1 =? c2
      then (if c1 =? 0 then Ok 0 else strcmp r1 r2)
      else Ok (c1 - c2)
  | _, _ => Err out_of_bounds
  end.

(** [memset(a, 0, sizeof(a))]. *)
Definition memset0 (a : list Z) : list Z := replicate (length a) 0.

(** ** Formatting *)

(** [%02d]. *)
Definition fmt_02d (n : Z) : string :=
  let s := NilZero.string_of_int (Z.to_int n) in
  if (String.length s <? 2)%nat then String "0" s else s.

(** ["%02d:%02d:%02d"] on hour, minute, second. *)
Definition fmt_time (t : datetime_t) : string :=
  (fmt_02d (hour t) ++ ":" ++ fmt_02d (min t) ++ ":" ++ fmt_02d (sec t))%string.

(** ** The clock *)

Definition two64 : Z := 2 ^ 64.

(** Modelled from the spec: the SDK's [absolute_time_diff_us(from, to)] is
    not part of the repository.  An [absolute_time_t] is the count of
    microseconds since boot in a [uint64_t]; the difference is signed and
    follows the clock through its rollover (sections 4.5 and 6):
    [(int64_t)(to - from)]. *)
Definition absolute_time_diff_us (from to : Z) : Z :=
  let d := (to - from) mod two64 in
  if d <? 2 ^ 63 then d else d - two64.

(** ** [float] arithmetic: IEEE 754 binary32, round to nearest even *)

Module binary32.
Definition prec : Z := 24.
Definition emax : Z := 128.

(** [(float)n] for an integer [n]. *)
Definition of_int (n : Z) : spec_float := binary_normalize prec emax n 0 false.
Definition mul : spec_float -> spec_float -> spec_float := SFmul prec emax.
Definition div : spec_float -> spec_float -> spec_float := SFdiv prec emax.

(** The literal [0.0343f]: the binary32 number nearest to 343/10000. *)
Definition c_0_0343 : spec_float := S754_finite false 9207336 (-28).
(** The literal [2.0f]. *)
Definition c_2_0 : spec_float := S754_finite false 8388608 (-22).

(** The number a mantissa and an exponent stand for. *)
Definition value (m : positive) (e : Z) : Q :=
  (inject_Z (Z.pos m) * 2 ^ e)%Q.

(** The exact value of a finite number. *)
Definition to_Q (x : spec_float) : Q :=
  match x with
  | S754_finite s m e => if s then (- value m e)%Q else value m e
  | _ => 0%Q
  end.

Definition is_finite (x : spec_float) : bool :=
  match x with
  | S754_finite _ _ _ | S754_zero _ => true
  | _ => false
  end.
End binary32.

(** [(duration_us * 0.0343f) / 2.0f], the expression of all three versions. *)
Definition distance_of (duration_us : Z) : spec_float :=
  binary32.div (binary32.mul (binary32.of_int duration_us) binary32.c_0_0343)
               binary32.c_2_0.

(** ** Interrupts *)

(** An interrupt that preempts the foreground loop: a GPIO edge event
    (with the clock readings [get_absolute_time()] returns in the rising
    and in the falling branch of the handler) or the expiry of an alarm. *)
Inductive irq :=
| gpio_irq (gpio events t_rise t_fall : Z)
| alarm_irq (id : Z).

(** What one iteration of [while (true)] of part_000 and part_001 receives
    from outside. *)
Record env := {
  in_char : option Z;       (* getchar_timeout_us(1000); None: PICO_ERROR_TIMEOUT *)
  irq_getchar : list irq;   (* taken while waiting for the console *)
  irq_pulse : list irq;     (* taken during the trigger pulse *)
  new_alarm : Z;            (* what add_alarm_in_us returns *)
  irq_armed : list irq;     (* taken between arming and the result check *)
  rtc_now : datetime_t;     (* rtc_get_datetime *)
  irq_spacing : list irq;   (* taken during sleep_ms(1000) *)
  irq_poll : list irq       (* taken during sleep_ms(10) *)
}.

(** * part_001: the state machine on [system_state_t g_state] *)

Module part_001.

Definition TRIGGER_PIN : Z := 28.
Definition ECHO_PIN : Z := 27.
Definition MEASUREMENT_TIMEOUT_US : Z := 30000.
Definition CMD_BUFFER_SIZE : Z := 64.
Definition GPIO_IRQ_EDGE_RISE : Z := 8.
Definition GPIO_IRQ_EDGE_FALL : Z := 4.

Inductive measurement_state_t :=
| STATE_IDLE
| STATE_WAITING_FOR_ECHO
| STATE_MEASUREMENT_COMPLETE
| STATE_MEASUREMENT_ERROR.

Definition state_eqb (a b : measurement_state_t) : bool :=
  match a, b with
  | STATE_IDLE, STATE_IDLE
  | STATE_WAITING_FOR_ECHO, STATE_WAITING_FOR_ECHO
  | STATE_MEASUREMENT_COMPLETE, STATE_MEASUREMENT_COMPLETE
  | STATE_MEASUREMENT_ERROR, STATE_MEASUREMENT_ERROR => true
  | _, _ => false
  end.

Record system_state_t := {
  current_state : measurement_state_t;
  echo_start_time : Z;
  echo_end_time : Z;
  measurement_alarm_id : Z;
  system_running : bool;
  cmd_buffer : list Z;
  cmd_index : Z
}.

(** The initializer of [g_state]; fields it does not name are zero. *)
Definition g_state : system_state_t := {|
  current_state := STATE_IDLE;
  echo_start_time := 0;
  echo_end_time := 0;
  measurement_alarm_id := 0;
  system_running := false;
  cmd_buffer := replicate (Z.to_nat CMD_BUFFER_SIZE) 0;
  cmd_index := 0
|}.

Definition set_current_state v (s : system_state_t) :=
  {| current_state := v; echo_start_time := echo_start_time s;
     echo_end_time := echo_end_time s;
     measurement_alarm_id := measurement_alarm_id s;
     system_running := system_running s; cmd_buffer := cmd_buffer s;
     cmd_index := cmd_index s |}.
Definition set_echo_start_time v (s : system_state_t) :=
  {| current_state := current_state s; echo_start_time := v;
     echo_end_time := echo_end_time s;
     measurement_alarm_id := measurement_alarm_id s;
     system_running := system_running s; cmd_buffer := cmd_buffer s;
     cmd_index := cmd_index s |}.
Definition set_echo_end_time v (s : system_state_t) :=
  {| current_state := current_state s; echo_start_time := echo_start_time s;
     echo_end_time := v;
     measurement_alarm_id := measurement_alarm_id s;
     system_running := system_running s; cmd_buffer := cmd_buffer s;
     cmd_index := cmd_index s |}.
Definition set_measurement_alarm_id v (s : system_state_t) :=
  {| current_state := current_state s; echo_start_time := echo_start_time s;
     echo_end_time := echo_end_time s;
     measurement_alarm_id := v;
     system_running := system_running s; cmd_buffer := cmd_buffer s;
     cmd_index := cmd_index s |}.
Definition set_system_running v (s : system_state_t) :=
  {| current_state := current_state s; echo_start_time := echo_start_time s;
     echo_end_time := echo_end_time s;
     measurement_alarm_id := measurement_alarm_id s;
     system_running := v; cmd_buffer := cmd_buffer s;
     cmd_index := cmd_index s |}.
Definition set_cmd_buffer v (s : system_state_t) :=
  {| current_state := current_state s; echo_start_time := echo_start_time s;
     echo_end_time := echo_end_time s;
     measurement_alarm_id := measurement_alarm_id s;
     system_running := system_running s; cmd_buffer := v;
     cmd_index := cmd_index s |}.
Definition set_cmd_index v (s : system_state_t) :=
  {| current_state := current_state s; echo_start_time := echo_start_time s;
     echo_end_time := echo_end_time s;
     measurement_alarm_id := measurement_alarm_id s;
     system_running := system_running s; cmd_buffer := cmd_buffer s;
     cmd_index := v |}.

(** [timeout_callback(id, &g_state)]: the new shared data and the
    returned value ([0]: the alarm is not rescheduled). *)
Definition timeout_callback (id : Z) (state : system_state_t)
  : system_state_t * Z :=
  ((if state_eqb (current_state state) STATE_WAITING_FOR_ECHO
    then set_current_state STATE_MEASUREMENT_ERROR state
    else state),
   0).

(** [echo_callback(gpio, events)]: the new shared data and the SDK calls
    made. *)
Definition echo_callback (gpio events t_rise t_fall : Z) (g : system_state_t)
  : system_state_t * list effect :=
  if gpio =? ECHO_PIN then
    let g1 := if negb (Z.land events GPIO_IRQ_EDGE_RISE =? 0)
              then set_echo_start_time t_rise g else g in
    if negb (Z.land events GPIO_IRQ_EDGE_FALL =? 0) then
      let g2 := set_echo_end_time t_fall g1 in
      if state_eqb (current_state g2) STATE_WAITING_FOR_ECHO
      then (set_current_state STATE_MEASUREMENT_COMPLETE g2,
            [cancel_alarm (measurement_alarm_id g2)])
      else (g2, [])
    else (g1, [])
  else (g, []).

(** One interrupt taken: the callback registered for it runs to its end. *)
Definition handle (i : irq) (g : system_state_t)
  : system_state_t * list effect :=
  match i with
  | gpio_irq gpio events t_rise t_fall =>
      echo_callback gpio events t_rise t_fall g
  | alarm_irq id => (fst (timeout_callback id g), [])
  end.

Fixpoint handle_all (irqs : list irq) (g : system_state_t)
  : system_state_t * list effect :=
  match irqs with
  | [] => (g, [])
  | i :: rest =>
      let '(g1, t1) := handle i g in
      let '(g2, t2) := handle_all rest g1 in
      (g2, t1 ++ t2)
  end.

(** A point of the loop where the given interrupts are taken. *)
Definition preempt (irqs : list irq) : M system_state_t unit :=
  fun g => let '(g', t) := handle_all irqs g in Ok (tt, g', t).

(** [send_trigger_pulse()]; [during] are the interrupts taken in
    [sleep_us(10)]. *)
Definition send_trigger_pulse (during : list irq) : M system_state_t unit :=
  (emit (gpio_put TRIGGER_PIN true) ;;
   emit (sleep_us 10) ;;
   preempt during ;;
   emit (gpio_put TRIGGER_PIN false))%m.

(** The console part of the iteration for a received character [c].
    The value is [true] when the code runs [continue]. *)
Definition console (c : Z) : M system_state_t bool :=
  (emit (putchar c) ;;
   if (c =? 13) || (c =? 10) then
     let* g := fetch in
     if cmd_index g =? 0 then ret true
     else
       let* b := lift (store (cmd_buffer g) (cmd_index g) 0) in
       modify (set_cmd_buffer b) ;;
       let* is_start := lift (strcmp b (literal "start")) in
       (if is_start =? 0 then
          modify (set_system_running true) ;;
          emit (printf msg_started)
        else
          let* is_stop := lift (strcmp b (literal "stop")) in
          if is_stop =? 0 then
            modify (set_system_running false) ;;
            emit (printf msg_stopped)
          else
            emit (printf (msg_unknown b))) ;;
       modify (set_cmd_index 0) ;;
       modify (fun g => set_cmd_buffer (memset0 (cmd_buffer g)) g) ;;
       ret false
   else
     let* g := fetch in
     if cmd_index g <? CMD_BUFFER_SIZE - 1 then
       let* b := lift (store (cmd_buffer g) (cmd_index g) (to_char c)) in
       modify (set_cmd_buffer b) ;;
       modify (set_cmd_index (cmd_index g + 1)) ;;
       ret false
     else ret false)%m.

(** [if (g_state.system_running && g_state.current_state == STATE_IDLE)]. *)
Definition start_measurement (e : env) : M system_state_t unit :=
  (let* g := fetch in
   if system_running g && state_eqb (current_state g) STATE_IDLE then
     send_trigger_pulse (irq_pulse e) ;;
     modify (set_current_state STATE_WAITING_FOR_ECHO) ;;
     emit (add_alarm_in_us MEASUREMENT_TIMEOUT_US) ;;
     modify (set_measurement_alarm_id (new_alarm e))
   else ret tt)%m.

(** [if (current_state == COMPLETE || current_state == ERROR)]. *)
Definition report (e : env) : M system_state_t unit :=
  (let* g := fetch in
   if state_eqb (current_state g) STATE_MEASUREMENT_COMPLETE
      || state_eqb (current_state g) STATE_MEASUREMENT_ERROR then
     let time_str := fmt_time (rtc_now e) in
     (if state_eqb (current_state g) STATE_MEASUREMENT_COMPLETE then
        let duration_us :=
          absolute_time_diff_us (echo_start_time g) (echo_end_time g) in
        let distance := distance_of duration_us in
        emit (printf (report_distance time_str distance))
      else
        emit (printf (report_falha time_str))) ;;
     modify (set_current_state STATE_IDLE) ;;
     let* g := fetch in
     if system_running g then
       emit (sleep_ms 1000) ;; preempt (irq_spacing e)
     else ret tt
   else ret tt)%m.

(** The body of [while (true)]. *)
Definition loop_body (e : env) : M system_state_t unit :=
  (preempt (irq_getchar e) ;;
   let* skip :=
     match in_char e with
     | Some c => console c
     | None => ret false
     end in
   if skip : bool then ret tt
   else
     start_measurement e ;;
     preempt (irq_armed e) ;;
     report e ;;
     emit (sleep_ms 10) ;;
     preempt (irq_poll e))%m.

(** The loop run on a finite schedule. *)
Fixpoint main_loop (es : list env) : M system_state_t unit :=
  match es with
  | [] => ret tt
  | e :: rest => (loop_body e ;; main_loop rest)%m
  end.

End part_001.

(** * part_000: the state machine on global variables *)

Module part_000.

Definition TRIGGER_PIN : Z := 28.
Definition ECHO_PIN : Z := 27.
Definition MEASUREMENT_TIMEOUT_US : Z := 30000.
Definition CMD_BUFFER_SIZE : Z := 64.
(** From the SDK's [hardware/gpio.h]. *)
Definition GPIO_IRQ_EDGE_RISE : Z := 8.
Definition GPIO_IRQ_EDGE_FALL : Z := 4.

Inductive measurement_state_t :=
| STATE_IDLE
| STATE_WAITING_FOR_ECHO
| STATE_MEASUREMENT_COMPLETE
| STATE_MEASUREMENT_ERROR.

Definition state_eqb (a b : measurement_state_t) : bool :=
  match a, b with
  | STATE_IDLE, STATE_IDLE
  | STATE_WAITING_FOR_ECHO, STATE_WAITING_FOR_ECHO
  | STATE_MEASUREMENT_COMPLETE, STATE_MEASUREMENT_COMPLETE
  | STATE_MEASUREMENT_ERROR, STATE_MEASUREMENT_ERROR => true
  | _, _ => false
  end.

(** The global variables of the file, as one record. *)
Record globals := {
  current_state : measurement_state_t;
  echo_start_time : Z;
  echo_end_time : Z;
  measurement_alarm_id : Z;
  system_running : bool;
  cmd_buffer : list Z;
  cmd_index : Z
}.

(** The initializers of the globals; [echo_start_time], [echo_end_time]
    and [cmd_buffer] have none and are zero. *)
Definition boot : globals := {|
  current_state := STATE_IDLE;
  echo_start_time := 0;
  echo_end_time := 0;
  measurement_alarm_id := 0;
  system_running := false;
  cmd_buffer := replicate (Z.to_nat CMD_BUFFER_SIZE) 0;
  cmd_index := 0
|}.

Definition set_current_state v (s : globals) :=
  {| current_state := v; echo_start_time := echo_start_time s;
     echo_end_time := echo_end_time s;
     measurement_alarm_id := measurement_alarm_id s;
     system_running := system_running s; cmd_buffer := cmd_buffer s;
     cmd_index := cmd_index s |}.
Definition set_echo_start_time v (s : globals) :=
  {| current_state := current_state s; echo_start_time := v;
     echo_end_time := echo_end_time s;
     measurement_alarm_id := measurement_alarm_id s;
     system_running := system_running s; cmd_buffer := cmd_buffer s;
     cmd_index := cmd_index s |}.
Definition set_echo_end_time v (s : globals) :=
  {| current_state := current_state s; echo_start_time := echo_start_time s;
     echo_end_time := v;
     measurement_alarm_id := measurement_alarm_id s;
     system_running := system_running s; cmd_buffer := cmd_buffer s;
     cmd_index := cmd_index s |}.
Definition set_measurement_alarm_id v (s : globals) :=
  {| current_state := current_state s; echo_start_time := echo_start_time s;
     echo_end_time := echo_end_time s;
     measurement_alarm_id := v;
     system_running := system_running s; cmd_buffer := cmd_buffer s;
     cmd_index := cmd_index s |}.
Definition set_system_running v (s : globals) :=
  {| current_state := current_state s; echo_start_time := echo_start_time s;
     echo_end_time := echo_end_time s;
     measurement_alarm_id := measurement_alarm_id s;
     system_running := v; cmd_buffer := cmd_buffer s;
     cmd_index := cmd_index s |}.
Definition set_cmd_buffer v (s : globals) :=
  {| current_state := current_state s; echo_start_time := echo_start_time s;
     echo_end_time := echo_end_time s;
     measurement_alarm_id := measurement_alarm_id s;
     system_running := system_running s; cmd_buffer := v;
     cmd_index := cmd_index s |}.
Definition set_cmd_index v (s : globals) :=
  {| current_state := current_state s; echo_start_time := echo_start_time s;
     echo_end_time := echo_end_time s;
     measurement_alarm_id := measurement_alarm_id s;
     system_running := system_running s; cmd_buffer := cmd_buffer s;
     cmd_index := v |}.

(** [timeout_callback(id, NULL)]: the new globals and the returned value
    ([0]: the alarm is not rescheduled). *)
Definition timeout_callback (id : Z) (g : globals) : globals * Z :=
  ((if state_eqb (current_state g) STATE_WAITING_FOR_ECHO
    then set_current_state STATE_MEASUREMENT_ERROR g
    else g),
   0).

(** [echo_callback(gpio, events)]: the new shared data and the SDK calls
    made. *)
Definition echo_callback (gpio events t_rise t_fall : Z) (g : globals)
  : globals * list effect :=
  if gpio =? ECHO_PIN then
    let g1 := if negb (Z.land events GPIO_IRQ_EDGE_RISE =? 0)
              then set_echo_start_time t_rise g else g in
    if negb (Z.land events GPIO_IRQ_EDGE_FALL =? 0) then
      let g2 := set_echo_end_time t_fall g1 in
      if state_eqb (current_state g2) STATE_WAITING_FOR_ECHO
      then (set_current_state STATE_MEASUREMENT_COMPLETE g2,
            [cancel_alarm (measurement_alarm_id g2)])
      else (g2, [])
    else (g1, [])
  else (g, []).

(** One interrupt taken: the callback registered for it runs to its end. *)
Definition handle (i : irq) (g : globals)
  : globals * list effect :=
  match i with
  | gpio_irq gpio events t_rise t_fall =>
      echo_callback gpio events t_rise t_fall g
  | alarm_irq id => (fst (timeout_callback id g), [])
  end.

Fixpoint handle_all (irqs : list irq) (g : globals)
  : globals * list effect :=
  match irqs with
  | [] => (g, [])
  | i :: rest =>
      let '(g1, t1) := handle i g in
      let '(g2, t2) := handle_all rest g1 in
      (g2, t1 ++ t2)
  end.

(** A point of the loop where the given interrupts are taken. *)
Definition preempt (irqs : list irq) : M globals unit :=
  fun g => let '(g', t) := handle_all irqs g in Ok (tt, g', t).

(** [send_trigger_pulse()]; [during] are the interrupts taken in
    [sleep_us(10)]. *)
Definition send_trigger_pulse (during : list irq) : M globals unit :=
  (emit (gpio_put TRIGGER_PIN true) ;;
   emit (sleep_us 10) ;;
   preempt during ;;
   emit (gpio_put TRIGGER_PIN false))%m.

(** The console part of the iteration for a received character [c].
    The value is [true] when the code runs [continue]. *)
Definition console (c : Z) : M globals bool :=
  (emit (putchar c) ;;
   if (c =? 13) || (c =? 10) then
     let* g := fetch in
     if cmd_index g =? 0 then ret true
     else
       let* b := lift (store (cmd_buffer g) (cmd_index g) 0) in
       modify (set_cmd_buffer b) ;;
       let* is_start := lift (strcmp b (literal "start")) in
       (if is_start =? 0 then
          modify (set_system_running true) ;;
          emit (printf msg_started)
        else
          let* is_stop := lift (strcmp b (literal "stop")) in
          if is_stop =? 0 then
            modify (set_system_running false) ;;
            emit (printf msg_stopped)
          else
            emit (printf (msg_unknown b))) ;;
       modify (set_cmd_index 0) ;;
       modify (fun g => set_cmd_buffer (memset0 (cmd_buffer g)) g) ;;
       ret false
   else
     let* g := fetch in
     if cmd_index g <? CMD_BUFFER_SIZE - 1 then
       let* b := lift (store (cmd_buffer g) (cmd_index g) (to_char c)) in
       modify (set_cmd_buffer b) ;;
       modify (set_cmd_index (cmd_index g + 1)) ;;
       ret false
     else ret false)%m.

(** [if (system_running && current_state == STATE_IDLE)]. *)
Definition start_measurement (e : env) : M globals unit :=
  (let* g := fetch in
   if system_running g && state_eqb (current_state g) STATE_IDLE then
     send_trigger_pulse (irq_pulse e) ;;
     modify (set_current_state STATE_WAITING_FOR_ECHO) ;;
     emit (add_alarm_in_us MEASUREMENT_TIMEOUT_US) ;;
     modify (set_measurement_alarm_id (new_alarm e))
   else ret tt)%m.

(** [if (current_state == COMPLETE || current_state == ERROR)]. *)
Definition report (e : env) : M globals unit :=
  (let* g := fetch in
   if state_eqb (current_state g) STATE_MEASUREMENT_COMPLETE
      || state_eqb (current_state g) STATE_MEASUREMENT_ERROR then
     let time_str := fmt_time (rtc_now e) in
     (if state_eqb (current_state g) STATE_MEASUREMENT_COMPLETE then
        let duration_us :=
          absolute_time_diff_us (echo_start_time g) (echo_end_time g) in
        let distance := distance_of duration_us in
        emit (printf (report_distance time_str distance))
      else
        emit (printf (report_falha time_str))) ;;
     modify (set_current_state STATE_IDLE) ;;
     let* g := fetch in
     if system_running g then
       emit (sleep_ms 1000) ;; preempt (irq_spacing e)
     else ret tt
   else ret tt)%m.

(** The body of [while (true)]. *)
Definition loop_body (e : env) : M globals unit :=
  (preempt (irq_getchar e) ;;
   let* skip :=
     match in_char e with
     | Some c => console c
     | None => ret false
     end in
   if skip : bool then ret tt
   else
     start_measurement e ;;
     preempt (irq_armed e) ;;
     report e ;;
     emit (sleep_ms 10) ;;
     preempt (irq_poll e))%m.

(** The loop run on a finite schedule. *)
Fixpoint main_loop (es : list env) : M globals unit :=
  match es with
  | [] => ret tt
  | e :: rest => (loop_body e ;; main_loop rest)%m
  end.

End part_000.

(** * main.c: the flag based version *)

Module main_c.

Definition TRIG_PIN : Z := 15.
Definition ECHO_PIN : Z := 14.
(** [sizeof(command)] for [char command[20]]. *)
Definition sizeof_command : Z := 20.

Record sensor_state_t := {
  alarm_id : Z;
  flag_f_trigger : Z;
  timer_fired : bool;
  action_completed : bool;
  t_descida : Z;
  t_subida : Z
}.

(** The initializer of [sensor_state]; the two timestamps are zero. *)
Definition sensor_state0 : sensor_state_t := {|
  alarm_id := 0;
  flag_f_trigger := 0;
  timer_fired := false;
  action_completed := false;
  t_descida := 0;
  t_subida := 0
|}.

Definition set_alarm_id v (s : sensor_state_t) :=
  {| alarm_id := v; flag_f_trigger := flag_f_trigger s;
     timer_fired := timer_fired s; action_completed := action_completed s;
     t_descida := t_descida s; t_subida := t_subida s |}.
Definition set_flag_f_trigger v (s : sensor_state_t) :=
  {| alarm_id := alarm_id s; flag_f_trigger := v;
     timer_fired := timer_fired s; action_completed := action_completed s;
     t_descida := t_descida s; t_subida := t_subida s |}.
Definition set_timer_fired v (s : sensor_state_t) :=
  {| alarm_id := alarm_id s; flag_f_trigger := flag_f_trigger s;
     timer_fired := v; action_completed := action_completed s;
     t_descida := t_descida s; t_subida := t_subida s |}.
Definition set_action_completed v (s : sensor_state_t) :=
  {| alarm_id := alarm_id s; flag_f_trigger := flag_f_trigger s;
     timer_fired := timer_fired s; action_completed := v;
     t_descida := t_descida s; t_subida := t_subida s |}.
Definition set_t_descida v (s : sensor_state_t) :=
  {| alarm_id := alarm_id s; flag_f_trigger := flag_f_trigger s;
     timer_fired := timer_fired s; action_completed := action_completed s;
     t_descida := v; t_subida := t_subida s |}.
Definition set_t_subida v (s : sensor_state_t) :=
  {| alarm_id := alarm_id s; flag_f_trigger := flag_f_trigger s;
     timer_fired := timer_fired s; action_completed := action_completed s;
     t_descida := t_descida s; t_subida := v |}.

(** [alarm_callback(id, &sensor_state)]. *)
Definition alarm_callback (id : Z) (state : sensor_state_t)
  : sensor_state_t * Z :=
  (set_timer_fired true state, 0).

(** [trigger_callback(gpio, events)]. *)
Definition trigger_callback (gpio events t_rise t_fall : Z)
  (s : sensor_state_t) : sensor_state_t * list effect :=
  let s1 := if (gpio =? ECHO_PIN) && (events =? 8)
            then set_t_subida t_rise s else s in
  if (gpio =? ECHO_PIN) && (events =? 4) && negb (flag_f_trigger s1 =? 0)
  then
    let s2 := set_flag_f_trigger 0 (set_t_descida t_fall s1) in
    let t := if negb (timer_fired s2) && negb (alarm_id s2 =? 0)
             then [cancel_alarm (alarm_id s2)] else [] in
    (set_action_completed true (set_timer_fired false s2), t)
  else (s1, []).

(** The data of the program: the global and the locals of [main]. *)
Record state := {
  sensor_state : sensor_state_t;
  reading_active : bool;
  command : list Z;
  cmd_index : Z;
  last_measurement : Z
}.

Definition set_sensor_state v (m : state) :=
  {| sensor_state := v; reading_active := reading_active m;
     command := command m; cmd_index := cmd_index m;
     last_measurement := last_measurement m |}.
Definition set_reading_active v (m : state) :=
  {| sensor_state := sensor_state m; reading_active := v;
     command := command m; cmd_index := cmd_index m;
     last_measurement := last_measurement m |}.
Definition set_command v (m : state) :=
  {| sensor_state := sensor_state m; reading_active := reading_active m;
     command := v; cmd_index := cmd_index m;
     last_measurement := last_measurement m |}.
Definition set_cmd_index v (m : state) :=
  {| sensor_state := sensor_state m; reading_active := reading_active m;
     command := command m; cmd_index := v;
     last_measurement := last_measurement m |}.
Definition set_last_measurement v (m : state) :=
  {| sensor_state := sensor_state m; reading_active := reading_active m;
     command := command m; cmd_index := cmd_index m;
     last_measurement := v |}.

(** The data when the loop is entered; [t_boot] is the clock reading
    stored in [last_measurement]. *)
Definition boot (t_boot : Z) : state := {|
  sensor_state := sensor_state0;
  reading_active := false;
  command := replicate (Z.to_nat sizeof_command) 0;
  cmd_index := 0;
  last_measurement := t_boot
|}.

Definition handle (i : irq) (m : state) : state * list effect :=
  match i with
  | gpio_irq gpio events t_rise t_fall =>
      let '(s, t) := trigger_callback gpio events t_rise t_fall
                       (sensor_state m) in
      (set_sensor_state s m, t)
  | alarm_irq id =>
      (set_sensor_state (fst (alarm_callback id (sensor_state m))) m, [])
  end.

Fixpoint handle_all (irqs : list irq) (m : state) : state * list effect :=
  match irqs with
  | [] => (m, [])
  | i :: rest =>
      let '(m1, t1) := handle i m in
      let '(m2, t2) := handle_all rest m1 in
      (m2, t1 ++ t2)
  end.

Definition preempt (irqs : list irq) : M state unit :=
  fun m => let '(m', t) := handle_all irqs m in Ok (tt, m', t).

(** What one iteration of [while (true)] receives from outside. *)
Record env := {
  in_char : option Z;       (* getchar_timeout_us(0); None: PICO_ERROR_TIMEOUT *)
  irq_getchar : list irq;   (* taken before the console is read *)
  t_check : Z;              (* get_absolute_time() of the interval test *)
  irq_pulse : list irq;     (* taken during the trigger pulse *)
  new_alarm : Z;            (* what add_alarm_in_ms returns *)
  t_measure_start : Z;      (* get_absolute_time() before the wait loop *)
  ticks : list (list irq * Z);
      (* per sleep_ms(1) of the wait loop: the interrupts taken and the
         clock reading that follows *)
  rtc_now : datetime_t;     (* rtc_get_datetime *)
  t_done : Z;               (* get_absolute_time() stored in last_measurement *)
  irq_poll : list irq       (* taken during sleep_ms(10) *)
}.

(** The console part of the iteration for a received character [ch]. *)
Definition console (ch : Z) : M state unit :=
  (if (ch =? 10) || (ch =? 13) then
     let* m := fetch in
     if 0 <? cmd_index m then
       let* b := lift (store (command m) (cmd_index m) 0) in
       modify (set_command b) ;;
       let* is_start := lift (strcmp b (literal "start")) in
       (if is_start =? 0 then
          modify (set_reading_active true) ;;
          emit (printf msg_leitura_iniciada)
        else
          let* is_stop := lift (strcmp b (literal "stop")) in
          if is_stop =? 0 then
            modify (set_reading_active false) ;;
            emit (printf msg_leitura_parada)
          else
            emit (printf msg_desconhecido)) ;;
       modify (set_cmd_index 0) ;;
       modify (fun m => set_command (memset0 (command m)) m)
     else ret tt
   else
     let* m := fetch in
     if cmd_index m <? sizeof_command - 1 then
       let* b := lift (store (command m) (cmd_index m) (to_char ch)) in
       modify (set_command b) ;;
       modify (set_cmd_index (cmd_index m + 1))
     else ret tt)%m.

(** [while (!action_completed && !timer_fired) { sleep_ms(1); ... break; }] *)
Fixpoint wait_loop (measure_start : Z) (ts : list (list irq * Z))
  : M state unit :=
  (let* m := fetch in
   if negb (action_completed (sensor_state m))
      && negb (timer_fired (sensor_state m)) then
     match ts with
     | [] => throw no_more_ticks
     | (irqs, now) :: rest =>
         emit (sleep_ms 1) ;;
         preempt irqs ;;
         if absolute_time_diff_us measure_start now >? 1000000
         then ret tt
         else wait_loop measure_start rest
     end
   else ret tt)%m.

(** [print_datetime()]. *)
Definition print_datetime (now : datetime_t) : M state unit :=
  emit (printf (datetime_prefix (fmt_time now ++ " - ")%string)).

(** The three-way [if] that prints the result. *)
Definition print_result : M state unit :=
  (let* m := fetch in
   let s := sensor_state m in
   if action_completed s then
     let pulse_duration := absolute_time_diff_us (t_subida s) (t_descida s) in
     let distance := distance_of pulse_duration in
     emit (printf (distance_cm distance))
   else if timer_fired s then
     emit (printf falha)
   else
     emit (printf leitura_nao_concluida))%m.

(** [if (reading_active && absolute_time_diff_us(...) >= 1000 * 1000)]. *)
Definition measure (e : env) : M state unit :=
  (let* m := fetch in
   if reading_active m
      && (1000 * 1000 <=? absolute_time_diff_us (last_measurement m) (t_check e))
   then
     modify (fun m => set_sensor_state
                        (set_action_completed false
                           (set_timer_fired false
                              (set_flag_f_trigger 1 (sensor_state m)))) m) ;;
     emit (gpio_put TRIG_PIN true) ;;
     emit (sleep_us 10) ;;
     preempt (irq_pulse e) ;;
     emit (gpio_put TRIG_PIN false) ;;
     emit (add_alarm_in_ms 500) ;;
     modify (fun m => set_sensor_state
                        (set_alarm_id (new_alarm e) (sensor_state m)) m) ;;
     wait_loop (t_measure_start e) (ticks e) ;;
     (let* m := fetch in emit (cancel_alarm (alarm_id (sensor_state m)))) ;;
     print_datetime (rtc_now e) ;;
     print_result ;;
     modify (set_last_measurement (t_done e))
   else ret tt)%m.

(** The body of [while (true)]. *)
Definition loop_body (e : env) : M state unit :=
  (preempt (irq_getchar e) ;;
   match in_char e with
   | Some ch => console ch
   | None => ret tt
   end ;;
   measure e ;;
   emit (sleep_ms 10) ;;
   preempt (irq_poll e))%m.

Fixpoint main_loop (es : list env) : M state unit :=
  match es with
  | [] => ret tt
  | e :: rest => (loop_body e ;; main_loop rest)%m
  end.

End main_c.

(** * Observations on traces and on the shared data *)

Definition is_cancel (e : effect) : bool :=
  match e with cancel_alarm _ => true | _ => false end.

(** The calls that make a trigger pulse or arm a timeout. *)
Definition is_trigger (e : effect) : bool :=
  match e with
  | gpio_put _ _ | sleep_us _ | add_alarm_in_us _ | add_alarm_in_ms _ => true
  | _ => false
  end.

(** The result lines of part_000 and part_001. *)
Definition is_report (e : effect) : bool :=
  match e with
  | printf (report_distance _ _) | printf (report_falha _) => true
  | _ => false
  end.

(** The budgets, in microseconds, of the alarms armed along a trace. *)
Fixpoint armed_budgets_us (t : list effect) : list Z :=
  match t with
  | [] => []
  | add_alarm_in_us us :: rest => us :: armed_budgets_us rest
  | add_alarm_in_ms ms :: rest => (1000 * ms) :: armed_budgets_us rest
  | _ :: rest => armed_budgets_us rest
  end.

Module obs_001.
Import part_001.

(** Number of transitions out of [STATE_WAITING_FOR_ECHO] along a list of
    interrupts. *)
Fixpoint exits (irqs : list irq) (g : system_state_t) : nat :=
  match irqs with
  | [] => 0
  | i :: rest =>
      let g' := fst (handle i g) in
      ((if state_eqb (current_state g) STATE_WAITING_FOR_ECHO
           && negb (state_eqb (current_state g') STATE_WAITING_FOR_ECHO)
        then 1 else 0) + exits rest g')%nat
  end.

(** The fields no interrupt writes. *)
Definition same_console (g g' : system_state_t) : Prop :=
  system_running g' = system_running g /\
  cmd_buffer g' = cmd_buffer g /\
  cmd_index g' = cmd_index g /\
  measurement_alarm_id g' = measurement_alarm_id g.

(** The fields the console part does not write. *)
Definition same_measurement (g g' : system_state_t) : Prop :=
  current_state g' = current_state g /\
  echo_start_time g' = echo_start_time g /\
  echo_end_time g' = echo_end_time g /\
  measurement_alarm_id g' = measurement_alarm_id g.

(** The end of the result phase: the reset to [STATE_IDLE] and the pause
    between measurements. *)
Definition spacing (e : env) (g : system_state_t)
  : system_state_t * list effect :=
  if system_running g
  then (fst (handle_all (irq_spacing e) (set_current_state STATE_IDLE g)),
        [sleep_ms 1000])
  else (set_current_state STATE_IDLE g, []).

(** The command buffer has its declared size and the index is inside. *)
Definition buffer_ok (g : system_state_t) : Prop :=
  length (cmd_buffer g) = Z.to_nat CMD_BUFFER_SIZE /\
  0 <= cmd_index g <= CMD_BUFFER_SIZE - 1.

(** A falling edge on the echo pin. *)
Definition is_fall (i : irq) : Prop :=
  match i with
  | gpio_irq gpio events _ _ =>
      gpio = ECHO_PIN /\ Z.land events GPIO_IRQ_EDGE_FALL <> 0
  | alarm_irq _ => False
  end.

(** The start timestamp after the interrupts [irqs], taken in this order,
    when it was [old] before: the clock reading of the last event on the
    echo pin that has the rising bit, whatever the state. *)
Fixpoint last_rise (irqs : list irq) (old : Z) : Z :=
  match irqs with
  | [] => old
  | gpio_irq gpio events t_rise _ :: rest =>
      last_rise rest
        (if (gpio =? ECHO_PIN)
            && negb (Z.land events GPIO_IRQ_EDGE_RISE =? 0)
         then t_rise else old)
  | alarm_irq _ :: rest => last_rise rest old
  end.

(** The end timestamp after the interrupts [irqs]: the clock reading of
    the last event on the echo pin that has the falling bit, whatever the
    state. *)
Fixpoint last_fall (irqs : list irq) (old : Z) : Z :=
  match irqs with
  | [] => old
  | gpio_irq gpio events _ t_fall :: rest =>
      last_fall rest
        (if (gpio =? ECHO_PIN)
            && negb (Z.land events GPIO_IRQ_EDGE_FALL =? 0)
         then t_fall else old)
  | alarm_irq _ :: rest => last_fall rest old
  end.
End obs_001.

Module obs_000.
Import part_000.

(** Number of transitions out of [STATE_WAITING_FOR_ECHO] along a list of
    interrupts. *)
Fixpoint exits (irqs : list irq) (g : globals) : nat :=
  match irqs with
  | [] => 0
  | i :: rest =>
      let g' := fst (handle i g) in
      ((if state_eqb (current_state g) STATE_WAITING_FOR_ECHO
           && negb (state_eqb (current_state g') STATE_WAITING_FOR_ECHO)
        then 1 else 0) + exits rest g')%nat
  end.

(** The fields no interrupt writes. *)
Definition same_console (g g' : globals) : Prop :=
  system_running g' = system_running g /\
  cmd_buffer g' = cmd_buffer g /\
  cmd_index g' = cmd_index g /\
  measurement_alarm_id g' = measurement_alarm_id g.

(** The fields the console part does not write. *)
Definition same_measurement (g g' : globals) : Prop :=
  current_state g' = current_state g /\
  echo_start_time g' = echo_start_time g /\
  echo_end_time g' = echo_end_time g /\
  measurement_alarm_id g' = measurement_alarm_id g.

(** The end of the result phase: the reset to [STATE_IDLE] and the pause
    between measurements. *)
Definition spacing (e : env) (g : globals)
  : globals * list effect :=
  if system_running g
  then (fst (handle_all (irq_spacing e) (set_current_state STATE_IDLE g)),
        [sleep_ms 1000])
  else (set_current_state STATE_IDLE g, []).

(** The command buffer has its declared size and the index is inside. *)
Definition buffer_ok (g : globals) : Prop :=
  length (cmd_buffer g) = Z.to_nat CMD_BUFFER_SIZE /\
  0 <= cmd_index g <= CMD_BUFFER_SIZE - 1.

(** A falling edge on the echo pin. *)
Definition is_fall (i : irq) : Prop :=
  match i with
  | gpio_irq gpio events _ _ =>
      gpio = ECHO_PIN /\ Z.land events GPIO_IRQ_EDGE_FALL <> 0
  | alarm_irq _ => False
  end.

(** The start timestamp after the interrupts [irqs], taken in this order,
    when it was [old] before: the clock reading of the last event on the
    echo pin that has the rising bit, whatever the state. *)
Fixpoint last_rise (irqs : list irq) (old : Z) : Z :=
  match irqs with
  | [] => old
  | gpio_irq gpio events t_rise _ :: rest =>
      last_rise rest
        (if (gpio =? ECHO_PIN)
            && negb (Z.land events GPIO_IRQ_EDGE_RISE =? 0)
         then t_rise else old)
  | alarm_irq _ :: rest => last_rise rest old
  end.

(** The end timestamp after the interrupts [irqs]: the clock reading of
    the last event on the echo pin that has the falling bit, whatever the
    state. *)
Fixpoint last_fall (irqs : list irq) (old : Z) : Z :=
  match irqs with
  | [] => old
  | gpio_irq gpio events _ t_fall :: rest =>
      last_fall rest
        (if (gpio =? ECHO_PIN)
            && negb (Z.land events GPIO_IRQ_EDGE_FALL =? 0)
         then t_fall else old)
  | alarm_irq _ :: rest => last_fall rest old
  end.
End obs_000.

Module obs_main.
Import main_c.

(** The locals of [main] that no interrupt and no measurement writes. *)
Definition same_locals (m m' : state) : Prop :=
  reading_active m' = reading_active m /\
  command m' = command m /\
  cmd_index m' = cmd_index m.

(** [command] has its declared size and the index is inside. *)
Definition buffer_ok (m : state) : Prop :=
  length (command m) = Z.to_nat sizeof_command /\
  0 <= cmd_index m <= sizeof_command - 1.

(** The result lines of main.c. *)
Definition is_result (e : effect) : bool :=
  match e with
  | printf (distance_cm _) | printf falha | printf leitura_nao_concluida =>
      true
  | _ => false
  end.

(** The data when the pulse starts: the three flags are written, the two
    timestamps are not. *)
Definition armed (m : state) : state :=
  set_sensor_state
    (set_action_completed false
       (set_timer_fired false (set_flag_f_trigger 1 (sensor_state m)))) m.

(** [t_subida] after the interrupts [irqs], taken in this order, when it
    was [old] before: the clock reading of the last rising edge event on
    the echo pin. *)
Fixpoint last_rise (irqs : list irq) (old : Z) : Z :=
  match irqs with
  | [] => old
  | gpio_irq gpio events t_rise _ :: rest =>
      last_rise rest
        (if (gpio =? ECHO_PIN) && (events =? 8) then t_rise else old)
  | alarm_irq _ :: rest => last_rise rest old
  end.

(** The line the three-way [if] prints. *)
Definition result_line (m : state) : line :=
  if action_completed (sensor_state m) then
    distance_cm
      (distance_of
         (absolute_time_diff_us (t_subida (sensor_state m))
            (t_descida (sensor_state m))))
  else if timer_fired (sensor_state m) then falha
  else leitura_nao_concluida.
End obs_main.

(** * Observations on binary32 rounding *)

Module rounding.
(** What [n] applications of [shr_1] leave of a non-negative mantissa
    [M]: the quotient, the last bit shifted out, and whether any bit
    before it was set. *)
Definition shifted (M n : Z) (mrs : shr_record) : Prop :=
  shr_m mrs = M / 2 ^ n /\
  shr_r mrs = (0 <? n) && Z.testbit M (n - 1) /\
  shr_s mrs = (0 <? n) && negb (M mod 2 ^ (n - 1) =? 0).

(** [x] is [y] up to one rounding of binary32 (relative error 2^-24). *)
Definition near (x y : Q) : Prop :=
  ((1 - (1 # 16777216)) * y <= x /\ x <= (1 + (1 # 16777216)) * y)%Q.
End rounding.

(** * Concrete runs used as examples *)

Module scenario.

Definition rtc0 : datetime_t :=
  {| year := 2025; month := 3; day := 19; dotw := 3;
     hour := 10; min := 0; sec := 0 |}.

(** An iteration of part_000 / part_001 that takes the interrupts [irqs]
    before it reads the console character [c]. *)
Definition iteration (c : option Z) (irqs : list irq) : env :=
  {| in_char := c; irq_getchar := irqs; irq_pulse := []; new_alarm := 1;
     irq_armed := []; rtc_now := rtc0; irq_spacing := []; irq_poll := [] |}.

Definition typed (s : string) : list env :=
  List.map (fun a => iteration (Some (code a)) []) (list_ascii_of_string s).

(** ["start"] and Enter; a first echo from 100 us to 700 us; a second
    trigger; a second echo of which only the falling edge, at
    1020000 us, is seen. *)
Definition two_cycles : list env :=
  typed "start" ++
  [iteration (Some 13) [];
   iteration None [gpio_irq 27 8 100 0; gpio_irq 27 4 0 700];
   iteration None [];
   iteration None [gpio_irq 27 4 0 1020000]].

(** An iteration of main.c at clock reading [now]: no echo arrives and the
    alarm, armed with id 1, fires after 500 ms. *)
Definition iteration_main (c : option Z) (now : Z) : main_c.env :=
  {| main_c.in_char := c; main_c.irq_getchar := [];
     main_c.t_check := now; main_c.irq_pulse := [];
     main_c.new_alarm := 1; main_c.t_measure_start := now;
     main_c.ticks := [([], now + 1000); ([alarm_irq 1], now + 500000)];
     main_c.rtc_now := rtc0; main_c.t_done := now + 500001;
     main_c.irq_poll := [] |}.

(** An iteration of main.c at clock reading [now] in which no alarm
    could be armed ([add_alarm_in_ms] returns -1) and no echo arrives:
    the wait loop sees the clock pass one second. *)
Definition unarmed_main (now : Z) : main_c.env :=
  {| main_c.in_char := None; main_c.irq_getchar := [];
     main_c.t_check := now; main_c.irq_pulse := [];
     main_c.new_alarm := -1; main_c.t_measure_start := now;
     main_c.ticks := [([], now + 1000); ([], now + 1000001)];
     main_c.rtc_now := rtc0; main_c.t_done := now + 1000002;
     main_c.irq_poll := [] |}.

(** The data of main.c after ["start"] was received. *)
Definition started_main : main_c.state :=
  main_c.set_reading_active true (main_c.boot 0).

(** [sensor_state] of main.c after a completed measurement. *)
Definition completed_main : main_c.sensor_state_t :=
  {| main_c.alarm_id := 1; main_c.flag_f_trigger := 0;
     main_c.timer_fired := false; main_c.action_completed := true;
     main_c.t_descida := 700; main_c.t_subida := 100 |}.

(** The shared data of part_001 and part_000 while a measurement armed
    with alarm 1 is awaited and the run flag is clear. *)
Definition awaiting_001 : part_001.system_state_t :=
  part_001.set_measurement_alarm_id 1
    (part_001.set_current_state part_001.STATE_WAITING_FOR_ECHO
       part_001.g_state).

Definition awaiting_000 : part_000.globals :=
  part_000.set_measurement_alarm_id 1
    (part_000.set_current_state part_000.STATE_WAITING_FOR_ECHO
       part_000.boot).


Definition trace_of {S A} (r : result (A * S * list effect)) : list effect :=
  match r with
  | Ok (_, _, t) => t
  | Err _ => []
  end.
End scenario.

(** * Observations on whole runs: the console, the tallies, the two layouts *)

(** The characters of a string literal, without the terminating NUL. *)
Definition chars (s : string) : list Z :=
  List.map code (list_ascii_of_string s).

(** The C string an array holds: what precedes its first NUL. *)
Fixpoint c_str (a : list Z) : list Z :=
  match a with
  | [] => []
  | c :: rest => if c =? 0 then [] else c :: c_str rest
  end.

(** What a cleared array of [size] cells holds after the characters [cs]
    were stored from index 0 on, the last cell being kept free. *)
Definition typed_buffer (size : nat) (cs : list Z) : list Z :=
  let l := take (size - 1) (List.map to_char cs) in
  l ++ replicate (size - length l) 0.

Definition is_putchar (e : effect) : bool :=
  match e with putchar _ => true | _ => false end.

(** What the console part writes: the echo and the answer to a command. *)
Definition is_console (e : effect) : bool :=
  match e with
  | putchar _
  | printf msg_started | printf msg_stopped | printf (msg_unknown _)
  | printf msg_leitura_iniciada | printf msg_leitura_parada
  | printf msg_desconhecido => true
  | _ => false
  end.

(** The result lines of part_000 and part_001 that carry a distance. *)
Definition is_distance (e : effect) : bool :=
  match e with printf (report_distance _ _) => true | _ => false end.

(** [sleep_ms(1)] of the wait loop of main.c. *)
Definition is_tick (e : effect) : bool :=
  match e with sleep_ms 1 => true | _ => false end.

(** The lines of a measurement of main.c: the time prefix and the result. *)
Definition is_measurement_line (e : effect) : bool :=
  match e with
  | printf (datetime_prefix _) | printf (distance_cm _) | printf falha
  | printf leitura_nao_concluida => true
  | _ => false
  end.

Definition is_alarm_irq (i : irq) : bool :=
  match i with alarm_irq _ => true | gpio_irq _ _ _ _ => false end.

(** A computation all of whose runs are related by [R]: start data, end
    data, trace. *)
Definition respects {S X : Type} (R : S -> S -> list effect -> Prop)
  (m : M S X) : Prop :=
  forall s x s' t, m s = Ok (x, s', t) -> R s s' t.

Module run_001.
Import part_001.

(** A measurement is under way or awaits its report. *)
Definition pending (g : system_state_t) : nat :=
  if state_eqb (current_state g) STATE_IDLE then 0 else 1.

(** A completed measurement awaits its report. *)
Definition completed (g : system_state_t) : nat :=
  if state_eqb (current_state g) STATE_MEASUREMENT_COMPLETE then 1 else 0.

(** The calls of one transition from [STATE_IDLE] to
    [STATE_WAITING_FOR_ECHO]. *)
Definition pulse : list effect :=
  [gpio_put TRIGGER_PIN true; sleep_us 10; gpio_put TRIGGER_PIN false;
   add_alarm_in_us MEASUREMENT_TIMEOUT_US].

(** Every trigger call of the trace belongs to a whole [pulse], and every
    alarm armed is matched by a result line or by the measurement still
    under way. *)
Definition tally (g g' : system_state_t) (t : list effect) : Prop :=
  List.filter is_trigger t
  = concat (replicate (length (armed_budgets_us t)) pulse) /\
  (length (armed_budgets_us t) + pending g
   = length (List.filter is_report t) + pending g')%nat.

(** Every cell from [cmd_index] on is NUL. *)
Definition tail_zero (g : system_state_t) : Prop :=
  forall i : nat,
    (Z.to_nat (cmd_index g) <= i < length (cmd_buffer g))%nat ->
    cmd_buffer g !! i = Some 0.

(** The fields the console part works on. *)
Definition console_view (g : system_state_t) : bool * list Z * Z :=
  (system_running g, cmd_buffer g, cmd_index g).

(** What Enter makes of the buffer [b]: the run flag and the answer. *)
Definition command (running : bool) (b : list Z) : bool * line :=
  if bool_decide (c_str b = chars "start") then (true, msg_started)
  else if bool_decide (c_str b = chars "stop") then (false, msg_stopped)
  else (running, msg_unknown b).

(** A phase that leaves the console alone. *)
Definition beside_console (g g' : system_state_t) (t : list effect) : Prop :=
  console_view g' = console_view g /\ List.filter is_console t = [].

(** Every [cancel_alarm] is matched by a distance line or by the completed
    measurement that awaits its report. *)
Definition settled (g g' : system_state_t) (t : list effect) : Prop :=
  (length (List.filter is_cancel t) + completed g
   = length (List.filter is_distance t) + completed g')%nat.
End run_001.

Module run_main.
Import main_c.

(** The calls of one trigger pulse and its alarm. *)
Definition pulse : list effect :=
  [gpio_put TRIG_PIN true; sleep_us 10; gpio_put TRIG_PIN false;
   add_alarm_in_ms 500].

Definition tail_zero (m : state) : Prop :=
  forall i : nat,
    (Z.to_nat (cmd_index m) <= i < length (command m))%nat ->
    command m !! i = Some 0.

Definition console_view (m : state) : bool * list Z * Z :=
  (reading_active m, command m, cmd_index m).

(** What Enter makes of the buffer [b]: the run flag and the answer. *)
Definition command_of (active : bool) (b : list Z) : bool * line :=
  if bool_decide (c_str b = chars "start") then (true, msg_leitura_iniciada)
  else if bool_decide (c_str b = chars "stop")
       then (false, msg_leitura_parada)
       else (active, msg_desconhecido).

(** A phase that leaves the console alone. *)
Definition beside_console (m m' : state) (t : list effect) : Prop :=
  console_view m' = console_view m /\ List.filter is_console t = [].

(** The trace of whole measurements: every trigger call belongs to a whole
    [pulse]; the lines come in pairs, a time prefix and a result; every
    measurement cancels its alarm at least once. *)
Definition measured (m m' : state) (t : list effect) : Prop :=
  exists rs : list (string * line),
    List.filter is_trigger t = concat (replicate (length rs) pulse) /\
    List.filter is_measurement_line t
    = flat_map (fun r => [printf (datetime_prefix (fst r)); printf (snd r)])
        rs /\
    Forall (fun r => obs_main.is_result (printf (snd r)) = true) rs /\
    (length rs <= length (List.filter is_cancel t))%nat.

(** As long as no result is printed, [last_measurement] is kept. *)
Definition last_kept (m m' : state) (t : list effect) : Prop :=
  List.filter obs_main.is_result t = [] ->
  last_measurement m' = last_measurement m.

(** The measurement has ended: the echo or the alarm was seen. *)
Definition marked (m : state) : bool :=
  action_completed (sensor_state m) || timer_fired (sensor_state m).

(** A falling edge on the echo pin as [trigger_callback] tests it. *)
Definition is_fall (i : irq) : bool :=
  match i with
  | gpio_irq gpio events _ _ => (gpio =? ECHO_PIN) && (events =? 4)
  | alarm_irq _ => false
  end.

(** An event [trigger_callback] acts on: exactly one edge of the echo
    pin. *)
Definition is_edge (i : irq) : bool :=
  match i with
  | gpio_irq gpio events _ _ =>
      (gpio =? ECHO_PIN) && ((events =? 8) || (events =? 4))
  | alarm_irq _ => false
  end.
End run_main.

(** * main.c: the measurement block, access by access

    [main_c.measure] takes interrupts where the block sleeps.  The block
    runs with interrupts enabled, so a callback may also run between any
    two of its accesses to [sensor_state].  Here the same block takes
    interrupts at each of these places as well: between the three stores
    that arm the flags, between the store of [alarm_id] and the first test
    of the wait loop, between the two reads of each test, after the last
    test, and between the read of [action_completed] by the result [if] and
    what it reads next.  The callbacks and the data are those of
    [main_c]. *)
Module measure_block.
Import main_c.

(** One turn of the wait loop. *)
Record tick := {
  irq_test : list irq;   (* taken between the two reads of the loop test *)
  irq_sleep : list irq;  (* taken from there until sleep_ms(1) and the
                            break test are done *)
  t_now : Z              (* get_absolute_time() of the break test *)
}.

(** What one run of the block receives from outside. *)
Record env := {
  t_check : Z;              (* get_absolute_time() of the interval test *)
  irq_flag : list irq;      (* between the stores of flag_f_trigger and
                               timer_fired *)
  irq_fired : list irq;     (* between the stores of timer_fired and
                               action_completed *)
  irq_pulse : list irq;     (* from the store of action_completed to the
                               store of alarm_id: the trigger pulse *)
  new_alarm : Z;            (* what add_alarm_in_ms returns *)
  irq_armed : list irq;     (* from the store of alarm_id to the first test
                               of the wait loop *)
  t_measure_start : Z;      (* get_absolute_time() before the wait loop *)
  ticks : list tick;
  irq_exit : list irq;      (* from the end of the wait loop to the read of
                               action_completed by the result if *)
  rtc_now : datetime_t;     (* rtc_get_datetime *)
  irq_result : list irq;    (* from that read to the next read of the
                               result if *)
  t_done : Z                (* get_absolute_time() stored in
                               last_measurement *)
}.

(** l.136-143: the three stores, the trigger pulse, the alarm. *)
Definition arm (e : env) : M state unit :=
  (modify (fun m => set_sensor_state
                      (set_flag_f_trigger 1 (sensor_state m)) m) ;;
   preempt (irq_flag e) ;;
   modify (fun m => set_sensor_state
                      (set_timer_fired false (sensor_state m)) m) ;;
   preempt (irq_fired e) ;;
   modify (fun m => set_sensor_state
                      (set_action_completed false (sensor_state m)) m) ;;
   emit (gpio_put TRIG_PIN true) ;;
   emit (sleep_us 10) ;;
   preempt (irq_pulse e) ;;
   emit (gpio_put TRIG_PIN false) ;;
   emit (add_alarm_in_ms 500) ;;
   modify (fun m => set_sensor_state
                      (set_alarm_id (new_alarm e) (sensor_state m)) m) ;;
   preempt (irq_armed e))%m.

(** l.146-151: [&&] reads [action_completed], and [timer_fired] only when
    the former is false.  The clock readings run out only where the loop
    would sleep. *)
Fixpoint wait_loop (measure_start : Z) (ts : list tick) : M state unit :=
  (let* m := fetch in
   if action_completed (sensor_state m) then ret tt
   else
     preempt (match ts with [] => [] | tk :: _ => irq_test tk end) ;;
     let* m := fetch in
     if timer_fired (sensor_state m) then ret tt
     else
       match ts with
       | [] => throw no_more_ticks
       | tk :: rest =>
           emit (sleep_ms 1) ;;
           preempt (irq_sleep tk) ;;
           if absolute_time_diff_us measure_start (t_now tk) >? 1000000
           then ret tt
           else wait_loop measure_start rest
       end)%m.

(** l.155-168: [action_completed] is read first; the timestamps, or
    [timer_fired], are read after the interrupts [between]. *)
Definition print_result (between : list irq) : M state unit :=
  (let* m := fetch in
   let completed := action_completed (sensor_state m) in
   preempt between ;;
   let* m := fetch in
   let s := sensor_state m in
   if completed then
     let pulse_duration := absolute_time_diff_us (t_subida s) (t_descida s) in
     let distance := distance_of pulse_duration in
     emit (printf (distance_cm distance))
   else if timer_fired s then
     emit (printf falha)
   else
     emit (printf leitura_nao_concluida))%m.

(** l.152-169. *)
Definition finish (e : env) : M state unit :=
  (preempt (irq_exit e) ;;
   (let* m := fetch in emit (cancel_alarm (alarm_id (sensor_state m)))) ;;
   print_datetime (rtc_now e) ;;
   print_result (irq_result e) ;;
   modify (set_last_measurement (t_done e)))%m.

(** l.134-170. *)
Definition measure (e : env) : M state unit :=
  (let* m := fetch in
   if reading_active m
      && (1000 * 1000 <=? absolute_time_diff_us (last_measurement m) (t_check e))
   then
     arm e ;;
     wait_loop (t_measure_start e) (ticks e) ;;
     finish e
   else ret tt)%m.

(** The interrupts of a schedule of [main_c.measure], taken at the same
    places and nowhere else. *)
Definition in_sleeps (e : main_c.env) : env :=
  {| t_check := main_c.t_check e;
     irq_flag := []; irq_fired := [];
     irq_pulse := main_c.irq_pulse e;
     new_alarm := main_c.new_alarm e;
     irq_armed := [];
     t_measure_start := main_c.t_measure_start e;
     ticks := List.map (fun tk => {| irq_test := []; irq_sleep := fst tk;
                                     t_now := snd tk |}) (main_c.ticks e);
     irq_exit := [];
     rtc_now := main_c.rtc_now e;
     irq_result := [];
     t_done := main_c.t_done e |}.

(** The interrupts taken in the first [k] turns of the wait loop. *)
Definition taken (k : nat) (ts : list tick) : list irq :=
  flat_map (fun tk => irq_test tk ++ irq_sleep tk) (take k ts).

(** In the data [m]: [flag_f_trigger] is clear and the measurement is
    not completed, so a falling edge is ignored. *)
Definition deaf (m : state) : Prop :=
  flag_f_trigger (sensor_state m) = 0 /\
  action_completed (sensor_state m) = false.
End measure_block.

(** The data of part_001 laid out as the global variables of part_000. *)
Module layout.

Definition state_of (s : part_001.measurement_state_t)
  : part_000.measurement_state_t :=
  match s with
  | part_001.STATE_IDLE => part_000.STATE_IDLE
  | part_001.STATE_WAITING_FOR_ECHO => part_000.STATE_WAITING_FOR_ECHO
  | part_001.STATE_MEASUREMENT_COMPLETE => part_000.STATE_MEASUREMENT_COMPLETE
  | part_001.STATE_MEASUREMENT_ERROR => part_000.STATE_MEASUREMENT_ERROR
  end.

Definition globals_of (g : part_001.system_state_t) : part_000.globals :=
  {| part_000.current_state := state_of (part_001.current_state g);
     part_000.echo_start_time := part_001.echo_start_time g;
     part_000.echo_end_time := part_001.echo_end_time g;
     part_000.measurement_alarm_id := part_001.measurement_alarm_id g;
     part_000.system_running := part_001.system_running g;
     part_000.cmd_buffer := part_001.cmd_buffer g;
     part_000.cmd_index := part_001.cmd_index g |}.

(** Two runs, one of each version, that end alike: the same value, the
    same trace and the same data, or the same error. *)
Definition same_run {X : Type}
  (r1 : result (X * part_001.system_state_t * list effect))
  (r0 : result (X * part_000.globals * list effect)) : Prop :=
  match r1, r0 with
  | Ok (x1, g1, t1), Ok (x0, g0, t0) =>
      x0 = x1 /\ g0 = globals_of g1 /\ t0 = t1
  | Err e1, Err e0 => e0 = e1
  | _, _ => False
  end.
End layout.

(** * Further concrete runs *)

Module examples.

(** part_001: a completed measurement, from 100 us to 700 us, awaits its
    report while the run flag is set. *)
Definition completed_001 : part_001.system_state_t :=
  part_001.set_system_running true
    (part_001.set_current_state part_001.STATE_MEASUREMENT_COMPLETE
       (part_001.set_echo_end_time 700
          (part_001.set_echo_start_time 100 part_001.g_state))).

(** Iterations of main.c at clock reading 0 that receive the characters
    of [s]. *)
Definition typed_main (s : string) : list main_c.env :=
  List.map (fun a => scenario.iteration_main (Some (code a)) 0)
    (list_ascii_of_string s).

(** main.c after ["start"], at the moment the trigger pulse begins. *)
Definition pending_main : main_c.state :=
  obs_main.armed scenario.started_main.

(** A run of the measurement block of main.c at clock reading [t0] in
    which the echo pin falls 5 us into the trigger pulse; the schedule of
    the wait loop is empty. *)
Definition early_echo_main (t0 : Z) : measure_block.env :=
  {| measure_block.t_check := t0;
     measure_block.irq_flag := []; measure_block.irq_fired := [];
     measure_block.irq_pulse := [gpio_irq main_c.ECHO_PIN 4 0 (t0 + 5)];
     measure_block.new_alarm := 2; measure_block.irq_armed := [];
     measure_block.t_measure_start := t0 + 20;
     measure_block.ticks := [];
     measure_block.irq_exit := [];
     measure_block.rtc_now := scenario.rtc0;
     measure_block.irq_result := [];
     measure_block.t_done := t0 + 30 |}.

(** A run of the block in which the echo pin falls between the stores of
    [flag_f_trigger] and [timer_fired], and the alarm fires during the
    first sleep of the wait loop. *)
Definition erased_echo_main (t0 : Z) : measure_block.env :=
  {| measure_block.t_check := t0;
     measure_block.irq_flag := [gpio_irq main_c.ECHO_PIN 4 0 t0];
     measure_block.irq_fired := [];
     measure_block.irq_pulse := [];
     measure_block.new_alarm := 2; measure_block.irq_armed := [];
     measure_block.t_measure_start := t0 + 20;
     measure_block.ticks :=
       [{| measure_block.irq_test := [];
           measure_block.irq_sleep := [alarm_irq 2];
           measure_block.t_now := t0 + 500020 |}];
     measure_block.irq_exit := [];
     measure_block.rtc_now := scenario.rtc0;
     measure_block.irq_result := [];
     measure_block.t_done := t0 + 500030 |}.

(** A run of the block in which the alarm fires during the wait and the
    echo pin falls between the two reads of the result [if]. *)
Definition late_echo_main (t0 : Z) : measure_block.env :=
  {| measure_block.t_check := t0;
     measure_block.irq_flag := []; measure_block.irq_fired := [];
     measure_block.irq_pulse := [];
     measure_block.new_alarm := 2; measure_block.irq_armed := [];
     measure_block.t_measure_start := t0 + 20;
     measure_block.ticks :=
       [{| measure_block.irq_test := [];
           measure_block.irq_sleep := [alarm_irq 2];
           measure_block.t_now := t0 + 500020 |}];
     measure_block.irq_exit := [];
     measure_block.rtc_now := scenario.rtc0;
     measure_block.irq_result :=
       [gpio_irq main_c.ECHO_PIN 4 0 (t0 + 500025)];
     measure_block.t_done := t0 + 500030 |}.

(** A run of the block in which no alarm could be armed and no echo
    arrives: the wait loop sees the clock pass one second. *)
Definition unarmed_block_main (t0 : Z) : measure_block.env :=
  measure_block.in_sleeps (scenario.unarmed_main t0).

(** An RTC reading with a field at each end of [int8_t]. *)
Definition rtc_extreme : datetime_t :=
  {| year := 2025; month := 3; day := 19; dotw := 3;
     hour := -128; min := 127; sec := -1 |}.
End examples.

(** * Reasoning about the monad, the arrays and the traces *)

Ltac mstep H :=
  match type of H with
  | context [match ?x with _ => _ end] =>
      lazymatch x with
      | context [match _ with _ => _ end] => fail
      | _ => destruct x eqn:?; try discriminate H
      end
  end.

(** Runs a computation symbolically inside hypothesis [H]. *)
Ltac mrun H :=
  unfold bind, ret, fetch, modify, emit, lift, throw in H;
  cbv beta iota zeta in H;
  repeat (mstep H; cbv beta iota zeta in H).

Ltac ok_inv H := injection H; clear H; intros; subst.

Lemma bind_ok {S A B} (m : M S A) (k : A -> M S B) s b s2 t :
  bind m k s = Ok (b, s2, t) ->
  exists a s1 t1 t2,
    m s = Ok (a, s1, t1) /\ k a s1 = Ok (b, s2, t2) /\ t = t1 ++ t2.
Proof.
  unfold bind. destruct (m s) as [[[a s1] t1]|]; [|discriminate].
  destruct (k a s1) as [[[b' s2'] t2]|] eqn:E; [|discriminate].
  intros [= <- <- <-]. exists a, s1, t1, t2. auto.
Qed.

Lemma cancel_not_trigger t :
  forallb is_cancel t = true -> List.filter is_trigger t = [].
Proof.
  induction t as [|e t IH]; simpl; [reflexivity|].
  intros H. apply andb_true_iff in H as [He Ht].
  destruct e; try discriminate He. simpl. auto.
Qed.

Lemma no_trigger_in t e :
  List.filter is_trigger t = [] -> is_trigger e = true -> ~ List.In e t.
Proof.
  intros Hf He Hin.
  assert (List.In e (List.filter is_trigger t)) as C
    by (apply List.filter_In; auto).
  rewrite Hf in C. destruct C.
Qed.

Lemma strcmp_terminated cs : forall (s1 : list Z) (i : nat),
  s1 !! i = Some 0 -> exists r, strcmp s1 (cs ++ [0]) = Ok r.
Proof.
  induction cs as [|c2 cs IH]; intros [|c1 r1] i Hi; try discriminate Hi; simpl.
  - destruct (c1 =? 0); eauto.
  - destruct (c1 =? c2) eqn:E1; eauto.
    destruct (c1 =? 0) eqn:E0; eauto.
    destruct i as [|i]; simpl in Hi.
    + injection Hi as ->. discriminate E0.
    + eapply IH; eauto.
Qed.

Lemma strcmp_literal_ok (b : list Z) (i : nat) (s : string) :
  b !! i = Some 0 -> exists r, strcmp b (literal s) = Ok r.
Proof. intros H. unfold literal. eapply strcmp_terminated; eauto. Qed.

Lemma store_ok a i v :
  0 <= i < Z.of_nat (length a) ->
  store a i v = Ok (<[Z.to_nat i := v]> a).
Proof.
  intros H. unfold store.
  replace (0 <=? i) with true by (symmetry; apply Z.leb_le; lia).
  replace (i <? Z.of_nat (length a)) with true
    by (symmetry; apply Z.ltb_lt; lia).
  reflexivity.
Qed.

Lemma store_inv a i v b :
  store a i v = Ok b ->
  0 <= i < Z.of_nat (length a) /\ b = <[Z.to_nat i := v]> a.
Proof.
  unfold store. destruct (0 <=? i) eqn:A; [|discriminate].
  destruct (i <? Z.of_nat (length a)) eqn:B; [|discriminate].
  simpl. intros [= <-]. apply Z.leb_le in A. apply Z.ltb_lt in B. auto.
Qed.

Lemma store_length a i v b : store a i v = Ok b -> length b = length a.
Proof.
  intros H. apply store_inv in H as [_ ->]. apply length_insert.
Qed.

Lemma store_terminator a i b :
  store a i 0 = Ok b -> b !! Z.to_nat i = Some 0.
Proof.
  intros H. apply store_inv in H as [Hi ->].
  apply list_lookup_insert_eq. lia.
Qed.

Lemma memset0_length a : length (memset0 a) = length a.
Proof. unfold memset0. apply length_replicate. Qed.

(** ["%02d"] prints two characters for the values an RTC field takes. *)
Lemma fmt_02d_length n : 0 <= n < 100 -> String.length (fmt_02d n) = 2%nat.
Proof.
  intros H.
  assert (forallb (fun k => Nat.eqb (String.length (fmt_02d (Z.of_nat k))) 2)
            (List.seq 0 100) = true) as A by (vm_compute; reflexivity).
  rewrite forallb_forall in A.
  specialize (A (Z.to_nat n)).
  rewrite Z2Nat.id in A by lia.
  apply Nat.eqb_eq, A, List.in_seq. lia.
Qed.

Lemma string_app_length (a b : string) :
  String.length (a ++ b) = (String.length a + String.length b)%nat.
Proof. induction a as [|c a IH]; simpl; [reflexivity | now rewrite IH]. Qed.


(** * binary32: one rounding is within 2^-24 *)

Module float_facts.
Import rounding.

(** The two literals: [0.0343f] is the quotient of 343 by 10000 rounded
    to binary32, within half a unit in the last place (2^-29) of 0.0343;
    [2.0f] is exact. *)
Lemma c_0_0343_rounded :
  binary32.div (binary32.of_int 343) (binary32.of_int 10000)
  = binary32.c_0_0343 /\
  (Qabs (binary32.to_Q binary32.c_0_0343 - (343 # 10000))
   <= 1 # 536870912)%Q.
Proof.
  split; [vm_compute; reflexivity|].
  apply Qabs_Qle_condition. split; vm_compute; discriminate.
Qed.

Lemma c_2_0_exact : binary32.of_int 2 = binary32.c_2_0.
Proof. vm_compute. reflexivity. Qed.

(** ** Counting the digits of a mantissa *)

Lemma digits_bounds p :
  2 ^ (Z.pos (digits2_pos p) - 1) <= Z.pos p < 2 ^ Z.pos (digits2_pos p).
Proof.
  induction p as [p IH | p IH |]; simpl digits2_pos.
  - rewrite Pos2Z.inj_succ.
    replace (Z.succ (Z.pos (digits2_pos p)) - 1) with (Z.succ (Z.pos (digits2_pos p) - 1)) by lia.
    rewrite !Z.pow_succ_r by lia. lia.
  - rewrite Pos2Z.inj_succ.
    replace (Z.succ (Z.pos (digits2_pos p)) - 1) with (Z.succ (Z.pos (digits2_pos p) - 1)) by lia.
    rewrite !Z.pow_succ_r by lia. lia.
  - simpl. lia.
Qed.

Lemma digits_unique p k :
  2 ^ (k - 1) <= Z.pos p < 2 ^ k -> Z.pos (digits2_pos p) = k.
Proof.
  intros [Hl Hu]. pose proof (digits_bounds p) as [Dl Du].
  assert (0 < k).
  { destruct (Z.ltb_spec 0 k); auto.
    exfalso. assert (2 ^ k <= 2 ^ 0) by (apply Z.pow_le_mono_r; lia).
    simpl in *. lia. }
  set (d := Z.pos (digits2_pos p)) in *.
  destruct (Z.lt_trichotomy d k) as [L | [E | G]]; auto; exfalso.
  - assert (2 ^ d <= 2 ^ (k - 1)) by (apply Z.pow_le_mono_r; lia). lia.
  - assert (2 ^ k <= 2 ^ (d - 1)) by (apply Z.pow_le_mono_r; lia). lia.
Qed.

(** ** Shifting right and rounding *)

Lemma shr_1_m mrs :
  0 <= shr_m mrs ->
  shr_m (shr_1 mrs) = shr_m mrs / 2 /\
  shr_r (shr_1 mrs) = Z.odd (shr_m mrs) /\
  shr_s (shr_1 mrs) = shr_r mrs || shr_s mrs.
Proof.
  destruct mrs as [m r s]. simpl. intros Hm.
  destruct m as [|p|p]; [| |lia].
  - simpl. auto.
  - destruct p as [p|p|]; simpl shr_m; simpl shr_r; simpl shr_s.
    + repeat split; auto. rewrite Pos2Z.inj_xI.
      apply Z.div_unique with 1; lia.
    + repeat split; auto. rewrite Pos2Z.inj_xO.
      apply Z.div_unique with 0; lia.
    + repeat split; auto.
Qed.

Lemma shifted_step M n mrs :
  0 <= M -> 0 <= n -> shifted M n mrs -> shifted M (n + 1) (shr_1 mrs).
Proof.
  intros HM Hn (Hm & Hr & Hs).
  assert (0 <= shr_m mrs) as Hpos by (rewrite Hm; apply Z.div_pos; lia).
  destruct (shr_1_m mrs Hpos) as (Em & Er & Es).
  unfold shifted. rewrite Em, Er, Es, Hm, Hr, Hs.
  replace (0 <? n + 1) with true by (symmetry; apply Z.ltb_lt; lia).
  replace (n + 1 - 1) with n by lia. simpl andb.
  repeat split.
  - rewrite Z.pow_add_r, Z.pow_1_r by lia. rewrite Z.div_div by lia. reflexivity.
  - rewrite Z.testbit_odd, Z.shiftr_div_pow2 by lia. reflexivity.
  - destruct (Z.ltb_spec 0 n) as [Hp | Hz].
    + simpl andb.
      replace (2 ^ n) with (2 ^ (n - 1) * 2).
      2:{ rewrite <- (Z.pow_1_r 2) at 2. rewrite <- Z.pow_add_r by lia. f_equal. lia. }
      rewrite Z.rem_mul_r by lia.
      rewrite <- Z.testbit_spec' by lia.
      assert (0 <= M mod 2 ^ (n - 1) < 2 ^ (n - 1)) by (apply Z.mod_pos_bound; lia).
      destruct (Z.testbit M (n - 1)); simpl Z.b2z; simpl orb.
      * symmetry. apply negb_true_iff, Z.eqb_neq. lia.
      * f_equal. f_equal. lia.
    + assert (n = 0) as -> by lia. simpl. rewrite Z.mod_1_r. reflexivity.
Qed.

Lemma shifted_iter M p : forall n mrs,
  0 <= M -> 0 <= n -> shifted M n mrs ->
  shifted M (n + Z.pos p) (SpecFloat.iter_pos shr_1 p mrs).
Proof.
  induction p as [p IH | p IH |]; intros n mrs HM Hn H; simpl SpecFloat.iter_pos.
  - replace (n + Z.pos p~1) with (n + 1 + Z.pos p + Z.pos p) by lia.
    apply IH; try lia. apply IH; try lia. now apply shifted_step.
  - replace (n + Z.pos p~0) with (n + Z.pos p + Z.pos p) by lia.
    apply IH; try lia. now apply IH.
  - now apply shifted_step.
Qed.

Lemma shifted_start M : shifted M 0 (Build_shr_record M false false).
Proof. unfold shifted. simpl. rewrite Z.div_1_r. auto. Qed.

(** Rounding to nearest even after a shift by [n >= 1]: within half a unit. *)
Lemma round_after_shift M n mrs :
  0 <= M -> 0 < n -> shifted M n mrs ->
  let m1 := round_nearest_even (shr_m mrs) (loc_of_shr_record mrs) in
  M / 2 ^ n <= m1 <= M / 2 ^ n + 1 /\
  2 * Z.abs (m1 * 2 ^ n - M) <= 2 ^ n.
Proof.
  intros HM Hn (Hm & Hr & Hs) m1.
  replace (0 <? n) with true in * by (symmetry; apply Z.ltb_lt; lia).
  simpl andb in *.
  assert (2 ^ n = 2 ^ (n - 1) * 2) as P.
  { rewrite <- (Z.pow_1_r 2) at 3. rewrite <- Z.pow_add_r by lia. f_equal. lia. }
  assert (0 < 2 ^ (n - 1)) as Ppos by (apply Z.pow_pos_nonneg; lia).
  pose proof (Z.div_mod M (2 ^ n) ltac:(lia)) as DM.
  assert (M mod 2 ^ n = M mod 2 ^ (n - 1) + 2 ^ (n - 1) * Z.b2z (Z.testbit M (n - 1))) as R.
  { rewrite P at 1. rewrite Z.rem_mul_r by lia.
    rewrite <- Z.testbit_spec' by lia. reflexivity. }
  assert (0 <= M mod 2 ^ (n - 1) < 2 ^ (n - 1)) as B by (apply Z.mod_pos_bound; lia).
  set (q := M / 2 ^ n) in *. set (lo := M mod 2 ^ (n - 1)) in *.
  destruct mrs as [m r s]. simpl in Hm, Hr, Hs. subst m r s. subst m1. simpl shr_m.
  unfold loc_of_shr_record.
  destruct (Z.testbit M (n - 1)); simpl Z.b2z in R;
    destruct (lo =? 0) eqn:L; simpl negb; unfold round_nearest_even;
    [apply Z.eqb_eq in L | apply Z.eqb_neq in L | apply Z.eqb_eq in L | apply Z.eqb_neq in L].
  - destruct (Z.even q); split; try lia; nia.
  - split; [lia|]. nia.
  - split; [lia|]. nia.
  - split; [lia|]. nia.
Qed.

Lemma shr_fexp_eq m e l :
  shr_fexp 24 128 m e l =
  shr (shr_record_of_loc m l) e (Z.max (Zdigits2 m + e - 24) (-149) - e).
Proof. reflexivity. Qed.

Lemma shr_none mrs e n : n <= 0 -> shr mrs e n = (mrs, e).
Proof. intros H. destruct n; try reflexivity. lia. Qed.

Lemma shr_some mrs e n :
  0 < n -> shr mrs e n = (SpecFloat.iter_pos shr_1 (Z.to_pos n) mrs, e + n).
Proof. intros H. destruct n; try lia. reflexivity. Qed.

(** The last steps of [binary_round_aux]: a rounded mantissa of 24 or 25
    digits. *)
Lemma round_aux_finish s m1 e1 :
  2 ^ 23 <= m1 <= 2 ^ 24 -> -149 <= e1 -> e1 + 1 <= 104 ->
  exists m' k,
    (let '(mrs'', e'') := shr_fexp 24 128 m1 e1 loc_Exact in
     match shr_m mrs'' with
     | Z0 => S754_zero s
     | Zpos m => if Z.leb e'' (128 - 24) then S754_finite s m e''
                 else S754_infinity s
     | _ => S754_nan
     end) = S754_finite s m' (e1 + k) /\
    0 <= k /\ Z.pos m' * 2 ^ k = m1 /\ Z.pos (digits2_pos m') = 24.
Proof.
  intros Hm He Ho.
  change (2 ^ 23) with 8388608 in Hm. change (2 ^ 24) with 16777216 in Hm.
  destruct m1 as [|p|p]; try lia.
  destruct (Z.eq_dec (Z.pos p) 16777216) as [E | N].
  - assert (Z.pos (digits2_pos p) = 25) as D.
    { apply digits_unique. rewrite E.
      change (2 ^ (25 - 1)) with 16777216. change (2 ^ 25) with 33554432. lia. }
    exists 8388608%positive, 1.
    rewrite shr_fexp_eq. unfold Zdigits2. rewrite D.
    replace (Z.max (25 + e1 - 24) (-149) - e1) with 1 by lia.
    rewrite shr_some by lia. change (Z.to_pos 1) with 1%positive.
    change (SpecFloat.iter_pos shr_1 1 (shr_record_of_loc (Z.pos p) loc_Exact))
      with (shr_1 (Build_shr_record (Z.pos p) false false)).
    destruct (shr_1_m (Build_shr_record (Z.pos p) false false)) as (Em & _);
      [simpl; lia|].
    cbv beta iota. rewrite Em. cbn [shr_m].
    assert (p = 16777216%positive) as Ep by lia. rewrite Ep.
    change (Z.pos 16777216 / 2) with (Z.pos 8388608).
    replace (e1 + 1 <=? 128 - 24) with true by (symmetry; apply Z.leb_le; lia).
    split; [reflexivity|]. split; [lia|]. split; reflexivity.
  - assert (Z.pos (digits2_pos p) = 24) as D.
    { apply digits_unique.
      change (2 ^ (24 - 1)) with 8388608. change (2 ^ 24) with 16777216. lia. }
    exists p, 0. rewrite shr_fexp_eq. unfold Zdigits2. rewrite D.
    rewrite shr_none by lia. cbn [shr_m shr_record_of_loc].
    replace (e1 <=? 128 - 24) with true by (symmetry; apply Z.leb_le; lia).
    rewrite Z.add_0_r. split; [reflexivity|]. split; [lia|].
    split; [lia | reflexivity].
Qed.

Lemma round_aux_spec s mx ex :
  let dg := Z.pos (digits2_pos mx) in
  -149 <= dg + ex - 24 -> dg + ex <= 127 -> ex <= 104 ->
  exists m' n,
    binary_round_aux 24 128 s (Z.pos mx) ex loc_Exact
      = S754_finite s m' (ex + n) /\
    0 <= n /\
    2 ^ 24 * Z.abs (Z.pos m' * 2 ^ n - Z.pos mx) <= Z.pos mx /\
    (24 <= dg -> Z.pos (digits2_pos m') = 24) /\
    (dg <= 24 -> m' = mx /\ n = 0).
Proof.
  intros dg Hlo Hhi Hex.
  pose proof (digits_bounds mx) as [Dl Du]. fold dg in Dl, Du.
  unfold binary_round_aux. rewrite shr_fexp_eq. simpl Zdigits2. fold dg.
  replace (Z.max (dg + ex - 24) (-149) - ex) with (dg - 24) by lia.
  destruct (Z.leb_spec dg 24) as [Hs | Hl].
  - (* no shift *)
    rewrite shr_none by lia. simpl shr_m. simpl loc_of_shr_record.
    simpl round_nearest_even.
    rewrite shr_fexp_eq. simpl Zdigits2. fold dg.
    replace (Z.max (dg + ex - 24) (-149) - ex) with (dg - 24) by lia.
    rewrite shr_none by lia. simpl shr_m.
    replace (ex <=? 128 - 24) with true by (symmetry; apply Z.leb_le; lia).
    exists mx, 0. rewrite Z.add_0_r, Z.mul_1_r, Z.sub_diag. simpl Z.abs.
    repeat split; auto; try lia.
  - (* shift by dg - 24 *)
    set (n := dg - 24) in *.
    rewrite shr_some by lia.
    pose proof (shifted_iter (Z.pos mx) (Z.to_pos n) 0
                  (Build_shr_record (Z.pos mx) false false)
                  ltac:(lia) ltac:(lia) (shifted_start _)) as Sh.
    rewrite Z.add_0_l, Z2Pos.id in Sh by lia.
    simpl shr_record_of_loc.
    set (mrs := SpecFloat.iter_pos shr_1 (Z.to_pos n) (Build_shr_record (Z.pos mx) false false)) in *.
    destruct (round_after_shift (Z.pos mx) n mrs ltac:(lia) ltac:(lia) Sh)
      as [Hq Herr].
    set (m1 := round_nearest_even (shr_m mrs) (loc_of_shr_record mrs)) in *.
    assert (2 ^ dg = 2 ^ n * 2 ^ 24) as P1.
    { rewrite <- Z.pow_add_r by lia. f_equal. lia. }
    assert (2 ^ (dg - 1) = 2 ^ n * 2 ^ 23) as P2.
    { rewrite <- Z.pow_add_r by lia. f_equal. lia. }
    assert (0 < 2 ^ n) as Pn by (apply Z.pow_pos_nonneg; lia).
    assert (2 ^ 23 <= Z.pos mx / 2 ^ n < 2 ^ 24) as Q.
    { split.
      - apply Z.div_le_lower_bound; lia.
      - apply Z.div_lt_upper_bound; lia. }
    destruct (round_aux_finish s m1 (ex + n) ltac:(lia) ltac:(lia) ltac:(lia))
      as (m' & k & -> & Hk & Hv & Hd).
    exists m', (n + k). rewrite Z.add_assoc.
    split; [reflexivity|]. split; [lia|]. split; [|split; [auto | lia]].
    rewrite Z.pow_add_r by lia.
    replace (Z.pos m' * (2 ^ n * 2 ^ k)) with (Z.pos m' * 2 ^ k * 2 ^ n) by ring.
    rewrite Hv.
    assert (2 ^ 24 * 2 ^ n <= 2 * Z.pos mx) by lia.
    change (2 ^ 24) with 16777216 in *. lia.
Qed.

(** ** From mantissas to rationals *)

Lemma two_pow_pos e : (0 < 2 ^ e)%Q.
Proof. apply Qpower_0_lt. reflexivity. Qed.

Lemma val_pos m e : (0 < binary32.value m e)%Q.
Proof.
  unfold binary32.value. apply Qmult_lt_0_compat; [|apply two_pow_pos].
  change 0%Q with (inject_Z 0). rewrite <- Zlt_Qlt. lia.
Qed.

Lemma val_shift m e n :
  0 <= n -> (binary32.value m (e + n) == inject_Z (Z.pos m * 2 ^ n) * 2 ^ e)%Q.
Proof.
  intros Hn. unfold binary32.value.
  rewrite Qpower_plus by discriminate.
  rewrite inject_Z_mult, (Zpower_Qpower 2 n Hn). change (inject_Z 2) with 2%Q.
  ring.
Qed.

Lemma near_of_Z m' n M E :
  0 <= n ->
  2 ^ 24 * Z.abs (Z.pos m' * 2 ^ n - Z.pos M) <= Z.pos M ->
  near (binary32.value m' (E + n)) (binary32.value M E).
Proof.
  intros Hn H. unfold near. rewrite (val_shift m' E n Hn). unfold binary32.value.
  pose proof (two_pow_pos E) as P.
  set (a := Z.pos m' * 2 ^ n) in *.
  assert (16777216 * a <= 16777217 * Z.pos M /\
          16777215 * Z.pos M <= 16777216 * a) as [H1 H2]
    by (change (2 ^ 24) with 16777216 in H; lia).
  rewrite Zle_Qle in H1, H2.
  rewrite !inject_Z_mult in H1, H2.
  change (inject_Z 16777216) with 16777216%Q in *.
  change (inject_Z 16777217) with 16777217%Q in *.
  change (inject_Z 16777215) with 16777215%Q in *.
  set (qa := inject_Z a) in *. set (qm := inject_Z (Z.pos M)) in *.
  set (p := (2 ^ E)%Q) in *.
  assert (((1 - (1 # 16777216)) * qm) * p <= qa * p)%Q as A1
    by (apply Qmult_le_compat_r; lra).
  assert (qa * p <= ((1 + (1 # 16777216)) * qm) * p)%Q as A2
    by (apply Qmult_le_compat_r; lra).
  split; lra.
Qed.

Lemma near_eq x x' y y' : (x == x')%Q -> (y == y')%Q -> near x y -> near x' y'.
Proof. unfold near. intros -> ->. auto. Qed.

Lemma val_0 m : (binary32.value m 0 == inject_Z (Z.pos m))%Q.
Proof. unfold binary32.value. simpl. ring. Qed.

Lemma iter_xO_value mx d : Z.pos (Pos.iter xO mx d) = Z.pos mx * 2 ^ Z.pos d.
Proof.
  change (Pos.iter xO mx d) with (shift_pos d mx).
  rewrite shift_pos_correct.
  change (Zpower_pos 2 d) with (2 ^ Z.pos d). ring.
Qed.

(** [(float)d]. *)
Lemma of_int_spec d :
  d <> 0 -> Z.abs d < 2 ^ 64 ->
  exists m e,
    binary_normalize 24 128 d 0 false = S754_finite (d <? 0) m e /\
    Z.pos (digits2_pos m) = 24 /\ -23 <= e <= 41 /\
    near (binary32.value m e) (inject_Z (Z.abs d)).
Proof.
  intros Hd Hb.
  assert (forall s mx, Z.pos mx < 2 ^ 64 ->
            exists m e,
              binary_round 24 128 s mx 0 = S754_finite s m e /\
              Z.pos (digits2_pos m) = 24 /\ -23 <= e <= 41 /\
              near (binary32.value m e) (inject_Z (Z.pos mx))) as Core.
  { intros s mx Hmx. unfold binary_round, shl_align.
    pose proof (digits_bounds mx) as [Dl Du].
    set (dg := Z.pos (digits2_pos mx)) in *.
    assert (1 <= dg <= 64) as Hdg.
    { split; [unfold dg; lia|].
      destruct (Z.leb_spec dg 64); auto. exfalso.
      assert (2 ^ 64 <= 2 ^ (dg - 1)) by (apply Z.pow_le_mono_r; lia). lia. }
    change (fexp 24 128 (dg + 0)) with (Z.max (dg + 0 - 24) (-149)).
    replace (Z.max (dg + 0 - 24) (-149) - 0) with (dg - 24) by lia.
    replace (Z.max (dg + 0 - 24) (-149)) with (dg - 24) by lia.
    destruct (dg - 24) as [|k|k] eqn:K.
    - destruct (round_aux_spec s mx 0) as (m' & n & -> & Hn & Herr & D24 & Same);
        fold dg; try lia.
      destruct Same as [-> ->]; [lia|].
      exists mx, 0. split; [reflexivity|]. split; [apply D24; lia|].
      split; [lia|].
      apply (near_eq (binary32.value mx (0 + 0)) _ (binary32.value mx 0) _);
        [reflexivity | apply val_0 |].
      apply (near_of_Z mx 0 mx 0); [lia|].
      rewrite Z.mul_1_r, Z.sub_diag. simpl. lia.
    - destruct (round_aux_spec s mx 0) as (m' & n & -> & Hn & Herr & D24 & _);
        fold dg; try lia.
      exists m', n. simpl Z.add.
      assert (2 ^ 24 * 2 ^ n <= 4 * Z.pos mx).
      { pose proof (digits_bounds m') as [Bl _]. rewrite D24 in Bl by lia.
        assert (0 <= 2 ^ n) by (apply Z.pow_nonneg; lia).
        assert (2 ^ (24 - 1) * 2 ^ n <= Z.pos m' * 2 ^ n)
          by (apply Z.mul_le_mono_nonneg_r; lia).
        change (2 ^ (24 - 1)) with 8388608 in *.
        change (2 ^ 24) with 16777216 in *. lia. }
      assert (n <= 41).
      { destruct (Z.leb_spec n 41); auto. exfalso.
        assert (2 ^ 42 <= 2 ^ n) by (apply Z.pow_le_mono_r; lia).
        change (2 ^ 24) with 16777216 in *. change (2 ^ 42) with 4398046511104 in *.
        change (2 ^ 64) with 18446744073709551616 in *. lia. }
      split; [reflexivity|]. split; [apply D24; lia|]. split; [lia|].
      apply (near_eq (binary32.value m' (0 + n)) _ (binary32.value mx 0) _);
        [reflexivity | apply val_0 |].
      apply (near_of_Z m' n mx 0 Hn Herr).
    - (* fewer than 24 digits: aligned to the left, exact *)
      set (mz := Pos.iter xO mx k).
      assert (Z.pos mz = Z.pos mx * 2 ^ Z.pos k) as Vz by apply iter_xO_value.
      assert (Z.pos (digits2_pos mz) = 24) as Dz.
      { apply digits_unique. rewrite Vz.
        assert (2 ^ 24 = 2 ^ dg * 2 ^ Z.pos k) as E1.
        { rewrite <- Z.pow_add_r by lia. f_equal. lia. }
        assert (2 ^ (24 - 1) = 2 ^ (dg - 1) * 2 ^ Z.pos k) as E2.
        { rewrite <- Z.pow_add_r by lia. f_equal. lia. }
        assert (0 < 2 ^ Z.pos k) by (apply Z.pow_pos_nonneg; lia).
        rewrite E1, E2. nia. }
      destruct (round_aux_spec s mz (Z.neg k)) as (m' & n & -> & Hn & Herr & _ & Same);
        rewrite ?Dz; try lia.
      destruct Same as [-> ->]; [lia|].
      exists mz, (Z.neg k). rewrite Z.add_0_r.
      split; [reflexivity|]. split; [exact Dz|]. split; [lia|].
      assert (binary32.value mz (Z.neg k) == inject_Z (Z.pos mx))%Q as E.
      { unfold binary32.value. rewrite Vz, inject_Z_mult, (Zpower_Qpower 2 (Z.pos k)) by lia.
        change (Z.neg k) with (- Z.pos k). rewrite Qpower_opp.
        change (inject_Z 2) with 2%Q. field.
        apply Qpower_not_0. discriminate. }
      assert (0 < inject_Z (Z.pos mx))%Q
        by (change 0%Q with (inject_Z 0); rewrite <- Zlt_Qlt; lia).
      unfold near. rewrite E. split; lra. }
  destruct d as [|p|p]; [congruence| |]; simpl binary_normalize.
  - apply Core. exact Hb.
  - apply Core. exact Hb.
Qed.

Lemma digits_between p lo hi :
  2 ^ lo <= Z.pos p < 2 ^ hi -> lo + 1 <= Z.pos (digits2_pos p) <= hi.
Proof.
  intros [Hl Hu]. pose proof (digits_bounds p) as [Dl Du].
  set (d := Z.pos (digits2_pos p)) in *.
  split.
  - destruct (Z.leb_spec (lo + 1) d); auto. exfalso.
    assert (2 ^ d <= 2 ^ lo) by (apply Z.pow_le_mono_r; lia). lia.
  - destruct (Z.leb_spec d hi); auto. exfalso.
    assert (2 ^ hi <= 2 ^ (d - 1)) by (apply Z.pow_le_mono_r; lia). lia.
Qed.

(** [x * 0.0343f]. *)
Lemma mul_spec s m e :
  Z.pos (digits2_pos m) = 24 -> -23 <= e <= 41 ->
  exists m2 e2,
    SFmul 24 128 (S754_finite s m e) (S754_finite false 9207336 (-28))
      = S754_finite s m2 e2 /\
    Z.pos (digits2_pos m2) = 24 /\ e - 7 <= e2 <= e - 2 /\
    near (binary32.value m2 e2) (binary32.value m e * (9207336 # 268435456)).
Proof.
  intros D He. unfold SFmul. rewrite xorb_false_r.
  pose proof (digits_bounds m) as [Bl Bu]. rewrite D in Bl, Bu.
  change (2 ^ (24 - 1)) with 8388608 in Bl. change (2 ^ 24) with 16777216 in Bu.
  set (M := (m * 9207336)%positive).
  assert (Z.pos M = Z.pos m * 9207336) as VM by reflexivity.
  assert (46 + 1 <= Z.pos (digits2_pos M) <= 48) as Dg.
  { apply digits_between. rewrite VM.
    change (2 ^ 46) with 70368744177664. change (2 ^ 48) with 281474976710656.
    lia. }
  destruct (round_aux_spec s M (e + -28)) as (m2 & n & -> & Hn & Herr & D24 & _);
    try lia.
  exists m2, (e + -28 + n).
  assert (21 <= n <= 26) as Bn.
  { pose proof (digits_bounds m2) as [Cl Cu]. rewrite D24 in Cl, Cu by lia.
    change (2 ^ (24 - 1)) with 8388608 in Cl. change (2 ^ 24) with 16777216 in Cu.
    change (2 ^ 24) with 16777216 in Herr.
    assert (0 < 2 ^ n) as Pn by (apply Z.pow_pos_nonneg; lia).
    assert (8388608 * 2 ^ n <= Z.pos m2 * 2 ^ n)
      by (apply Z.mul_le_mono_nonneg_r; lia).
    assert (Z.pos m2 * 2 ^ n <= 16777216 * 2 ^ n)
      by (apply Z.mul_le_mono_nonneg_r; lia).
    split.
    - destruct (Z.leb_spec 21 n); auto. exfalso.
      assert (2 ^ n <= 2 ^ 20) by (apply Z.pow_le_mono_r; lia).
      change (2 ^ 20) with 1048576 in *. lia.
    - destruct (Z.leb_spec n 26); auto. exfalso.
      assert (2 ^ 27 <= 2 ^ n) by (apply Z.pow_le_mono_r; lia).
      change (2 ^ 27) with 134217728 in *. lia. }
  split; [reflexivity|]. split; [apply D24; lia|]. split; [lia|].
  eapply near_eq; [reflexivity | | apply (near_of_Z m2 n M (e + -28) Hn Herr)].
  unfold binary32.value. rewrite VM, inject_Z_mult, Qpower_plus by discriminate.
  change (2 ^ (-28))%Q with (1 # 268435456)%Q.
  change (inject_Z 9207336) with (9207336 # 1)%Q.
  set (p := (2 ^ e)%Q). set (q := inject_Z (Z.pos m)).
  first [ring | field | (apply Qle_antisym; nra)].
Qed.

Lemma div_eucl_exact a b q : 0 < b -> a = b * q -> Z.div_eucl a b = (q, 0).
Proof.
  intros Hb E.
  assert (Z.div_eucl a b = (a / b, a mod b)) as ->
    by (unfold Z.div, Z.modulo; destruct (Z.div_eucl a b); reflexivity).
  f_equal.
  - symmetry. apply Z.div_unique_exact; [lia | exact E].
  - subst a. rewrite Z.mul_comm. apply Z.mod_mul. lia.
Qed.

(** [x / 2.0f]. *)
Lemma div_spec s m e :
  Z.pos (digits2_pos m) = 24 -> -100 <= e <= 100 ->
  exists m3 e3,
    SFdiv 24 128 (S754_finite s m e) (S754_finite false 8388608 (-22))
      = S754_finite s m3 e3 /\
    near (binary32.value m3 e3) (binary32.value m e * (1 # 2)).
Proof.
  intros D He. unfold SFdiv, SFdiv_core_binary. cbv zeta.
  rewrite xorb_false_r. cbv beta iota delta [Zdigits2]. rewrite D.
  change (Z.pos (digits2_pos 8388608)) with 24.
  replace (Z.min (fexp 24 128 (24 + e - (24 + -22))) (e - -22)) with (e - 2)
    by (unfold fexp, emin; lia).
  replace (e - -22 - (e - 2)) with 24 by lia. cbv iota.
  rewrite Z.shiftl_mul_pow2 by lia.
  rewrite (div_eucl_exact _ 8388608 (Z.pos m~0))
    by (rewrite ?(Pos2Z.inj_xO m); change (2 ^ 24) with 16777216; lia).
  change (new_location 8388608 0) with loc_Exact.
  assert (Z.pos (digits2_pos m~0) = 25) as D'
    by (simpl digits2_pos; rewrite Pos2Z.inj_succ, D; reflexivity).
  destruct (round_aux_spec s m~0 (e - 2)) as (m3 & n & -> & Hn & Herr & _ & _);
    rewrite ?D'; try lia.
  exists m3, (e - 2 + n). split; [reflexivity|].
  eapply near_eq; [reflexivity | | apply (near_of_Z m3 n m~0 (e - 2) Hn Herr)].
  unfold binary32.value. replace (e - 2) with (e + -2) by lia.
  rewrite Qpower_plus by discriminate.
  change (2 ^ (-2))%Q with (1 # 4)%Q.
  rewrite Pos2Z.inj_xO, inject_Z_mult. change (inject_Z 2) with 2%Q.
  field.
Qed.

(** The whole expression, on the magnitude. *)
Lemma distance_magnitude d :
  d <> 0 -> Z.abs d < 2 ^ 64 ->
  exists m e,
    SFdiv 24 128
      (SFmul 24 128 (binary_normalize 24 128 d 0 false)
         (S754_finite false 9207336 (-28)))
      (S754_finite false 8388608 (-22))
    = S754_finite (d <? 0) m e /\
    let T := (inject_Z (Z.abs d) * (343 # 20000))%Q in
    ((1 - (1 # 4194304)) * T <= binary32.value m e /\
     binary32.value m e <= (1 + (1 # 4194304)) * T)%Q.
Proof.
  intros Hd Hb.
  destruct (of_int_spec d Hd Hb) as (m1 & e1 & -> & D1 & E1 & N1).
  destruct (mul_spec (d <? 0) m1 e1 D1 E1) as (m2 & e2 & -> & D2 & E2 & N2).
  destruct (div_spec (d <? 0) m2 e2 D2 ltac:(lia)) as (m3 & e3 & -> & N3).
  exists m3, e3. split; [reflexivity|].
  assert (0 < inject_Z (Z.abs d))%Q as P
    by (change 0%Q with (inject_Z 0); rewrite <- Zlt_Qlt; lia).
  unfold near in *.
  set (x0 := inject_Z (Z.abs d)) in *.
  set (v1 := binary32.value m1 e1) in *. set (v2 := binary32.value m2 e2) in *.
  set (v3 := binary32.value m3 e3) in *.
  cbv zeta. split; lra.
Qed.

Lemma distance_of_unfold d :
  distance_of d =
  SFdiv 24 128
    (SFmul 24 128 (binary_normalize 24 128 d 0 false)
       (S754_finite false 9207336 (-28)))
    (S754_finite false 8388608 (-22)).
Proof. reflexivity. Qed.

(** The distance computed for a duration of the [int64_t] range: never an
    infinity or a NaN, of the sign of the duration, and within 2^-22 of
    [duration * 0.0343 / 2]. *)
Lemma distance_of_spec d :
  - 2 ^ 63 <= d < 2 ^ 63 ->
  binary32.is_finite (distance_of d) = true /\
  (d < 0 -> (binary32.to_Q (distance_of d) < 0)%Q) /\
  (Qabs (binary32.to_Q (distance_of d) - inject_Z d * (343 # 20000))
   <= (1 # 4194304) * Qabs (inject_Z d * (343 # 20000)))%Q.
Proof.
  intros Hd.
  destruct (Z.eq_dec d 0) as [-> | Hnz].
  { split; [reflexivity|]. split; [lia|]. vm_compute. discriminate. }
  assert (Z.abs d < 2 ^ 64) as Hb.
  { change (2 ^ 63) with 9223372036854775808 in Hd.
    change (2 ^ 64) with 18446744073709551616. lia. }
  destruct (distance_magnitude d Hnz Hb) as (m & e & E & Lo & Hi).
  rewrite distance_of_unfold, E. cbn [binary32.is_finite binary32.to_Q].
  pose proof (val_pos m e) as Vp.
  set (v := binary32.value m e) in *.
  assert (0 < inject_Z (Z.abs d))%Q as P
    by (change 0%Q with (inject_Z 0); rewrite <- Zlt_Qlt; lia).
  split; [reflexivity|].
  destruct (Z.ltb_spec d 0) as [Neg | Pos].
  - assert (Z.abs d = - d) as A by lia. rewrite A in Lo, Hi, P.
    cbv zeta in Lo, Hi. rewrite inject_Z_opp in Lo, Hi, P.
    set (x := inject_Z d) in *.
    split; [intros _; lra|].
    apply Qabs_Qle_condition.
    assert (Qabs (x * (343 # 20000)) == - (x * (343 # 20000)))%Q as ->
      by (apply Qabs_neg; lra).
    split; lra.
  - assert (Z.abs d = d) as A by lia. rewrite A in Lo, Hi, P.
    cbv zeta in Lo, Hi. set (x := inject_Z d) in *.
    split; [intros; lia|].
    apply Qabs_Qle_condition.
    assert (Qabs (x * (343 # 20000)) == x * (343 # 20000))%Q as ->
      by (apply Qabs_pos; lra).
    split; lra.
Qed.

(** [absolute_time_diff_us]: always an [int64_t]; the plain difference
    when that fits. *)
Lemma diff_range from to :
  - 2 ^ 63 <= absolute_time_diff_us from to < 2 ^ 63.
Proof.
  unfold absolute_time_diff_us, two64.
  pose proof (Z.mod_pos_bound (to - from) (2 ^ 64) ltac:(reflexivity)) as B.
  change (2 ^ 63) with 9223372036854775808.
  change (2 ^ 64) with 18446744073709551616 in *.
  destruct (Z.ltb_spec ((to - from) mod 18446744073709551616)
              9223372036854775808); lia.
Qed.

Lemma diff_plain from to :
  - 2 ^ 63 <= to - from < 2 ^ 63 ->
  absolute_time_diff_us from to = to - from.
Proof.
  intros H. unfold absolute_time_diff_us, two64.
  change (2 ^ 63) with 9223372036854775808 in *.
  change (2 ^ 64) with 18446744073709551616 in *.
  destruct (Z.ltb_spec (to - from) 0) as [Neg | Pos].
  - assert ((to - from) mod 18446744073709551616
            = to - from + 18446744073709551616) as ->.
    { symmetry. apply Z.mod_unique with (-1); lia. }
    destruct (Z.ltb_spec (to - from + 18446744073709551616)
                9223372036854775808); lia.
  - rewrite Z.mod_small by lia.
    destruct (Z.ltb_spec (to - from) 9223372036854775808); lia.
Qed.

End float_facts.

(** * part_001: callbacks and loop phases *)

Module facts_001.
Import part_001 obs_001.

Lemma state_eqb_spec_001 (a b : measurement_state_t) :
  state_eqb a b = true <-> a = b.
Proof. destruct a, b; simpl; split; congruence. Qed.

Lemma state_eqb_neq_001 (a b : measurement_state_t) :
  a <> b -> state_eqb a b = false.
Proof. destruct a, b; simpl; congruence. Qed.

(** ** The two callbacks *)

Lemma timeout_waiting_001 id g :
  current_state g = STATE_WAITING_FOR_ECHO ->
  timeout_callback id g = (set_current_state STATE_MEASUREMENT_ERROR g, 0).
Proof. intros H. unfold timeout_callback. now rewrite H. Qed.

Lemma timeout_other_001 id g :
  current_state g <> STATE_WAITING_FOR_ECHO ->
  timeout_callback id g = (g, 0).
Proof.
  intros H. unfold timeout_callback.
  now rewrite (state_eqb_neq_001 _ _ H).
Qed.

Ltac split_ifs :=
  repeat match goal with
         | |- context [if ?b then _ else _] => destruct b eqn:?
         end.

Lemma echo_fall_waiting_001 events t_rise t_fall g :
  Z.land events GPIO_IRQ_EDGE_FALL <> 0 ->
  current_state g = STATE_WAITING_FOR_ECHO ->
  let r := echo_callback ECHO_PIN events t_rise t_fall g in
  current_state (fst r) = STATE_MEASUREMENT_COMPLETE /\
  echo_end_time (fst r) = t_fall /\
  snd r = [cancel_alarm (measurement_alarm_id g)].
Proof.
  intros Hf Hw. unfold echo_callback. simpl (ECHO_PIN =? ECHO_PIN).
  apply Z.eqb_neq in Hf. rewrite Hf. cbv iota.
  destruct (negb (Z.land events GPIO_IRQ_EDGE_RISE =? 0)); simpl;
    rewrite Hw; simpl; auto.
Qed.

Lemma echo_fall_other_001 events t_rise t_fall g :
  Z.land events GPIO_IRQ_EDGE_FALL <> 0 ->
  current_state g <> STATE_WAITING_FOR_ECHO ->
  let r := echo_callback ECHO_PIN events t_rise t_fall g in
  current_state (fst r) = current_state g /\
  echo_end_time (fst r) = t_fall /\
  snd r = [].
Proof.
  intros Hf Hw. unfold echo_callback. simpl (ECHO_PIN =? ECHO_PIN).
  apply Z.eqb_neq in Hf. rewrite Hf. cbv iota.
  apply state_eqb_neq_001 in Hw.
  destruct (negb (Z.land events GPIO_IRQ_EDGE_RISE =? 0)); simpl;
    rewrite Hw; simpl; auto.
Qed.


(** ** Interrupts as a whole *)

Lemma handle_frame_001 i g : same_console g (fst (handle i g)).
Proof.
  destruct i as [gpio events t1 t2 | id]; simpl.
  - unfold echo_callback, same_console. split_ifs; simpl; auto.
  - unfold same_console.
    destruct (state_eqb (current_state g) STATE_WAITING_FOR_ECHO);
      simpl; auto.
Qed.

(** An interrupt changes the state only out of [STATE_WAITING_FOR_ECHO]. *)
Lemma handle_state_001 i g :
  current_state g <> STATE_WAITING_FOR_ECHO ->
  current_state (fst (handle i g)) = current_state g.
Proof.
  intros H. apply state_eqb_neq_001 in H.
  destruct i as [gpio events t1 t2 | id]; simpl.
  - unfold echo_callback. split_ifs; simpl in *; auto; congruence.
  - now rewrite H.
Qed.

Lemma handle_from_waiting_001 i g :
  current_state (fst (handle i g)) <> STATE_IDLE \/
  current_state g = STATE_IDLE.
Proof.
  destruct (current_state g) eqn:E; auto; left.
  - destruct i as [gpio events t1 t2 | id]; simpl.
    + unfold echo_callback. split_ifs; simpl in *; congruence.
    + rewrite E; simpl. congruence.
  - rewrite handle_state_001; congruence.
  - rewrite handle_state_001; congruence.
Qed.

Lemma handle_trace_001 i g : forallb is_cancel (snd (handle i g)) = true.
Proof.
  destruct i as [gpio events t1 t2 | id]; simpl; auto.
  unfold echo_callback. split_ifs; reflexivity.
Qed.

Lemma handle_quiet_001 i g :
  current_state g <> STATE_WAITING_FOR_ECHO -> snd (handle i g) = [].
Proof.
  intros H. apply state_eqb_neq_001 in H.
  destruct i as [gpio events t1 t2 | id]; simpl; auto.
  unfold echo_callback. split_ifs; simpl in *; auto; congruence.
Qed.

Lemma handle_all_cons_001 i rest g :
  handle_all (i :: rest) g =
  (fst (handle_all rest (fst (handle i g))),
   snd (handle i g) ++ snd (handle_all rest (fst (handle i g)))).
Proof.
  simpl. destruct (handle i g) as [g1 t1]. simpl.
  now destruct (handle_all rest g1).
Qed.

Lemma handle_all_frame_001 irqs : forall g,
  same_console g (fst (handle_all irqs g)).
Proof.
  induction irqs as [|i rest IH]; intros g.
  - simpl. unfold same_console. auto.
  - rewrite handle_all_cons_001. simpl.
    destruct (handle_frame_001 i g) as (A & B & C & D).
    destruct (IH (fst (handle i g))) as (A' & B' & C' & D').
    unfold same_console. repeat split; congruence.
Qed.

Lemma handle_all_state_001 irqs : forall g,
  current_state g <> STATE_WAITING_FOR_ECHO ->
  current_state (fst (handle_all irqs g)) = current_state g.
Proof.
  induction irqs as [|i rest IH]; intros g H; [reflexivity|].
  rewrite handle_all_cons_001. simpl.
  pose proof (handle_state_001 i g H) as E.
  rewrite IH; congruence.
Qed.

Lemma handle_all_not_idle_001 irqs : forall g,
  current_state g <> STATE_IDLE ->
  current_state (fst (handle_all irqs g)) <> STATE_IDLE.
Proof.
  induction irqs as [|i rest IH]; intros g H; [exact H|].
  rewrite handle_all_cons_001. simpl. apply IH.
  destruct (handle_from_waiting_001 i g); congruence.
Qed.

Lemma handle_all_trace_001 irqs : forall g,
  forallb is_cancel (snd (handle_all irqs g)) = true.
Proof.
  induction irqs as [|i rest IH]; intros g; [reflexivity|].
  rewrite handle_all_cons_001. simpl.
  rewrite forallb_app, handle_trace_001, IH. reflexivity.
Qed.

Lemma handle_all_quiet_001 irqs : forall g,
  current_state g <> STATE_WAITING_FOR_ECHO -> snd (handle_all irqs g) = [].
Proof.
  induction irqs as [|i rest IH]; intros g H; [reflexivity|].
  rewrite handle_all_cons_001. simpl.
  rewrite handle_quiet_001 by assumption. simpl.
  apply IH. rewrite handle_state_001; assumption.
Qed.

Lemma preempt_eq_001 irqs g :
  preempt irqs g = Ok (tt, fst (handle_all irqs g), snd (handle_all irqs g)).
Proof. unfold preempt. now destruct (handle_all irqs g). Qed.

(** Once the state has left [STATE_WAITING_FOR_ECHO], no interrupt makes
    it leave again. *)
Lemma exits_settled_001 irqs : forall g,
  current_state g <> STATE_WAITING_FOR_ECHO -> exits irqs g = 0%nat.
Proof.
  induction irqs as [|i rest IH]; intros g H; [reflexivity|].
  simpl. rewrite (state_eqb_neq_001 _ _ H). simpl.
  apply IH. rewrite handle_state_001; assumption.
Qed.

Lemma exits_at_most_once_001 irqs : forall g, (exits irqs g <= 1)%nat.
Proof.
  induction irqs as [|i rest IH]; intros g; simpl; [lia|].
  destruct (state_eqb (current_state g) STATE_WAITING_FOR_ECHO
            && negb (state_eqb (current_state (fst (handle i g)))
                       STATE_WAITING_FOR_ECHO)) eqn:E.
  - apply andb_true_iff in E as [_ E]. apply negb_true_iff in E.
    rewrite exits_settled_001; [lia|].
    intros C. rewrite C in E. discriminate E.
  - specialize (IH (fst (handle i g))). lia.
Qed.

Lemma handle_pair_001 a b g :
  fst (handle_all [a; b] g) = fst (handle b (fst (handle a g))).
Proof. rewrite !handle_all_cons_001. reflexivity. Qed.

(** Two interrupts of which the first leaves the waiting state. *)
Lemma exits_first_001 a b g :
  current_state g = STATE_WAITING_FOR_ECHO ->
  current_state (fst (handle a g)) <> STATE_WAITING_FOR_ECHO ->
  exits [a; b] g = 1%nat /\
  current_state (fst (handle_all [a; b] g))
  = current_state (fst (handle a g)).
Proof.
  intros Hw Ha. split.
  - change (exits [a; b] g)
      with ((if state_eqb (current_state g) STATE_WAITING_FOR_ECHO
                && negb (state_eqb (current_state (fst (handle a g)))
                           STATE_WAITING_FOR_ECHO)
             then 1 else 0) + exits [b] (fst (handle a g)))%nat.
    rewrite Hw, (state_eqb_neq_001 _ _ Ha).
    rewrite exits_settled_001 by assumption. reflexivity.
  - rewrite handle_pair_001. now apply handle_state_001.
Qed.

(** ** The trigger phase *)

Lemma start_measurement_fires_001 e g :
  system_running g = true ->
  current_state g = STATE_IDLE ->
  start_measurement e g =
    Ok (tt,
        set_measurement_alarm_id (new_alarm e)
          (set_current_state STATE_WAITING_FOR_ECHO
             (fst (handle_all (irq_pulse e) g))),
        [gpio_put TRIGGER_PIN true; sleep_us 10;
         gpio_put TRIGGER_PIN false;
         add_alarm_in_us MEASUREMENT_TIMEOUT_US]).
Proof.
  intros Hr Hs. unfold start_measurement, send_trigger_pulse.
  unfold bind, ret, fetch, modify, emit. cbv beta iota zeta.
  rewrite Hr, Hs. cbv beta iota zeta delta [andb orb state_eqb].
  rewrite preempt_eq_001.
  rewrite handle_all_quiet_001 by congruence. reflexivity.
Qed.

Lemma start_measurement_skips_001 e g :
  system_running g && state_eqb (current_state g) STATE_IDLE = false ->
  start_measurement e g = Ok (tt, g, []).
Proof.
  intros H. unfold start_measurement, bind, ret, fetch. cbv beta iota zeta.
  now rewrite H.
Qed.

(** ** The result phase, state by state *)

Lemma report_complete_001 e g :
  current_state g = STATE_MEASUREMENT_COMPLETE ->
  report e g =
    Ok (tt, fst (spacing e g),
        printf (report_distance (fmt_time (rtc_now e))
                  (distance_of (absolute_time_diff_us (echo_start_time g)
                                  (echo_end_time g))))
        :: snd (spacing e g)).
Proof.
  intros H. unfold report, spacing, bind, ret, fetch, modify, emit.
  cbv beta iota zeta. rewrite H.
  cbv beta iota zeta delta [andb orb state_eqb].
  change (system_running (set_current_state STATE_IDLE g))
    with (system_running g).
  destruct (system_running g); cbv iota; [|reflexivity].
  rewrite preempt_eq_001, handle_all_quiet_001 by (simpl; congruence).
  reflexivity.
Qed.

Lemma report_error_001 e g :
  current_state g = STATE_MEASUREMENT_ERROR ->
  report e g =
    Ok (tt, fst (spacing e g),
        printf (report_falha (fmt_time (rtc_now e))) :: snd (spacing e g)).
Proof.
  intros H. unfold report, spacing, bind, ret, fetch, modify, emit.
  cbv beta iota zeta. rewrite H.
  cbv beta iota zeta delta [andb orb state_eqb].
  change (system_running (set_current_state STATE_IDLE g))
    with (system_running g).
  destruct (system_running g); cbv iota; [|reflexivity].
  rewrite preempt_eq_001, handle_all_quiet_001 by (simpl; congruence).
  reflexivity.
Qed.

Lemma report_none_001 e g :
  current_state g = STATE_IDLE \/ current_state g = STATE_WAITING_FOR_ECHO ->
  report e g = Ok (tt, g, []).
Proof.
  intros H. unfold report, bind, ret, fetch. cbv beta iota zeta.
  now destruct H as [-> | ->].
Qed.

Lemma spacing_state_001 e g :
  current_state (fst (spacing e g)) = STATE_IDLE.
Proof.
  unfold spacing. destruct (system_running g); simpl; auto.
  rewrite handle_all_state_001; simpl; congruence.
Qed.

Lemma spacing_running_001 e g :
  system_running (fst (spacing e g)) = system_running g.
Proof.
  unfold spacing. destruct (system_running g) eqn:R; simpl; auto.
  now destruct (handle_all_frame_001 (irq_spacing e)
                  (set_current_state STATE_IDLE g)) as (-> & _).
Qed.

Lemma spacing_trace_001 e g :
  List.filter is_trigger (snd (spacing e g)) = [] /\
  List.filter is_report (snd (spacing e g)) = [].
Proof. unfold spacing. now destruct (system_running g). Qed.

Lemma report_trace_001 e g g' t :
  report e g = Ok (tt, g', t) -> List.filter is_trigger t = [].
Proof.
  destruct (current_state g) eqn:E.
  - rewrite report_none_001 by auto. now intros [= <- <-].
  - rewrite report_none_001 by auto. now intros [= <- <-].
  - rewrite report_complete_001 by auto. intros [= <- <-].
    simpl. apply spacing_trace_001.
  - rewrite report_error_001 by auto. intros [= <- <-].
    simpl. apply spacing_trace_001.
Qed.

Lemma report_running_001 e g g' t :
  report e g = Ok (tt, g', t) -> system_running g' = system_running g.
Proof.
  destruct (current_state g) eqn:E.
  - rewrite report_none_001 by auto. now intros [= <- <-].
  - rewrite report_none_001 by auto. now intros [= <- <-].
  - rewrite report_complete_001 by auto. intros [= <- <-].
    apply spacing_running_001.
  - rewrite report_error_001 by auto. intros [= <- <-].
    apply spacing_running_001.
Qed.

(** ** The console phase *)

Lemma console_frame_001 c g skip g' t :
  console c g = Ok (skip, g', t) -> same_measurement g g'.
Proof.
  unfold console, same_measurement. intros H. mrun H.
  all: inversion H; subst; clear H; simpl; auto.
Qed.

Lemma console_trace_001 c g skip g' t :
  console c g = Ok (skip, g', t) ->
  List.filter is_trigger t = [] /\ List.filter is_report t = [].
Proof.
  unfold console. intros H. mrun H.
  all: inversion H; subst; clear H; split; reflexivity.
Qed.

(** The console part never leaves the buffer. *)
Lemma console_safe_001 c g :
  buffer_ok g ->
  exists skip g' t, console c g = Ok (skip, g', t) /\ buffer_ok g'.
Proof.
  intros [Hl Hi]. destruct (console c g) as [[[skip g'] t]|err] eqn:H.
  - exists skip, g', t. split; [reflexivity|].
    unfold console in H. mrun H.
    all: inversion H; subst; clear H; unfold buffer_ok; simpl.
    all: repeat match goal with
           | E : store _ _ _ = Ok _ |- _ => apply store_length in E
           | E : (_ <? _) = true |- _ => apply Z.ltb_lt in E
           end.
    all: rewrite ?memset0_length; unfold CMD_BUFFER_SIZE in *;
      split; try congruence; try lia.
  - exfalso. unfold console in H. mrun H.
    all: repeat match goal with
           | E : (_ =? _) = false |- _ => apply Z.eqb_neq in E
           | E : (_ <? _) = true |- _ => apply Z.ltb_lt in E
           end.
    all: try match goal with
           | E : store _ _ _ = Err _ |- _ =>
               rewrite store_ok in E
                 by (rewrite Hl; unfold CMD_BUFFER_SIZE in *; lia);
               discriminate E
           end.
    all: match goal with
         | S : store _ _ 0 = Ok ?b, E : strcmp ?b (literal ?s) = Err _ |- _ =>
             destruct (strcmp_literal_ok b _ s (store_terminator _ _ _ S))
               as [r Hr];
             rewrite Hr in E; discriminate E
         end.
Qed.

(** An empty line: the code runs [continue] and nothing is changed. *)
Lemma console_empty_line_001 c g :
  c = 13 \/ c = 10 ->
  cmd_index g = 0 ->
  console c g = Ok (true, g, [putchar c]).
Proof.
  intros Hc Hi. unfold console, bind, ret, fetch, emit.
  destruct Hc as [-> | ->]; simpl; rewrite Hi; reflexivity.
Qed.

(** A character that arrives when the line is full is dropped. *)
Lemma console_full_001 c g :
  c <> 13 -> c <> 10 ->
  cmd_index g = CMD_BUFFER_SIZE - 1 ->
  console c g = Ok (false, g, [putchar c]).
Proof.
  intros H13 H10 Hi. unfold console, bind, ret, fetch, emit.
  apply Z.eqb_neq in H13, H10. rewrite H13, H10. simpl.
  rewrite Hi. reflexivity.
Qed.

(** The line ["stop"]. *)
Lemma console_stop_001 c g x rest :
  c = 13 \/ c = 10 ->
  cmd_index g = 4 ->
  cmd_buffer g = [115; 116; 111; 112] ++ x :: rest ->
  exists g',
    console c g = Ok (false, g', [putchar c; printf msg_stopped]) /\
    system_running g' = false /\
    cmd_index g' = 0 /\
    cmd_buffer g' = replicate (length (cmd_buffer g)) 0 /\
    same_measurement g g'.
Proof.
  intros Hc Hi Hb. unfold console, bind, ret, fetch, emit, modify, lift.
  assert ((c =? 13) || (c =? 10) = true) as -> by now destruct Hc as [-> | ->].
  cbv beta iota zeta. rewrite Hi, Hb.
  rewrite store_ok by (simpl; lia). simpl.
  eexists. split; [reflexivity|].
  unfold same_measurement, memset0. simpl.
  repeat split; reflexivity.
Qed.

(** ** One iteration of the loop *)

Lemma loop_body_inv_001 e g g' t :
  loop_body e g = Ok (tt, g', t) ->
  exists skip g2 t2,
    match in_char e with
    | Some c => console c
    | None => ret false
    end (fst (handle_all (irq_getchar e) g)) = Ok (skip, g2, t2) /\
    if skip : bool
    then g' = g2 /\ t = snd (handle_all (irq_getchar e) g) ++ t2
    else exists g3 t3 g5 t5,
        start_measurement e g2 = Ok (tt, g3, t3) /\
        report e (fst (handle_all (irq_armed e) g3)) = Ok (tt, g5, t5) /\
        g' = fst (handle_all (irq_poll e) g5) /\
        t = snd (handle_all (irq_getchar e) g) ++ t2 ++ t3 ++
            snd (handle_all (irq_armed e) g3) ++ t5 ++ [sleep_ms 10] ++
            snd (handle_all (irq_poll e) g5).
Proof.
  intros H. unfold loop_body in H.
  apply bind_ok in H as (? & g1 & t1 & tr & H1 & H & ->).
  rewrite preempt_eq_001 in H1. ok_inv H1.
  apply bind_ok in H as (skip & g2 & t2 & tr' & H2 & H & ->).
  exists skip, g2, t2. split; [exact H2|].
  destruct skip.
  - ok_inv H. rewrite app_nil_r. auto.
  - apply bind_ok in H as ([] & g3 & t3 & tr3 & H3 & H & ->).
    apply bind_ok in H as (? & g4 & t4 & tr4 & H4 & H & ->).
    rewrite preempt_eq_001 in H4. ok_inv H4.
    apply bind_ok in H as ([] & g5 & t5 & tr5 & H5 & H & ->).
    apply bind_ok in H as (? & g6 & t6 & tr6 & H6 & H & ->).
    ok_inv H6. rewrite preempt_eq_001 in H. ok_inv H.
    do 4 eexists. split; [eassumption|]. split; [eassumption|].
    split; reflexivity.
Qed.

Lemma console_or_not_001 (oc : option Z) g skip g2 t2 :
  match oc with
  | Some c => console c
  | None => ret false
  end g = Ok (skip, g2, t2) ->
  same_measurement g g2 /\
  List.filter is_trigger t2 = [] /\ List.filter is_report t2 = [].
Proof.
  destruct oc as [c|]; intros H.
  - split; [eapply console_frame_001 | eapply console_trace_001]; eauto.
  - ok_inv H. unfold same_measurement. auto.
Qed.

(** A pulse is sent and an alarm armed only by an iteration that starts in
    [STATE_IDLE] and has the run flag set when it reaches the test. *)
Lemma loop_body_trigger_001 e g g' t :
  loop_body e g = Ok (tt, g', t) ->
  List.filter is_trigger t = [] \/
  (current_state g = STATE_IDLE /\ system_running g' = true).
Proof.
  intros H. apply loop_body_inv_001 in H as (skip & g2 & t2 & H2 & H).
  pose proof (console_or_not_001 _ _ _ _ _ H2) as ((Hs2 & _) & Ht2 & _).
  pose proof (cancel_not_trigger _ (handle_all_trace_001 (irq_getchar e) g))
    as Ht1.
  destruct skip.
  - destruct H as [-> ->]. left. now rewrite List.filter_app, Ht1, Ht2.
  - destruct H as (g3 & t3 & g5 & t5 & H3 & H5 & -> & ->).
    destruct (system_running g2 && state_eqb (current_state g2) STATE_IDLE)
      eqn:C.
    + right. apply andb_true_iff in C as [R S].
      apply state_eqb_spec_001 in S. split.
      * destruct (current_state g) eqn:E; auto; exfalso.
        all: apply (handle_all_not_idle_001 (irq_getchar e) g);
          congruence.
      * rewrite start_measurement_fires_001 in H3 by assumption.
        ok_inv H3.
        destruct (handle_all_frame_001 (irq_poll e) g5) as (-> & _).
        rewrite (report_running_001 _ _ _ _ H5).
        destruct (handle_all_frame_001 (irq_armed e)
          (set_measurement_alarm_id (new_alarm e)
             (set_current_state STATE_WAITING_FOR_ECHO
                (fst (handle_all (irq_pulse e) g2))))) as (-> & _).
        simpl.
        now destruct (handle_all_frame_001 (irq_pulse e) g2) as (-> & _).
    + left. rewrite start_measurement_skips_001 in H3 by assumption.
      ok_inv H3.
      rewrite !List.filter_app, Ht1, Ht2, (report_trace_001 _ _ _ _ H5).
      rewrite !(cancel_not_trigger _ (handle_all_trace_001 _ _)).
      reflexivity.
Qed.

(** The loop never leaves the command buffer. *)
Lemma loop_body_safe_001 e g :
  buffer_ok g ->
  exists g' t, loop_body e g = Ok (tt, g', t) /\ buffer_ok g'.
Proof.
  intros Hb.
  assert (forall irqs g0, buffer_ok g0 ->
            buffer_ok (fst (handle_all irqs g0))) as Hirq.
  { intros irqs g0 [A B].
    destruct (handle_all_frame_001 irqs g0) as (_ & Eb & Ei & _).
    unfold buffer_ok. now rewrite Eb, Ei. }
  unfold loop_body, bind. rewrite preempt_eq_001.
  pose proof (Hirq (irq_getchar e) g Hb) as Hb1.
  set (g1 := fst (handle_all (irq_getchar e) g)) in *.
  assert (exists skip g2 t2,
            match in_char e with
            | Some c => console c
            | None => ret false
            end g1 = Ok (skip, g2, t2) /\ buffer_ok g2)
    as (skip & g2 & t2 & -> & Hb2).
  { destruct (in_char e) as [c|]; [now apply console_safe_001|].
    exists false, g1, []. auto. }
  destruct skip; [unfold ret; eauto|].
  assert (exists g3 t3, start_measurement e g2 = Ok (tt, g3, t3) /\
                        buffer_ok g3) as (g3 & t3 & -> & Hb3).
  { destruct (system_running g2 && state_eqb (current_state g2) STATE_IDLE)
      eqn:C.
    - apply andb_true_iff in C as [R S]. apply state_eqb_spec_001 in S.
      rewrite start_measurement_fires_001 by assumption.
      do 2 eexists. split; [reflexivity|].
      apply (Hirq (irq_pulse e)) in Hb2. exact Hb2.
    - rewrite start_measurement_skips_001 by assumption. eauto. }
  rewrite preempt_eq_001.
  pose proof (Hirq (irq_armed e) g3 Hb3) as Hb4.
  set (g4 := fst (handle_all (irq_armed e) g3)) in *.
  assert (exists g5 t5, report e g4 = Ok (tt, g5, t5) /\ buffer_ok g5)
    as (g5 & t5 & -> & Hb5).
  { assert (buffer_ok (fst (spacing e g4))) as Hsp.
    { unfold spacing. destruct (system_running g4); simpl.
      - apply Hirq. exact Hb4.
      - exact Hb4. }
    destruct (current_state g4) eqn:E.
    - rewrite report_none_001 by auto. eauto.
    - rewrite report_none_001 by auto. eauto.
    - rewrite report_complete_001 by auto. eauto.
    - rewrite report_error_001 by auto. eauto. }
  unfold emit. rewrite preempt_eq_001.
  do 2 eexists. split; [reflexivity|]. now apply Hirq.
Qed.

Lemma main_loop_safe_001 es : forall g,
  buffer_ok g ->
  exists g' t, main_loop es g = Ok (tt, g', t) /\ buffer_ok g'.
Proof.
  induction es as [|e es IH]; intros g Hb.
  - exists g, []. auto.
  - simpl. unfold bind.
    destruct (loop_body_safe_001 e g Hb) as (g1 & t1 & -> & Hb1).
    destruct (IH g1 Hb1) as (g2 & t2 & -> & Hb2). eauto.
Qed.

Lemma boot_buffer_ok_001 : buffer_ok g_state.
Proof.
  unfold buffer_ok. simpl. split; [reflexivity | unfold CMD_BUFFER_SIZE; lia].
Qed.

(** An iteration without console input, with the run flag clear. *)
Lemma loop_body_stopped_idle_001 e g :
  in_char e = None ->
  system_running g = false ->
  current_state g = STATE_IDLE ->
  exists g',
    loop_body e g = Ok (tt, g', [sleep_ms 10]) /\
    current_state g' = STATE_IDLE /\ system_running g' = false.
Proof.
  intros Hin Hr Hs.
  assert (current_state g <> STATE_WAITING_FOR_ECHO) as Hw by congruence.
  unfold loop_body, bind. rewrite Hin, preempt_eq_001.
  unfold ret at 1. cbv beta iota.
  destruct (handle_all_frame_001 (irq_getchar e) g) as (R1 & _).
  pose proof (handle_all_state_001 (irq_getchar e) g Hw) as S1.
  rewrite start_measurement_skips_001 by (rewrite R1, Hr; reflexivity).
  rewrite preempt_eq_001.
  set (g1 := fst (handle_all (irq_getchar e) g)) in *.
  destruct (handle_all_frame_001 (irq_armed e) g1) as (R2 & _).
  pose proof (handle_all_state_001 (irq_armed e) g1) as S2.
  rewrite S1 in S2. specialize (S2 Hw).
  set (g2 := fst (handle_all (irq_armed e) g1)) in *.
  rewrite report_none_001 by (left; congruence).
  unfold emit. rewrite preempt_eq_001.
  destruct (handle_all_frame_001 (irq_poll e) g2) as (R3 & _).
  pose proof (handle_all_state_001 (irq_poll e) g2) as S3.
  rewrite S2 in S3. specialize (S3 Hw).
  rewrite !handle_all_quiet_001 by congruence.
  eexists. split; [reflexivity|]. split; congruence.
Qed.

Lemma loop_body_stopped_terminal_001 e g :
  in_char e = None ->
  system_running g = false ->
  current_state g = STATE_MEASUREMENT_COMPLETE \/
  current_state g = STATE_MEASUREMENT_ERROR ->
  exists g' l,
    loop_body e g = Ok (tt, g', [printf l; sleep_ms 10]) /\
    current_state g' = STATE_IDLE /\ system_running g' = false /\
    match current_state g with
    | STATE_MEASUREMENT_COMPLETE => exists d,
        l = report_distance (fmt_time (rtc_now e)) d
    | _ => l = report_falha (fmt_time (rtc_now e))
    end.
Proof.
  intros Hin Hr Hs.
  assert (current_state g <> STATE_WAITING_FOR_ECHO) as Hw
    by (destruct Hs; congruence).
  unfold loop_body, bind. rewrite Hin, preempt_eq_001.
  unfold ret at 1. cbv beta iota.
  destruct (handle_all_frame_001 (irq_getchar e) g) as (R1 & _).
  pose proof (handle_all_state_001 (irq_getchar e) g Hw) as S1.
  rewrite start_measurement_skips_001 by (rewrite R1, Hr; reflexivity).
  rewrite preempt_eq_001.
  set (g1 := fst (handle_all (irq_getchar e) g)) in *.
  destruct (handle_all_frame_001 (irq_armed e) g1) as (R2 & _).
  pose proof (handle_all_state_001 (irq_armed e) g1) as S2.
  rewrite S1 in S2. specialize (S2 Hw).
  set (g2 := fst (handle_all (irq_armed e) g1)) in *.
  assert (system_running g2 = false) as Hr2 by congruence.
  assert (spacing e g2 = (set_current_state STATE_IDLE g2, [])) as Hsp
    by (unfold spacing; now rewrite Hr2).
  rewrite !handle_all_quiet_001 by congruence.
  destruct Hs as [Hs | Hs]; rewrite Hs in *.
  - rewrite report_complete_001, Hsp by congruence.
    unfold emit. rewrite preempt_eq_001. simpl.
    rewrite handle_all_quiet_001 by (simpl; congruence).
    do 2 eexists. split; [reflexivity|].
    rewrite handle_all_state_001 by (simpl; congruence).
    destruct (handle_all_frame_001 (irq_poll e)
                (set_current_state STATE_IDLE g2)) as (-> & _).
    simpl. eauto.
  - rewrite report_error_001, Hsp by congruence.
    unfold emit. rewrite preempt_eq_001. simpl.
    rewrite handle_all_quiet_001 by (simpl; congruence).
    do 2 eexists. split; [reflexivity|].
    rewrite handle_all_state_001 by (simpl; congruence).
    destruct (handle_all_frame_001 (irq_poll e)
                (set_current_state STATE_IDLE g2)) as (-> & _).
    simpl. eauto.
Qed.



(** The transition from [STATE_IDLE] to [STATE_WAITING_FOR_ECHO]. *)
Lemma start_measurement_transition_001 e g g' t :
  start_measurement e g = Ok (tt, g', t) ->
  current_state g = STATE_IDLE ->
  current_state g' = STATE_WAITING_FOR_ECHO ->
  system_running g = true /\
  t = [gpio_put TRIGGER_PIN true; sleep_us 10; gpio_put TRIGGER_PIN false;
       add_alarm_in_us MEASUREMENT_TIMEOUT_US] /\
  measurement_alarm_id g' = new_alarm e.
Proof.
  intros H Hi Hw. destruct (system_running g) eqn:R.
  - rewrite start_measurement_fires_001 in H by assumption. ok_inv H.
    auto.
  - rewrite start_measurement_skips_001 in H by (now rewrite R).
    ok_inv H. congruence.
Qed.

(** The timestamps across the start of a cycle. *)
Lemma start_measurement_keeps_001 e g :
  irq_pulse e = [] ->
  system_running g = true ->
  current_state g = STATE_IDLE ->
  exists g' t,
    start_measurement e g = Ok (tt, g', t) /\
    current_state g' = STATE_WAITING_FOR_ECHO /\
    echo_start_time g' = echo_start_time g /\
    echo_end_time g' = echo_end_time g.
Proof.
  intros Hp Hr Hs. rewrite start_measurement_fires_001 by assumption.
  rewrite Hp. simpl. eauto 6.
Qed.

(** A measurement awaited while the run flag is clear: after the
    interrupt that ends it, two iterations without console input. *)
Lemma stopped_in_flight_001 g i e1 e2 :
  current_state g = STATE_WAITING_FOR_ECHO ->
  system_running g = false ->
  is_fall i \/ (exists id, i = alarm_irq id) ->
  in_char e1 = None -> in_char e2 = None ->
  exists g' l,
    main_loop [e1; e2] (fst (handle i g))
    = Ok (tt, g', [printf l; sleep_ms 10; sleep_ms 10]) /\
    is_report (printf l) = true /\
    current_state g' = STATE_IDLE /\
    system_running g' = false.
Proof.
  intros Hw Hr Hi H1 H2.
  destruct (handle_frame_001 i g) as (R & _).
  assert (current_state (fst (handle i g)) = STATE_MEASUREMENT_COMPLETE \/
          current_state (fst (handle i g)) = STATE_MEASUREMENT_ERROR) as T.
  { destruct Hi as [Hf | [id ->]].
    - destruct i as [gpio events t1 t2|]; [|destruct Hf].
      destruct Hf as [-> Hf]. left.
      now destruct (echo_fall_waiting_001 events t1 t2 g Hf Hw).
    - right. unfold handle. now rewrite timeout_waiting_001. }
  destruct (loop_body_stopped_terminal_001 e1 (fst (handle i g)) H1)
    as (g1 & l & L1 & S1 & R1 & K); [congruence | exact T |].
  destruct (loop_body_stopped_idle_001 e2 g1 H2 R1 S1)
    as (g2 & L2 & S2 & R2).
  exists g2, l. simpl. unfold bind. rewrite L1, L2. unfold ret.
  split; [reflexivity|]. split; [|auto].
  destruct T as [T | T]; rewrite T in K.
  - destruct K as [d ->]. reflexivity.
  - subst l. reflexivity.
Qed.

(** The result phase in a terminal state: the line and the reset do not
    depend on the run flag, the pause does. *)
Lemma report_any_flag_001 e g :
  current_state g = STATE_MEASUREMENT_COMPLETE \/
  current_state g = STATE_MEASUREMENT_ERROR ->
  exists g' l,
    report e g =
      Ok (tt, g',
          printf l :: (if system_running g then [sleep_ms 1000] else [])) /\
    is_report (printf l) = true /\
    current_state g' = STATE_IDLE.
Proof.
  assert (snd (spacing e g)
          = if system_running g then [sleep_ms 1000] else []) as Sp
    by (unfold spacing; now destruct (system_running g)).
  intros [H | H].
  - rewrite report_complete_001, Sp by assumption.
    do 2 eexists. split; [reflexivity|].
    split; [reflexivity | apply spacing_state_001].
  - rewrite report_error_001, Sp by assumption.
    do 2 eexists. split; [reflexivity|].
    split; [reflexivity | apply spacing_state_001].
Qed.

(** ** The timestamps *)












End facts_001.

(** * part_000: the same facts on the global variables *)

Module facts_000.
Import part_000 obs_000.

Lemma state_eqb_spec_000 (a b : measurement_state_t) :
  state_eqb a b = true <-> a = b.
Proof. destruct a, b; simpl; split; congruence. Qed.

Lemma state_eqb_neq_000 (a b : measurement_state_t) :
  a <> b -> state_eqb a b = false.
Proof. destruct a, b; simpl; congruence. Qed.

(** ** The two callbacks *)

Lemma timeout_waiting_000 id g :
  current_state g = STATE_WAITING_FOR_ECHO ->
  timeout_callback id g = (set_current_state STATE_MEASUREMENT_ERROR g, 0).
Proof. intros H. unfold timeout_callback. now rewrite H. Qed.

Lemma timeout_other_000 id g :
  current_state g <> STATE_WAITING_FOR_ECHO ->
  timeout_callback id g = (g, 0).
Proof.
  intros H. unfold timeout_callback.
  now rewrite (state_eqb_neq_000 _ _ H).
Qed.

Ltac split_ifs :=
  repeat match goal with
         | |- context [if ?b then _ else _] => destruct b eqn:?
         end.

Lemma echo_fall_waiting_000 events t_rise t_fall g :
  Z.land events GPIO_IRQ_EDGE_FALL <> 0 ->
  current_state g = STATE_WAITING_FOR_ECHO ->
  let r := echo_callback ECHO_PIN events t_rise t_fall g in
  current_state (fst r) = STATE_MEASUREMENT_COMPLETE /\
  echo_end_time (fst r) = t_fall /\
  snd r = [cancel_alarm (measurement_alarm_id g)].
Proof.
  intros Hf Hw. unfold echo_callback. simpl (ECHO_PIN =? ECHO_PIN).
  apply Z.eqb_neq in Hf. rewrite Hf. cbv iota.
  destruct (negb (Z.land events GPIO_IRQ_EDGE_RISE =? 0)); simpl;
    rewrite Hw; simpl; auto.
Qed.

Lemma echo_fall_other_000 events t_rise t_fall g :
  Z.land events GPIO_IRQ_EDGE_FALL <> 0 ->
  current_state g <> STATE_WAITING_FOR_ECHO ->
  let r := echo_callback ECHO_PIN events t_rise t_fall g in
  current_state (fst r) = current_state g /\
  echo_end_time (fst r) = t_fall /\
  snd r = [].
Proof.
  intros Hf Hw. unfold echo_callback. simpl (ECHO_PIN =? ECHO_PIN).
  apply Z.eqb_neq in Hf. rewrite Hf. cbv iota.
  apply state_eqb_neq_000 in Hw.
  destruct (negb (Z.land events GPIO_IRQ_EDGE_RISE =? 0)); simpl;
    rewrite Hw; simpl; auto.
Qed.

(** The start timestamp after an edge event on the echo pin: the clock
    reading when the rising bit is set, the old value otherwise. *)
Lemma echo_start_000 events t_rise t_fall g :
  echo_start_time (fst (echo_callback ECHO_PIN events t_rise t_fall g)) =
  if Z.land events GPIO_IRQ_EDGE_RISE =? 0
  then echo_start_time g else t_rise.
Proof.
  unfold echo_callback. simpl (ECHO_PIN =? ECHO_PIN). cbv iota.
  destruct (Z.land events GPIO_IRQ_EDGE_RISE =? 0); simpl;
    split_ifs; reflexivity.
Qed.

(** ** Interrupts as a whole *)

Lemma handle_frame_000 i g : same_console g (fst (handle i g)).
Proof.
  destruct i as [gpio events t1 t2 | id]; simpl.
  - unfold echo_callback, same_console. split_ifs; simpl; auto.
  - unfold same_console.
    destruct (state_eqb (current_state g) STATE_WAITING_FOR_ECHO);
      simpl; auto.
Qed.

(** An interrupt changes the state only out of [STATE_WAITING_FOR_ECHO]. *)
Lemma handle_state_000 i g :
  current_state g <> STATE_WAITING_FOR_ECHO ->
  current_state (fst (handle i g)) = current_state g.
Proof.
  intros H. apply state_eqb_neq_000 in H.
  destruct i as [gpio events t1 t2 | id]; simpl.
  - unfold echo_callback. split_ifs; simpl in *; auto; congruence.
  - now rewrite H.
Qed.

Lemma handle_from_waiting_000 i g :
  current_state (fst (handle i g)) <> STATE_IDLE \/
  current_state g = STATE_IDLE.
Proof.
  destruct (current_state g) eqn:E; auto; left.
  - destruct i as [gpio events t1 t2 | id]; simpl.
    + unfold echo_callback. split_ifs; simpl in *; congruence.
    + rewrite E; simpl. congruence.
  - rewrite handle_state_000; congruence.
  - rewrite handle_state_000; congruence.
Qed.

Lemma handle_trace_000 i g : forallb is_cancel (snd (handle i g)) = true.
Proof.
  destruct i as [gpio events t1 t2 | id]; simpl; auto.
  unfold echo_callback. split_ifs; reflexivity.
Qed.

Lemma handle_quiet_000 i g :
  current_state g <> STATE_WAITING_FOR_ECHO -> snd (handle i g) = [].
Proof.
  intros H. apply state_eqb_neq_000 in H.
  destruct i as [gpio events t1 t2 | id]; simpl; auto.
  unfold echo_callback. split_ifs; simpl in *; auto; congruence.
Qed.

Lemma handle_all_cons_000 i rest g :
  handle_all (i :: rest) g =
  (fst (handle_all rest (fst (handle i g))),
   snd (handle i g) ++ snd (handle_all rest (fst (handle i g)))).
Proof.
  simpl. destruct (handle i g) as [g1 t1]. simpl.
  now destruct (handle_all rest g1).
Qed.

Lemma handle_all_frame_000 irqs : forall g,
  same_console g (fst (handle_all irqs g)).
Proof.
  induction irqs as [|i rest IH]; intros g.
  - simpl. unfold same_console. auto.
  - rewrite handle_all_cons_000. simpl.
    destruct (handle_frame_000 i g) as (A & B & C & D).
    destruct (IH (fst (handle i g))) as (A' & B' & C' & D').
    unfold same_console. repeat split; congruence.
Qed.

Lemma handle_all_state_000 irqs : forall g,
  current_state g <> STATE_WAITING_FOR_ECHO ->
  current_state (fst (handle_all irqs g)) = current_state g.
Proof.
  induction irqs as [|i rest IH]; intros g H; [reflexivity|].
  rewrite handle_all_cons_000. simpl.
  pose proof (handle_state_000 i g H) as E.
  rewrite IH; congruence.
Qed.

Lemma handle_all_not_idle_000 irqs : forall g,
  current_state g <> STATE_IDLE ->
  current_state (fst (handle_all irqs g)) <> STATE_IDLE.
Proof.
  induction irqs as [|i rest IH]; intros g H; [exact H|].
  rewrite handle_all_cons_000. simpl. apply IH.
  destruct (handle_from_waiting_000 i g); congruence.
Qed.

Lemma handle_all_trace_000 irqs : forall g,
  forallb is_cancel (snd (handle_all irqs g)) = true.
Proof.
  induction irqs as [|i rest IH]; intros g; [reflexivity|].
  rewrite handle_all_cons_000. simpl.
  rewrite forallb_app, handle_trace_000, IH. reflexivity.
Qed.

Lemma handle_all_quiet_000 irqs : forall g,
  current_state g <> STATE_WAITING_FOR_ECHO -> snd (handle_all irqs g) = [].
Proof.
  induction irqs as [|i rest IH]; intros g H; [reflexivity|].
  rewrite handle_all_cons_000. simpl.
  rewrite handle_quiet_000 by assumption. simpl.
  apply IH. rewrite handle_state_000; assumption.
Qed.

Lemma preempt_eq_000 irqs g :
  preempt irqs g = Ok (tt, fst (handle_all irqs g), snd (handle_all irqs g)).
Proof. unfold preempt. now destruct (handle_all irqs g). Qed.

(** Once the state has left [STATE_WAITING_FOR_ECHO], no interrupt makes
    it leave again. *)
Lemma exits_settled_000 irqs : forall g,
  current_state g <> STATE_WAITING_FOR_ECHO -> exits irqs g = 0%nat.
Proof.
  induction irqs as [|i rest IH]; intros g H; [reflexivity|].
  simpl. rewrite (state_eqb_neq_000 _ _ H). simpl.
  apply IH. rewrite handle_state_000; assumption.
Qed.

Lemma exits_at_most_once_000 irqs : forall g, (exits irqs g <= 1)%nat.
Proof.
  induction irqs as [|i rest IH]; intros g; simpl; [lia|].
  destruct (state_eqb (current_state g) STATE_WAITING_FOR_ECHO
            && negb (state_eqb (current_state (fst (handle i g)))
                       STATE_WAITING_FOR_ECHO)) eqn:E.
  - apply andb_true_iff in E as [_ E]. apply negb_true_iff in E.
    rewrite exits_settled_000; [lia|].
    intros C. rewrite C in E. discriminate E.
  - specialize (IH (fst (handle i g))). lia.
Qed.

Lemma handle_pair_000 a b g :
  fst (handle_all [a; b] g) = fst (handle b (fst (handle a g))).
Proof. rewrite !handle_all_cons_000. reflexivity. Qed.

(** Two interrupts of which the first leaves the waiting state. *)
Lemma exits_first_000 a b g :
  current_state g = STATE_WAITING_FOR_ECHO ->
  current_state (fst (handle a g)) <> STATE_WAITING_FOR_ECHO ->
  exits [a; b] g = 1%nat /\
  current_state (fst (handle_all [a; b] g))
  = current_state (fst (handle a g)).
Proof.
  intros Hw Ha. split.
  - change (exits [a; b] g)
      with ((if state_eqb (current_state g) STATE_WAITING_FOR_ECHO
                && negb (state_eqb (current_state (fst (handle a g)))
                           STATE_WAITING_FOR_ECHO)
             then 1 else 0) + exits [b] (fst (handle a g)))%nat.
    rewrite Hw, (state_eqb_neq_000 _ _ Ha).
    rewrite exits_settled_000 by assumption. reflexivity.
  - rewrite handle_pair_000. now apply handle_state_000.
Qed.

(** ** The trigger phase *)

Lemma start_measurement_fires_000 e g :
  system_running g = true ->
  current_state g = STATE_IDLE ->
  start_measurement e g =
    Ok (tt,
        set_measurement_alarm_id (new_alarm e)
          (set_current_state STATE_WAITING_FOR_ECHO
             (fst (handle_all (irq_pulse e) g))),
        [gpio_put TRIGGER_PIN true; sleep_us 10;
         gpio_put TRIGGER_PIN false;
         add_alarm_in_us MEASUREMENT_TIMEOUT_US]).
Proof.
  intros Hr Hs. unfold start_measurement, send_trigger_pulse.
  unfold bind, ret, fetch, modify, emit. cbv beta iota zeta.
  rewrite Hr, Hs. cbv beta iota zeta delta [andb orb state_eqb].
  rewrite preempt_eq_000.
  rewrite handle_all_quiet_000 by congruence. reflexivity.
Qed.

Lemma start_measurement_skips_000 e g :
  system_running g && state_eqb (current_state g) STATE_IDLE = false ->
  start_measurement e g = Ok (tt, g, []).
Proof.
  intros H. unfold start_measurement, bind, ret, fetch. cbv beta iota zeta.
  now rewrite H.
Qed.

(** ** The result phase, state by state *)

Lemma report_complete_000 e g :
  current_state g = STATE_MEASUREMENT_COMPLETE ->
  report e g =
    Ok (tt, fst (spacing e g),
        printf (report_distance (fmt_time (rtc_now e))
                  (distance_of (absolute_time_diff_us (echo_start_time g)
                                  (echo_end_time g))))
        :: snd (spacing e g)).
Proof.
  intros H. unfold report, spacing, bind, ret, fetch, modify, emit.
  cbv beta iota zeta. rewrite H.
  cbv beta iota zeta delta [andb orb state_eqb].
  change (system_running (set_current_state STATE_IDLE g))
    with (system_running g).
  destruct (system_running g); cbv iota; [|reflexivity].
  rewrite preempt_eq_000, handle_all_quiet_000 by (simpl; congruence).
  reflexivity.
Qed.

Lemma report_error_000 e g :
  current_state g = STATE_MEASUREMENT_ERROR ->
  report e g =
    Ok (tt, fst (spacing e g),
        printf (report_falha (fmt_time (rtc_now e))) :: snd (spacing e g)).
Proof.
  intros H. unfold report, spacing, bind, ret, fetch, modify, emit.
  cbv beta iota zeta. rewrite H.
  cbv beta iota zeta delta [andb orb state_eqb].
  change (system_running (set_current_state STATE_IDLE g))
    with (system_running g).
  destruct (system_running g); cbv iota; [|reflexivity].
  rewrite preempt_eq_000, handle_all_quiet_000 by (simpl; congruence).
  reflexivity.
Qed.

Lemma report_none_000 e g :
  current_state g = STATE_IDLE \/ current_state g = STATE_WAITING_FOR_ECHO ->
  report e g = Ok (tt, g, []).
Proof.
  intros H. unfold report, bind, ret, fetch. cbv beta iota zeta.
  now destruct H as [-> | ->].
Qed.

Lemma spacing_state_000 e g :
  current_state (fst (spacing e g)) = STATE_IDLE.
Proof.
  unfold spacing. destruct (system_running g); simpl; auto.
  rewrite handle_all_state_000; simpl; congruence.
Qed.

Lemma spacing_running_000 e g :
  system_running (fst (spacing e g)) = system_running g.
Proof.
  unfold spacing. destruct (system_running g) eqn:R; simpl; auto.
  now destruct (handle_all_frame_000 (irq_spacing e)
                  (set_current_state STATE_IDLE g)) as (-> & _).
Qed.

Lemma spacing_trace_000 e g :
  List.filter is_trigger (snd (spacing e g)) = [] /\
  List.filter is_report (snd (spacing e g)) = [].
Proof. unfold spacing. now destruct (system_running g). Qed.

Lemma report_trace_000 e g g' t :
  report e g = Ok (tt, g', t) -> List.filter is_trigger t = [].
Proof.
  destruct (current_state g) eqn:E.
  - rewrite report_none_000 by auto. now intros [= <- <-].
  - rewrite report_none_000 by auto. now intros [= <- <-].
  - rewrite report_complete_000 by auto. intros [= <- <-].
    simpl. apply spacing_trace_000.
  - rewrite report_error_000 by auto. intros [= <- <-].
    simpl. apply spacing_trace_000.
Qed.

Lemma report_running_000 e g g' t :
  report e g = Ok (tt, g', t) -> system_running g' = system_running g.
Proof.
  destruct (current_state g) eqn:E.
  - rewrite report_none_000 by auto. now intros [= <- <-].
  - rewrite report_none_000 by auto. now intros [= <- <-].
  - rewrite report_complete_000 by auto. intros [= <- <-].
    apply spacing_running_000.
  - rewrite report_error_000 by auto. intros [= <- <-].
    apply spacing_running_000.
Qed.

(** ** The console phase *)

Lemma console_frame_000 c g skip g' t :
  console c g = Ok (skip, g', t) -> same_measurement g g'.
Proof.
  unfold console, same_measurement. intros H. mrun H.
  all: inversion H; subst; clear H; simpl; auto.
Qed.

Lemma console_trace_000 c g skip g' t :
  console c g = Ok (skip, g', t) ->
  List.filter is_trigger t = [] /\ List.filter is_report t = [].
Proof.
  unfold console. intros H. mrun H.
  all: inversion H; subst; clear H; split; reflexivity.
Qed.

(** The console part never leaves the buffer. *)
Lemma console_safe_000 c g :
  buffer_ok g ->
  exists skip g' t, console c g = Ok (skip, g', t) /\ buffer_ok g'.
Proof.
  intros [Hl Hi]. destruct (console c g) as [[[skip g'] t]|err] eqn:H.
  - exists skip, g', t. split; [reflexivity|].
    unfold console in H. mrun H.
    all: inversion H; subst; clear H; unfold buffer_ok; simpl.
    all: repeat match goal with
           | E : store _ _ _ = Ok _ |- _ => apply store_length in E
           | E : (_ <? _) = true |- _ => apply Z.ltb_lt in E
           end.
    all: rewrite ?memset0_length; unfold CMD_BUFFER_SIZE in *;
      split; try congruence; try lia.
  - exfalso. unfold console in H. mrun H.
    all: repeat match goal with
           | E : (_ =? _) = false |- _ => apply Z.eqb_neq in E
           | E : (_ <? _) = true |- _ => apply Z.ltb_lt in E
           end.
    all: try match goal with
           | E : store _ _ _ = Err _ |- _ =>
               rewrite store_ok in E
                 by (rewrite Hl; unfold CMD_BUFFER_SIZE in *; lia);
               discriminate E
           end.
    all: match goal with
         | S : store _ _ 0 = Ok ?b, E : strcmp ?b (literal ?s) = Err _ |- _ =>
             destruct (strcmp_literal_ok b _ s (store_terminator _ _ _ S))
               as [r Hr];
             rewrite Hr in E; discriminate E
         end.
Qed.

(** An empty line: the code runs [continue] and nothing is changed. *)
Lemma console_empty_line_000 c g :
  c = 13 \/ c = 10 ->
  cmd_index g = 0 ->
  console c g = Ok (true, g, [putchar c]).
Proof.
  intros Hc Hi. unfold console, bind, ret, fetch, emit.
  destruct Hc as [-> | ->]; simpl; rewrite Hi; reflexivity.
Qed.

(** A character that arrives when the line is full is dropped. *)
Lemma console_full_000 c g :
  c <> 13 -> c <> 10 ->
  cmd_index g = CMD_BUFFER_SIZE - 1 ->
  console c g = Ok (false, g, [putchar c]).
Proof.
  intros H13 H10 Hi. unfold console, bind, ret, fetch, emit.
  apply Z.eqb_neq in H13, H10. rewrite H13, H10. simpl.
  rewrite Hi. reflexivity.
Qed.

(** The line ["stop"]. *)
Lemma console_stop_000 c g x rest :
  c = 13 \/ c = 10 ->
  cmd_index g = 4 ->
  cmd_buffer g = [115; 116; 111; 112] ++ x :: rest ->
  exists g',
    console c g = Ok (false, g', [putchar c; printf msg_stopped]) /\
    system_running g' = false /\
    cmd_index g' = 0 /\
    cmd_buffer g' = replicate (length (cmd_buffer g)) 0 /\
    same_measurement g g'.
Proof.
  intros Hc Hi Hb. unfold console, bind, ret, fetch, emit, modify, lift.
  assert ((c =? 13) || (c =? 10) = true) as -> by now destruct Hc as [-> | ->].
  cbv beta iota zeta. rewrite Hi, Hb.
  rewrite store_ok by (simpl; lia). simpl.
  eexists. split; [reflexivity|].
  unfold same_measurement, memset0. simpl.
  repeat split; reflexivity.
Qed.

(** ** One iteration of the loop *)

Lemma loop_body_inv_000 e g g' t :
  loop_body e g = Ok (tt, g', t) ->
  exists skip g2 t2,
    match in_char e with
    | Some c => console c
    | None => ret false
    end (fst (handle_all (irq_getchar e) g)) = Ok (skip, g2, t2) /\
    if skip : bool
    then g' = g2 /\ t = snd (handle_all (irq_getchar e) g) ++ t2
    else exists g3 t3 g5 t5,
        start_measurement e g2 = Ok (tt, g3, t3) /\
        report e (fst (handle_all (irq_armed e) g3)) = Ok (tt, g5, t5) /\
        g' = fst (handle_all (irq_poll e) g5) /\
        t = snd (handle_all (irq_getchar e) g) ++ t2 ++ t3 ++
            snd (handle_all (irq_armed e) g3) ++ t5 ++ [sleep_ms 10] ++
            snd (handle_all (irq_poll e) g5).
Proof.
  intros H. unfold loop_body in H.
  apply bind_ok in H as (? & g1 & t1 & tr & H1 & H & ->).
  rewrite preempt_eq_000 in H1. ok_inv H1.
  apply bind_ok in H as (skip & g2 & t2 & tr' & H2 & H & ->).
  exists skip, g2, t2. split; [exact H2|].
  destruct skip.
  - ok_inv H. rewrite app_nil_r. auto.
  - apply bind_ok in H as ([] & g3 & t3 & tr3 & H3 & H & ->).
    apply bind_ok in H as (? & g4 & t4 & tr4 & H4 & H & ->).
    rewrite preempt_eq_000 in H4. ok_inv H4.
    apply bind_ok in H as ([] & g5 & t5 & tr5 & H5 & H & ->).
    apply bind_ok in H as (? & g6 & t6 & tr6 & H6 & H & ->).
    ok_inv H6. rewrite preempt_eq_000 in H. ok_inv H.
    do 4 eexists. split; [eassumption|]. split; [eassumption|].
    split; reflexivity.
Qed.

Lemma console_or_not_000 (oc : option Z) g skip g2 t2 :
  match oc with
  | Some c => console c
  | None => ret false
  end g = Ok (skip, g2, t2) ->
  same_measurement g g2 /\
  List.filter is_trigger t2 = [] /\ List.filter is_report t2 = [].
Proof.
  destruct oc as [c|]; intros H.
  - split; [eapply console_frame_000 | eapply console_trace_000]; eauto.
  - ok_inv H. unfold same_measurement. auto.
Qed.

(** A pulse is sent and an alarm armed only by an iteration that starts in
    [STATE_IDLE] and has the run flag set when it reaches the test. *)
Lemma loop_body_trigger_000 e g g' t :
  loop_body e g = Ok (tt, g', t) ->
  List.filter is_trigger t = [] \/
  (current_state g = STATE_IDLE /\ system_running g' = true).
Proof.
  intros H. apply loop_body_inv_000 in H as (skip & g2 & t2 & H2 & H).
  pose proof (console_or_not_000 _ _ _ _ _ H2) as ((Hs2 & _) & Ht2 & _).
  pose proof (cancel_not_trigger _ (handle_all_trace_000 (irq_getchar e) g))
    as Ht1.
  destruct skip.
  - destruct H as [-> ->]. left. now rewrite List.filter_app, Ht1, Ht2.
  - destruct H as (g3 & t3 & g5 & t5 & H3 & H5 & -> & ->).
    destruct (system_running g2 && state_eqb (current_state g2) STATE_IDLE)
      eqn:C.
    + right. apply andb_true_iff in C as [R S].
      apply state_eqb_spec_000 in S. split.
      * destruct (current_state g) eqn:E; auto; exfalso.
        all: apply (handle_all_not_idle_000 (irq_getchar e) g);
          congruence.
      * rewrite start_measurement_fires_000 in H3 by assumption.
        ok_inv H3.
        destruct (handle_all_frame_000 (irq_poll e) g5) as (-> & _).
        rewrite (report_running_000 _ _ _ _ H5).
        destruct (handle_all_frame_000 (irq_armed e)
          (set_measurement_alarm_id (new_alarm e)
             (set_current_state STATE_WAITING_FOR_ECHO
                (fst (handle_all (irq_pulse e) g2))))) as (-> & _).
        simpl.
        now destruct (handle_all_frame_000 (irq_pulse e) g2) as (-> & _).
    + left. rewrite start_measurement_skips_000 in H3 by assumption.
      ok_inv H3.
      rewrite !List.filter_app, Ht1, Ht2, (report_trace_000 _ _ _ _ H5).
      rewrite !(cancel_not_trigger _ (handle_all_trace_000 _ _)).
      reflexivity.
Qed.

(** The loop never leaves the command buffer. *)
Lemma loop_body_safe_000 e g :
  buffer_ok g ->
  exists g' t, loop_body e g = Ok (tt, g', t) /\ buffer_ok g'.
Proof.
  intros Hb.
  assert (forall irqs g0, buffer_ok g0 ->
            buffer_ok (fst (handle_all irqs g0))) as Hirq.
  { intros irqs g0 [A B].
    destruct (handle_all_frame_000 irqs g0) as (_ & Eb & Ei & _).
    unfold buffer_ok. now rewrite Eb, Ei. }
  unfold loop_body, bind. rewrite preempt_eq_000.
  pose proof (Hirq (irq_getchar e) g Hb) as Hb1.
  set (g1 := fst (handle_all (irq_getchar e) g)) in *.
  assert (exists skip g2 t2,
            match in_char e with
            | Some c => console c
            | None => ret false
            end g1 = Ok (skip, g2, t2) /\ buffer_ok g2)
    as (skip & g2 & t2 & -> & Hb2).
  { destruct (in_char e) as [c|]; [now apply console_safe_000|].
    exists false, g1, []. auto. }
  destruct skip; [unfold ret; eauto|].
  assert (exists g3 t3, start_measurement e g2 = Ok (tt, g3, t3) /\
                        buffer_ok g3) as (g3 & t3 & -> & Hb3).
  { destruct (system_running g2 && state_eqb (current_state g2) STATE_IDLE)
      eqn:C.
    - apply andb_true_iff in C as [R S]. apply state_eqb_spec_000 in S.
      rewrite start_measurement_fires_000 by assumption.
      do 2 eexists. split; [reflexivity|].
      apply (Hirq (irq_pulse e)) in Hb2. exact Hb2.
    - rewrite start_measurement_skips_000 by assumption. eauto. }
  rewrite preempt_eq_000.
  pose proof (Hirq (irq_armed e) g3 Hb3) as Hb4.
  set (g4 := fst (handle_all (irq_armed e) g3)) in *.
  assert (exists g5 t5, report e g4 = Ok (tt, g5, t5) /\ buffer_ok g5)
    as (g5 & t5 & -> & Hb5).
  { assert (buffer_ok (fst (spacing e g4))) as Hsp.
    { unfold spacing. destruct (system_running g4); simpl.
      - apply Hirq. exact Hb4.
      - exact Hb4. }
    destruct (current_state g4) eqn:E.
    - rewrite report_none_000 by auto. eauto.
    - rewrite report_none_000 by auto. eauto.
    - rewrite report_complete_000 by auto. eauto.
    - rewrite report_error_000 by auto. eauto. }
  unfold emit. rewrite preempt_eq_000.
  do 2 eexists. split; [reflexivity|]. now apply Hirq.
Qed.

Lemma main_loop_safe_000 es : forall g,
  buffer_ok g ->
  exists g' t, main_loop es g = Ok (tt, g', t) /\ buffer_ok g'.
Proof.
  induction es as [|e es IH]; intros g Hb.
  - exists g, []. auto.
  - simpl. unfold bind.
    destruct (loop_body_safe_000 e g Hb) as (g1 & t1 & -> & Hb1).
    destruct (IH g1 Hb1) as (g2 & t2 & -> & Hb2). eauto.
Qed.

Lemma boot_buffer_ok_000 : buffer_ok boot.
Proof.
  unfold buffer_ok. simpl. split; [reflexivity | unfold CMD_BUFFER_SIZE; lia].
Qed.

(** An iteration without console input, with the run flag clear. *)
Lemma loop_body_stopped_idle_000 e g :
  in_char e = None ->
  system_running g = false ->
  current_state g = STATE_IDLE ->
  exists g',
    loop_body e g = Ok (tt, g', [sleep_ms 10]) /\
    current_state g' = STATE_IDLE /\ system_running g' = false.
Proof.
  intros Hin Hr Hs.
  assert (current_state g <> STATE_WAITING_FOR_ECHO) as Hw by congruence.
  unfold loop_body, bind. rewrite Hin, preempt_eq_000.
  unfold ret at 1. cbv beta iota.
  destruct (handle_all_frame_000 (irq_getchar e) g) as (R1 & _).
  pose proof (handle_all_state_000 (irq_getchar e) g Hw) as S1.
  rewrite start_measurement_skips_000 by (rewrite R1, Hr; reflexivity).
  rewrite preempt_eq_000.
  set (g1 := fst (handle_all (irq_getchar e) g)) in *.
  destruct (handle_all_frame_000 (irq_armed e) g1) as (R2 & _).
  pose proof (handle_all_state_000 (irq_armed e) g1) as S2.
  rewrite S1 in S2. specialize (S2 Hw).
  set (g2 := fst (handle_all (irq_armed e) g1)) in *.
  rewrite report_none_000 by (left; congruence).
  unfold emit. rewrite preempt_eq_000.
  destruct (handle_all_frame_000 (irq_poll e) g2) as (R3 & _).
  pose proof (handle_all_state_000 (irq_poll e) g2) as S3.
  rewrite S2 in S3. specialize (S3 Hw).
  rewrite !handle_all_quiet_000 by congruence.
  eexists. split; [reflexivity|]. split; congruence.
Qed.

Lemma loop_body_stopped_terminal_000 e g :
  in_char e = None ->
  system_running g = false ->
  current_state g = STATE_MEASUREMENT_COMPLETE \/
  current_state g = STATE_MEASUREMENT_ERROR ->
  exists g' l,
    loop_body e g = Ok (tt, g', [printf l; sleep_ms 10]) /\
    current_state g' = STATE_IDLE /\ system_running g' = false /\
    match current_state g with
    | STATE_MEASUREMENT_COMPLETE => exists d,
        l = report_distance (fmt_time (rtc_now e)) d
    | _ => l = report_falha (fmt_time (rtc_now e))
    end.
Proof.
  intros Hin Hr Hs.
  assert (current_state g <> STATE_WAITING_FOR_ECHO) as Hw
    by (destruct Hs; congruence).
  unfold loop_body, bind. rewrite Hin, preempt_eq_000.
  unfold ret at 1. cbv beta iota.
  destruct (handle_all_frame_000 (irq_getchar e) g) as (R1 & _).
  pose proof (handle_all_state_000 (irq_getchar e) g Hw) as S1.
  rewrite start_measurement_skips_000 by (rewrite R1, Hr; reflexivity).
  rewrite preempt_eq_000.
  set (g1 := fst (handle_all (irq_getchar e) g)) in *.
  destruct (handle_all_frame_000 (irq_armed e) g1) as (R2 & _).
  pose proof (handle_all_state_000 (irq_armed e) g1) as S2.
  rewrite S1 in S2. specialize (S2 Hw).
  set (g2 := fst (handle_all (irq_armed e) g1)) in *.
  assert (system_running g2 = false) as Hr2 by congruence.
  assert (spacing e g2 = (set_current_state STATE_IDLE g2, [])) as Hsp
    by (unfold spacing; now rewrite Hr2).
  rewrite !handle_all_quiet_000 by congruence.
  destruct Hs as [Hs | Hs]; rewrite Hs in *.
  - rewrite report_complete_000, Hsp by congruence.
    unfold emit. rewrite preempt_eq_000. simpl.
    rewrite handle_all_quiet_000 by (simpl; congruence).
    do 2 eexists. split; [reflexivity|].
    rewrite handle_all_state_000 by (simpl; congruence).
    destruct (handle_all_frame_000 (irq_poll e)
                (set_current_state STATE_IDLE g2)) as (-> & _).
    simpl. eauto.
  - rewrite report_error_000, Hsp by congruence.
    unfold emit. rewrite preempt_eq_000. simpl.
    rewrite handle_all_quiet_000 by (simpl; congruence).
    do 2 eexists. split; [reflexivity|].
    rewrite handle_all_state_000 by (simpl; congruence).
    destruct (handle_all_frame_000 (irq_poll e)
                (set_current_state STATE_IDLE g2)) as (-> & _).
    simpl. eauto.
Qed.



(** The transition from [STATE_IDLE] to [STATE_WAITING_FOR_ECHO]. *)
Lemma start_measurement_transition_000 e g g' t :
  start_measurement e g = Ok (tt, g', t) ->
  current_state g = STATE_IDLE ->
  current_state g' = STATE_WAITING_FOR_ECHO ->
  system_running g = true /\
  t = [gpio_put TRIGGER_PIN true; sleep_us 10; gpio_put TRIGGER_PIN false;
       add_alarm_in_us MEASUREMENT_TIMEOUT_US] /\
  measurement_alarm_id g' = new_alarm e.
Proof.
  intros H Hi Hw. destruct (system_running g) eqn:R.
  - rewrite start_measurement_fires_000 in H by assumption. ok_inv H.
    auto.
  - rewrite start_measurement_skips_000 in H by (now rewrite R).
    ok_inv H. congruence.
Qed.

(** The timestamps across the start of a cycle. *)
Lemma start_measurement_keeps_000 e g :
  irq_pulse e = [] ->
  system_running g = true ->
  current_state g = STATE_IDLE ->
  exists g' t,
    start_measurement e g = Ok (tt, g', t) /\
    current_state g' = STATE_WAITING_FOR_ECHO /\
    echo_start_time g' = echo_start_time g /\
    echo_end_time g' = echo_end_time g.
Proof.
  intros Hp Hr Hs. rewrite start_measurement_fires_000 by assumption.
  rewrite Hp. simpl. eauto 6.
Qed.

(** A measurement awaited while the run flag is clear: after the
    interrupt that ends it, two iterations without console input. *)
Lemma stopped_in_flight_000 g i e1 e2 :
  current_state g = STATE_WAITING_FOR_ECHO ->
  system_running g = false ->
  is_fall i \/ (exists id, i = alarm_irq id) ->
  in_char e1 = None -> in_char e2 = None ->
  exists g' l,
    main_loop [e1; e2] (fst (handle i g))
    = Ok (tt, g', [printf l; sleep_ms 10; sleep_ms 10]) /\
    is_report (printf l) = true /\
    current_state g' = STATE_IDLE /\
    system_running g' = false.
Proof.
  intros Hw Hr Hi H1 H2.
  destruct (handle_frame_000 i g) as (R & _).
  assert (current_state (fst (handle i g)) = STATE_MEASUREMENT_COMPLETE \/
          current_state (fst (handle i g)) = STATE_MEASUREMENT_ERROR) as T.
  { destruct Hi as [Hf | [id ->]].
    - destruct i as [gpio events t1 t2|]; [|destruct Hf].
      destruct Hf as [-> Hf]. left.
      now destruct (echo_fall_waiting_000 events t1 t2 g Hf Hw).
    - right. unfold handle. now rewrite timeout_waiting_000. }
  destruct (loop_body_stopped_terminal_000 e1 (fst (handle i g)) H1)
    as (g1 & l & L1 & S1 & R1 & K); [congruence | exact T |].
  destruct (loop_body_stopped_idle_000 e2 g1 H2 R1 S1)
    as (g2 & L2 & S2 & R2).
  exists g2, l. simpl. unfold bind. rewrite L1, L2. unfold ret.
  split; [reflexivity|]. split; [|auto].
  destruct T as [T | T]; rewrite T in K.
  - destruct K as [d ->]. reflexivity.
  - subst l. reflexivity.
Qed.

(** The result phase in a terminal state: the line and the reset do not
    depend on the run flag, the pause does. *)
Lemma report_any_flag_000 e g :
  current_state g = STATE_MEASUREMENT_COMPLETE \/
  current_state g = STATE_MEASUREMENT_ERROR ->
  exists g' l,
    report e g =
      Ok (tt, g',
          printf l :: (if system_running g then [sleep_ms 1000] else [])) /\
    is_report (printf l) = true /\
    current_state g' = STATE_IDLE.
Proof.
  assert (snd (spacing e g)
          = if system_running g then [sleep_ms 1000] else []) as Sp
    by (unfold spacing; now destruct (system_running g)).
  intros [H | H].
  - rewrite report_complete_000, Sp by assumption.
    do 2 eexists. split; [reflexivity|].
    split; [reflexivity | apply spacing_state_000].
  - rewrite report_error_000, Sp by assumption.
    do 2 eexists. split; [reflexivity|].
    split; [reflexivity | apply spacing_state_000].
Qed.

(** ** The timestamps *)

Lemma handle_stamps_000 i g :
  echo_start_time (fst (handle i g)) = last_rise [i] (echo_start_time g) /\
  echo_end_time (fst (handle i g)) = last_fall [i] (echo_end_time g).
Proof.
  destruct i as [gpio events t1 t2 | id].
  - cbn [handle last_rise last_fall]. unfold echo_callback.
    destruct (gpio =? ECHO_PIN); cbn [andb]; [|auto].
    destruct (negb (Z.land events GPIO_IRQ_EDGE_RISE =? 0)),
             (negb (Z.land events GPIO_IRQ_EDGE_FALL =? 0));
      cbv beta iota zeta;
      try destruct (state_eqb _ STATE_WAITING_FOR_ECHO); simpl; auto.
  - cbn [handle last_rise last_fall]. unfold timeout_callback. simpl.
    destruct (state_eqb _ STATE_WAITING_FOR_ECHO); simpl; auto.
Qed.

Lemma last_rise_cons_000 i rest old :
  last_rise (i :: rest) old = last_rise rest (last_rise [i] old).
Proof. destruct i; reflexivity. Qed.

Lemma last_fall_cons_000 i rest old :
  last_fall (i :: rest) old = last_fall rest (last_fall [i] old).
Proof. destruct i; reflexivity. Qed.

Lemma last_rise_app_000 a b : forall old,
  last_rise (a ++ b) old = last_rise b (last_rise a old).
Proof.
  induction a as [|i a IH]; intros old; [reflexivity|].
  rewrite <- app_comm_cons, last_rise_cons_000, IH.
  now rewrite (last_rise_cons_000 i a).
Qed.

Lemma last_fall_app_000 a b : forall old,
  last_fall (a ++ b) old = last_fall b (last_fall a old).
Proof.
  induction a as [|i a IH]; intros old; [reflexivity|].
  rewrite <- app_comm_cons, last_fall_cons_000, IH.
  now rewrite (last_fall_cons_000 i a).
Qed.

(** The handler is the only writer of the timestamps, and it writes them
    in every state. *)
Lemma handle_all_stamps_000 irqs : forall g,
  echo_start_time (fst (handle_all irqs g))
  = last_rise irqs (echo_start_time g) /\
  echo_end_time (fst (handle_all irqs g))
  = last_fall irqs (echo_end_time g).
Proof.
  induction irqs as [|i rest IH]; intros g; [auto|].
  rewrite handle_all_cons_000. cbn [fst].
  destruct (IH (fst (handle i g))) as [A B].
  destruct (handle_stamps_000 i g) as [C D].
  rewrite A, B, C, D, <- last_rise_cons_000, <- last_fall_cons_000. auto.
Qed.

(** The trigger phase writes no timestamp of its own. *)
Lemma start_measurement_stamps_000 e g g' t :
  start_measurement e g = Ok (tt, g', t) ->
  (t = [] /\ g' = g) \/
  (system_running g = true /\ current_state g = STATE_IDLE /\
   current_state g' = STATE_WAITING_FOR_ECHO /\
   echo_start_time g' = last_rise (irq_pulse e) (echo_start_time g) /\
   echo_end_time g' = last_fall (irq_pulse e) (echo_end_time g)).
Proof.
  intros H.
  destruct (system_running g && state_eqb (current_state g) STATE_IDLE)
    eqn:C.
  - right. apply andb_true_iff in C as [Hr Hs].
    apply state_eqb_spec_000 in Hs.
    rewrite start_measurement_fires_000 in H by assumption. ok_inv H.
    destruct (handle_all_stamps_000 (irq_pulse e) g) as [A B].
    repeat split; auto.
  - left. rewrite start_measurement_skips_000 in H by assumption.
    ok_inv H. auto.
Qed.

Lemma start_measurement_no_line_000 e g g' t l :
  start_measurement e g = Ok (tt, g', t) -> ~ In (printf l) t.
Proof.
  intros H Hin.
  destruct (system_running g && state_eqb (current_state g) STATE_IDLE)
    eqn:C.
  - apply andb_true_iff in C as [Hr Hs]. apply state_eqb_spec_000 in Hs.
    rewrite start_measurement_fires_000 in H by assumption. ok_inv H.
    simpl in Hin. intuition discriminate.
  - rewrite start_measurement_skips_000 in H by assumption.
    ok_inv H. destruct Hin.
Qed.

Lemma report_line_000 e g g' t ts d :
  report e g = Ok (tt, g', t) ->
  In (printf (report_distance ts d)) t ->
  d = distance_of
        (absolute_time_diff_us (echo_start_time g) (echo_end_time g)).
Proof.
  intros H Hin.
  assert (~ In (printf (report_distance ts d)) (snd (spacing e g))) as Sp.
  { unfold spacing. destruct (system_running g); simpl; intuition congruence. }
  destruct (current_state g) eqn:E.
  - rewrite report_none_000 in H by auto. ok_inv H. destruct Hin.
  - rewrite report_none_000 in H by auto. ok_inv H. destruct Hin.
  - rewrite report_complete_000 in H by auto. ok_inv H.
    destruct Hin as [Hin|Hin]; [congruence | contradiction].
  - rewrite report_error_000 in H by auto. ok_inv H.
    destruct Hin as [Hin|Hin]; [discriminate | contradiction].
Qed.

Lemma not_in_cancels_000 t l :
  forallb is_cancel t = true -> ~ In (printf l) t.
Proof.
  intros H Hin. rewrite forallb_forall in H. apply H in Hin. discriminate.
Qed.

(** What the report of an iteration reads: the timestamps the iteration
    started with, as the interrupts taken before the report left them. *)
Lemma loop_body_reads_000 e g g' t ts d :
  loop_body e g = Ok (tt, g', t) ->
  In (printf (report_distance ts d)) t ->
  exists irqs,
    (irqs = irq_getchar e ++ irq_pulse e ++ irq_armed e \/
     irqs = irq_getchar e ++ irq_armed e) /\
    d = distance_of
          (absolute_time_diff_us (last_rise irqs (echo_start_time g))
             (last_fall irqs (echo_end_time g))).
Proof.
  intros H Hin.
  apply loop_body_inv_000 in H as (skip & g2 & t2 & H2 & H).
  pose proof (console_or_not_000 _ _ _ _ _ H2) as ((_ & S2 & E2 & _) & _ & R2).
  assert (~ In (printf (report_distance ts d)) t2) as N2.
  { intros I. assert (In (printf (report_distance ts d))
                        (List.filter is_report t2)) as I'
      by (apply List.filter_In; auto).
    rewrite R2 in I'. destruct I'. }
  destruct (handle_all_stamps_000 (irq_getchar e) g) as [A1 B1].
  rewrite A1 in S2. rewrite B1 in E2.
  destruct skip.
  - destruct H as [-> ->]. exfalso.
    apply in_app_or in Hin as [Hin|Hin]; [|auto].
    eapply not_in_cancels_000; [apply handle_all_trace_000 | exact Hin].
  - destruct H as (g3 & t3 & g5 & t5 & H3 & H5 & -> & ->).
    assert (In (printf (report_distance ts d)) t5) as I5.
    { repeat (apply in_app_or in Hin as [Hin|Hin]); auto; exfalso.
      - eapply not_in_cancels_000; [apply handle_all_trace_000 | exact Hin].
      - contradiction.
      - eapply start_measurement_no_line_000; eauto.
      - eapply not_in_cancels_000; [apply handle_all_trace_000 | exact Hin].
      - simpl in Hin. intuition discriminate.
      - eapply not_in_cancels_000; [apply handle_all_trace_000 | exact Hin]. }
    rewrite (report_line_000 _ _ _ _ _ _ H5 I5).
    destruct (handle_all_stamps_000 (irq_armed e) g3) as [A4 B4].
    rewrite A4, B4.
    apply start_measurement_stamps_000 in H3
      as [[_ ->] | (_ & _ & _ & A3 & B3)].
    + exists (irq_getchar e ++ irq_armed e). split; [auto|].
      now rewrite last_rise_app_000, last_fall_app_000, S2, E2.
    + exists (irq_getchar e ++ irq_pulse e ++ irq_armed e). split; [auto|].
      now rewrite !last_rise_app_000, !last_fall_app_000, A3, B3, S2, E2.
Qed.

End facts_000.

(** * main.c: callbacks and loop phases *)

Module facts_main.
Import main_c obs_main.

(** ** The two callbacks *)

(** A falling edge with [flag_f_trigger] clear: nothing happens. *)
Lemma trigger_fall_idle_main t_rise t_fall s :
  flag_f_trigger s = 0 ->
  trigger_callback ECHO_PIN 4 t_rise t_fall s = (s, []).
Proof. intros H. unfold trigger_callback. simpl. now rewrite H. Qed.

(** A falling edge with [flag_f_trigger] set. *)
Lemma trigger_fall_pending_main t_rise t_fall s :
  flag_f_trigger s <> 0 ->
  trigger_callback ECHO_PIN 4 t_rise t_fall s =
    ({| alarm_id := alarm_id s; flag_f_trigger := 0;
        timer_fired := false; action_completed := true;
        t_descida := t_fall; t_subida := t_subida s |},
     if negb (timer_fired s) && negb (alarm_id s =? 0)
     then [cancel_alarm (alarm_id s)] else []).
Proof.
  intros H. apply Z.eqb_neq in H. unfold trigger_callback. simpl.
  now rewrite H.
Qed.

Lemma alarm_callback_main id s :
  alarm_callback id s =
    ({| alarm_id := alarm_id s; flag_f_trigger := flag_f_trigger s;
        timer_fired := true; action_completed := action_completed s;
        t_descida := t_descida s; t_subida := t_subida s |}, 0).
Proof. reflexivity. Qed.

(** ** Interrupts as a whole *)

Lemma handle_locals_main i m : same_locals m (fst (handle i m)).
Proof.
  destruct i as [gpio events t1 t2 | id]; simpl.
  - destruct (trigger_callback gpio events t1 t2 (sensor_state m)).
    unfold same_locals. simpl. auto.
  - unfold same_locals. simpl. auto.
Qed.

Lemma handle_trace_main i m : forallb is_cancel (snd (handle i m)) = true.
Proof.
  destruct i as [gpio events t1 t2 | id]; simpl; auto.
  unfold trigger_callback.
  repeat match goal with
         | |- context [if ?b then _ else _] => destruct b
         end; reflexivity.
Qed.

Lemma handle_all_cons_main i rest m :
  handle_all (i :: rest) m =
  (fst (handle_all rest (fst (handle i m))),
   snd (handle i m) ++ snd (handle_all rest (fst (handle i m)))).
Proof.
  simpl. destruct (handle i m) as [m1 t1]. simpl.
  now destruct (handle_all rest m1).
Qed.

Lemma handle_all_locals_main irqs : forall m,
  same_locals m (fst (handle_all irqs m)).
Proof.
  induction irqs as [|i rest IH]; intros m.
  - simpl. unfold same_locals. auto.
  - rewrite handle_all_cons_main. simpl.
    destruct (handle_locals_main i m) as (A & B & C).
    destruct (IH (fst (handle i m))) as (A' & B' & C').
    unfold same_locals. repeat split; congruence.
Qed.

Lemma handle_all_trace_main irqs : forall m,
  forallb is_cancel (snd (handle_all irqs m)) = true.
Proof.
  induction irqs as [|i rest IH]; intros m; [reflexivity|].
  rewrite handle_all_cons_main. simpl.
  rewrite forallb_app, handle_trace_main, IH. reflexivity.
Qed.

Lemma preempt_eq_main irqs m :
  preempt irqs m = Ok (tt, fst (handle_all irqs m), snd (handle_all irqs m)).
Proof. unfold preempt. now destruct (handle_all irqs m). Qed.

(** ** The console phase *)

Lemma console_safe_main ch m :
  buffer_ok m ->
  exists m' t, console ch m = Ok (tt, m', t) /\ buffer_ok m'.
Proof.
  intros [Hl Hi]. destruct (console ch m) as [[[[] m'] t]|err] eqn:H.
  - exists m', t. split; [reflexivity|].
    unfold console in H. mrun H.
    all: inversion H; subst; clear H; unfold buffer_ok; simpl.
    all: repeat match goal with
           | E : store _ _ _ = Ok _ |- _ => apply store_length in E
           | E : (_ <? _) = true |- _ => apply Z.ltb_lt in E
           end.
    all: rewrite ?memset0_length; unfold sizeof_command in *;
      split; try congruence; try lia.
  - exfalso. unfold console in H. mrun H.
    all: repeat match goal with
           | E : (_ <? _) = true |- _ => apply Z.ltb_lt in E
           end.
    all: try match goal with
           | E : store _ _ _ = Err _ |- _ =>
               rewrite store_ok in E
                 by (rewrite Hl; unfold sizeof_command in *; lia);
               discriminate E
           end.
    all: match goal with
         | S : store _ _ 0 = Ok ?b, E : strcmp ?b (literal ?s) = Err _ |- _ =>
             destruct (strcmp_literal_ok b _ s (store_terminator _ _ _ S))
               as [r Hr];
             rewrite Hr in E; discriminate E
         end.
Qed.

Lemma console_empty_line_main ch m :
  ch = 10 \/ ch = 13 ->
  cmd_index m = 0 ->
  console ch m = Ok (tt, m, []).
Proof.
  intros Hc Hi. unfold console, bind, ret, fetch.
  destruct Hc as [-> | ->]; simpl; rewrite Hi; reflexivity.
Qed.

Lemma console_full_main ch m :
  ch <> 10 -> ch <> 13 ->
  cmd_index m = sizeof_command - 1 ->
  console ch m = Ok (tt, m, []).
Proof.
  intros H10 H13 Hi. unfold console, bind, ret, fetch.
  apply Z.eqb_neq in H13, H10. rewrite H13, H10. simpl.
  rewrite Hi. reflexivity.
Qed.

(** ** The measurement block *)

Lemma measure_idle_main e m :
  reading_active m = false -> measure e m = Ok (tt, m, []).
Proof.
  intros H. unfold measure, bind, fetch, ret. cbv beta iota zeta.
  now rewrite H.
Qed.

Lemma wait_loop_locals_main ms ts : forall m m' t,
  wait_loop ms ts m = Ok (tt, m', t) ->
  same_locals m m' /\ armed_budgets_us t = [] /\
  List.filter is_result t = [].
Proof.
  induction ts as [|[irqs now] rest IH]; intros m m' t H; simpl in H.
  - mrun H. ok_inv H. unfold same_locals. auto.
  - unfold bind, fetch, ret, emit in H. cbv beta iota zeta in H.
    destruct (negb (action_completed (sensor_state m))
              && negb (timer_fired (sensor_state m))).
    2:{ ok_inv H. unfold same_locals. auto. }
    rewrite preempt_eq_main in H.
    pose proof (handle_all_locals_main irqs m) as L.
    pose proof (handle_all_trace_main irqs m) as T.
    set (m1 := fst (handle_all irqs m)) in *.
    set (t1 := snd (handle_all irqs m)) in *.
    assert (armed_budgets_us t1 = [] /\ List.filter is_result t1 = [])
      as [B1 F1].
    { clearbody t1. clear -T. induction t1 as [|x t1 IH]; [auto|].
      simpl in T. apply andb_true_iff in T as [X T].
      destruct x; try discriminate X. simpl. auto. }
    destruct (absolute_time_diff_us ms now >? 1000000).
    + ok_inv H. simpl. rewrite !app_nil_r. auto.
    + destruct (wait_loop ms rest m1) as [[[[] m2] t2]|] eqn:W;
        [|discriminate H].
      ok_inv H. apply IH in W as (L2 & B2 & F2).
      destruct L as (A & B & C), L2 as (A' & B' & C').
      split; [unfold same_locals; repeat split; congruence|].
      simpl.
      assert (forall a b, armed_budgets_us (a ++ b)
                          = armed_budgets_us a ++ armed_budgets_us b) as App.
      { induction a as [|x a IHa]; intros b; [reflexivity|].
        destruct x; simpl; rewrite ?IHa; reflexivity. }
      rewrite !App, !List.filter_app, B1, B2, F1, F2. auto.
Qed.

Lemma wait_loop_err_main ms ts : forall m err,
  wait_loop ms ts m = Err err -> err = no_more_ticks.
Proof.
  induction ts as [|[irqs now] rest IH]; intros m err W; simpl in W.
  - mrun W. now ok_inv W.
  - unfold bind, fetch, ret, emit in W. cbv beta iota zeta in W.
    destruct (negb _ && negb _); [|discriminate W].
    rewrite preempt_eq_main in W.
    destruct (absolute_time_diff_us _ now >? 1000000);
      [discriminate W|].
    destruct (wait_loop _ rest _) as [[[[] m4] t4]|e4] eqn:W';
      [discriminate W|].
    ok_inv W. eapply IH; eauto.
Qed.

(** ** The printed result *)

Lemma print_result_main m :
  print_result m =
    Ok (tt, m,
        [printf
           (if action_completed (sensor_state m) then
              distance_cm
                (distance_of
                   (absolute_time_diff_us (t_subida (sensor_state m))
                      (t_descida (sensor_state m))))
            else if timer_fired (sensor_state m) then falha
            else leitura_nao_concluida)]).
Proof.
  unfold print_result, bind, fetch, emit. cbv beta iota zeta.
  destruct (action_completed (sensor_state m)); [reflexivity|].
  destruct (timer_fired (sensor_state m)); reflexivity.
Qed.

Lemma armed_budgets_app a b :
  armed_budgets_us (a ++ b) = armed_budgets_us a ++ armed_budgets_us b.
Proof.
  induction a as [|x a IHa]; [reflexivity|].
  destruct x; simpl; rewrite ?IHa; reflexivity.
Qed.

Lemma cancel_only_main t :
  forallb is_cancel t = true ->
  armed_budgets_us t = [] /\ List.filter is_result t = [] /\
  List.filter is_trigger t = [].
Proof.
  induction t as [|x t IH]; [auto|].
  simpl. intros T. apply andb_true_iff in T as [X T].
  destruct x; try discriminate X. simpl. auto.
Qed.

(** The measurement block when it runs. *)
Lemma measure_inv_main e m m' t :
  reading_active m = true ->
  1000 * 1000 <= absolute_time_diff_us (last_measurement m) (t_check e) ->
  measure e m = Ok (tt, m', t) ->
  let m1 := fst (handle_all (irq_pulse e) (armed m)) in
  let m2 := set_sensor_state
              (set_alarm_id (new_alarm e) (sensor_state m1)) m1 in
  exists m3 tw,
    wait_loop (t_measure_start e) (ticks e) m2 = Ok (tt, m3, tw) /\
    m' = set_last_measurement (t_done e) m3 /\
    t = [gpio_put TRIG_PIN true; sleep_us 10] ++
        snd (handle_all (irq_pulse e) (armed m)) ++
        [gpio_put TRIG_PIN false; add_alarm_in_ms 500] ++ tw ++
        [cancel_alarm (alarm_id (sensor_state m3));
         printf (datetime_prefix (fmt_time (rtc_now e) ++ " - ")%string);
         printf (result_line m3)].
Proof.
  intros Hr Hd H m1 m2. apply Z.leb_le in Hd.
  unfold measure, print_datetime, bind, fetch, ret, emit, modify in H.
  cbv beta iota zeta in H. rewrite Hr, Hd in H.
  cbv beta iota zeta delta [andb] in H.
  rewrite preempt_eq_main in H. fold (armed m) in H.
  fold m1 in H. fold m2 in H.
  destruct (wait_loop (t_measure_start e) (ticks e) m2)
    as [[[[] m3] tw]|] eqn:W; [|discriminate H].
  cbv beta iota zeta in H.  rewrite print_result_main in H.
  cbv beta iota zeta in H. fold (result_line m3) in H.
  ok_inv H. exists m3, tw. split; [reflexivity|]. split; [reflexivity|].
  simpl. rewrite <- ?app_assoc. reflexivity.
Qed.

(** Every measurement arms one alarm, of 500 ms, and prints one result. *)
Lemma measure_trace_main e m m' t :
  reading_active m = true ->
  1000 * 1000 <= absolute_time_diff_us (last_measurement m) (t_check e) ->
  measure e m = Ok (tt, m', t) ->
  armed_budgets_us t = [1000 * 500] /\
  exists l, List.filter is_result t = [printf l] /\ same_locals m m'.
Proof.
  intros Hr Hd H.
  destruct (measure_inv_main _ _ _ _ Hr Hd H) as (m3 & tw & W & -> & ->).
  apply wait_loop_locals_main in W as (L & B & F).
  destruct (cancel_only_main _ (handle_all_trace_main (irq_pulse e) (armed m)))
    as (B1 & F1 & _).
  split.
  - rewrite !armed_budgets_app, B, B1. reflexivity.
  - exists (result_line m3). split.
    + rewrite !List.filter_app, F, F1. simpl.
      unfold result_line.
      destruct (action_completed (sensor_state m3)); [reflexivity|].
      destruct (timer_fired (sensor_state m3)); reflexivity.
    + destruct L as (A & B' & C).
      destruct (handle_all_locals_main (irq_pulse e) (armed m))
        as (A1 & B1' & C1).
      unfold same_locals. simpl in *. repeat split; congruence.
Qed.

Lemma measure_locals_main e m m' t :
  measure e m = Ok (tt, m', t) -> same_locals m m'.
Proof.
  intros H.
  destruct (reading_active m
            && (1000 * 1000 <=?
                absolute_time_diff_us (last_measurement m) (t_check e)))
    eqn:C.
  - apply andb_true_iff in C as [Hr Hd]. apply Z.leb_le in Hd.
    now destruct (measure_trace_main _ _ _ _ Hr Hd H) as (_ & l & _ & L).
  - unfold measure, bind, fetch, ret in H. cbv beta iota zeta in H.
    rewrite C in H. ok_inv H. unfold same_locals. auto.
Qed.

(** The loop never leaves [command]; the only way it stops is the end of
    the supplied schedule. *)
Lemma loop_body_safe_main e m :
  buffer_ok m ->
  match loop_body e m with
  | Ok (_, m', _) => buffer_ok m'
  | Err err => err = no_more_ticks
  end.
Proof.
  intros Hb.
  assert (forall m0 m1, buffer_ok m0 -> same_locals m0 m1 -> buffer_ok m1)
    as Keep.
  { intros m0 m1 [A B] (_ & Eb & Ei). unfold buffer_ok.
    now rewrite Eb, Ei. }
  unfold loop_body, bind. rewrite preempt_eq_main.
  pose proof (Keep _ _ Hb (handle_all_locals_main (irq_getchar e) m)) as Hb1.
  set (m1 := fst (handle_all (irq_getchar e) m)) in *.
  assert (exists m2 t2,
            match in_char e with
            | Some ch => console ch
            | None => ret tt
            end m1 = Ok (tt, m2, t2) /\ buffer_ok m2)
    as (m2 & t2 & -> & Hb2).
  { destruct (in_char e) as [ch|]; [now apply console_safe_main|].
    exists m1, []. auto. }
  destruct (measure e m2) as [[[[] m3] t3]|err] eqn:Hm.
  - unfold emit. rewrite preempt_eq_main.
    eapply Keep; [|apply handle_all_locals_main].
    eapply Keep; [exact Hb2|]. eapply measure_locals_main; eauto.
  - unfold measure, print_datetime, bind, fetch, ret, emit, modify in Hm.
    cbv beta iota zeta in Hm.
    destruct (reading_active m2 && _); [|discriminate Hm].
    rewrite preempt_eq_main in Hm.
    match type of Hm with
    | context [wait_loop ?a ?b ?c] =>
        destruct (wait_loop a b c) as [[[[] m3] tw]|err'] eqn:W
    end.
    + rewrite print_result_main in Hm. discriminate Hm.
    + ok_inv Hm. eapply wait_loop_err_main; eauto.
Qed.

Lemma main_loop_safe_main es : forall m,
  buffer_ok m ->
  match main_loop es m with
  | Ok (_, m', _) => buffer_ok m'
  | Err err => err = no_more_ticks
  end.
Proof.
  induction es as [|e es IH]; intros m Hb; [exact Hb|].
  simpl. unfold bind.
  pose proof (loop_body_safe_main e m Hb) as H.
  destruct (loop_body e m) as [[[[] m1] t1]|err]; [|exact H].
  specialize (IH m1 H).
  destruct (main_loop es m1) as [[[[] m2] t2]|err]; assumption.
Qed.

Lemma boot_buffer_ok_main t_boot : buffer_ok (boot t_boot).
Proof.
  unfold buffer_ok. simpl. split; [reflexivity | unfold sizeof_command; lia].
Qed.

(** ** The timestamps *)

Lemma last_rise_cons_main i rest old :
  last_rise (i :: rest) old = last_rise rest (last_rise [i] old).
Proof. destruct i; reflexivity. Qed.

Lemma last_rise_app_main a b : forall old,
  last_rise (a ++ b) old = last_rise b (last_rise a old).
Proof.
  induction a as [|i a IH]; intros old; [reflexivity|].
  rewrite <- app_comm_cons, last_rise_cons_main, IH.
  now rewrite (last_rise_cons_main i a).
Qed.

Lemma handle_stamp_main i m :
  t_subida (sensor_state (fst (handle i m)))
  = last_rise [i] (t_subida (sensor_state m)).
Proof.
  destruct i as [gpio events t1 t2 | id]; [|reflexivity].
  cbn [handle last_rise]. unfold trigger_callback.
  destruct ((gpio =? ECHO_PIN) && (events =? 8));
    destruct ((gpio =? ECHO_PIN) && (events =? 4) && _); reflexivity.
Qed.

(** Only a rising edge event writes [t_subida]. *)
Lemma handle_all_stamp_main irqs : forall m,
  t_subida (sensor_state (fst (handle_all irqs m)))
  = last_rise irqs (t_subida (sensor_state m)).
Proof.
  induction irqs as [|i rest IH]; intros m; [reflexivity|].
  rewrite handle_all_cons_main. cbn [fst].
  now rewrite IH, handle_stamp_main, <- last_rise_cons_main.
Qed.



End facts_main.

(** * The claims *)

(** C1 — From [STATE_WAITING_FOR_ECHO], one falling edge on the echo pin and
    one timeout, taken one after the other in either order, make the state
    leave [STATE_WAITING_FOR_ECHO] exactly once: the first of the two
    decides (complete if the edge comes first, error if the timeout comes
    first) and the second leaves the state as it is.  part_001 and
    part_000. *)
Theorem C1_single_exit :
  (forall (g : part_001.system_state_t) events t_rise t_fall id,
      part_001.current_state g = part_001.STATE_WAITING_FOR_ECHO ->
      Z.land events part_001.GPIO_IRQ_EDGE_FALL <> 0 ->
      let fall := gpio_irq part_001.ECHO_PIN events t_rise t_fall in
      part_001.current_state
        (fst (part_001.handle_all [fall; alarm_irq id] g))
        = part_001.STATE_MEASUREMENT_COMPLETE /\
      obs_001.exits [fall; alarm_irq id] g = 1%nat /\
      part_001.current_state
        (fst (part_001.handle_all [alarm_irq id; fall] g))
        = part_001.STATE_MEASUREMENT_ERROR /\
      obs_001.exits [alarm_irq id; fall] g = 1%nat) /\
  (forall irqs g, (obs_001.exits irqs g <= 1)%nat) /\
  (forall irqs g, (obs_000.exits irqs g <= 1)%nat) /\
  (forall (g : part_000.globals) events t_rise t_fall id,
      part_000.current_state g = part_000.STATE_WAITING_FOR_ECHO ->
      Z.land events part_000.GPIO_IRQ_EDGE_FALL <> 0 ->
      let fall := gpio_irq part_000.ECHO_PIN events t_rise t_fall in
      part_000.current_state
        (fst (part_000.handle_all [fall; alarm_irq id] g))
        = part_000.STATE_MEASUREMENT_COMPLETE /\
      obs_000.exits [fall; alarm_irq id] g = 1%nat /\
      part_000.current_state
        (fst (part_000.handle_all [alarm_irq id; fall] g))
        = part_000.STATE_MEASUREMENT_ERROR /\
      obs_000.exits [alarm_irq id; fall] g = 1%nat).
Proof.
  split; [|split; [exact facts_001.exits_at_most_once_001|
                   split; [exact facts_000.exits_at_most_once_000|]]].
  - intros g events t_rise t_fall id Hw Hf fall.
    destruct (facts_001.echo_fall_waiting_001 events t_rise t_fall g Hf Hw)
      as (C & _ & _).
    assert (part_001.current_state (fst (part_001.handle fall g))
            = part_001.STATE_MEASUREMENT_COMPLETE) as C' by exact C.
    assert (part_001.current_state
              (fst (part_001.handle (alarm_irq id) g))
            = part_001.STATE_MEASUREMENT_ERROR) as E
      by (unfold part_001.handle;
          now rewrite (facts_001.timeout_waiting_001 id g Hw)).
    destruct (facts_001.exits_first_001 fall (alarm_irq id) g Hw)
      as [X1 S1]; [congruence|].
    destruct (facts_001.exits_first_001 (alarm_irq id) fall g Hw)
      as [X2 S2]; [congruence|].
    repeat split; congruence.
  - intros g events t_rise t_fall id Hw Hf fall.
    destruct (facts_000.echo_fall_waiting_000 events t_rise t_fall g Hf Hw)
      as (C & _ & _).
    assert (part_000.current_state (fst (part_000.handle fall g))
            = part_000.STATE_MEASUREMENT_COMPLETE) as C' by exact C.
    assert (part_000.current_state
              (fst (part_000.handle (alarm_irq id) g))
            = part_000.STATE_MEASUREMENT_ERROR) as E
      by (unfold part_000.handle;
          now rewrite (facts_000.timeout_waiting_000 id g Hw)).
    destruct (facts_000.exits_first_000 fall (alarm_irq id) g Hw)
      as [X1 S1]; [congruence|].
    destruct (facts_000.exits_first_000 (alarm_irq id) fall g Hw)
      as [X2 S2]; [congruence|].
    repeat split; congruence.
Qed.

Lemma C1_single_exit_witness :
  obs_001.exits [gpio_irq 27 4 0 700; alarm_irq 1] scenario.awaiting_001
    = 1%nat /\
  obs_000.exits [alarm_irq 1; gpio_irq 27 4 0 700] scenario.awaiting_000
    = 1%nat.
Proof.
  split.
  - apply (proj1 C1_single_exit scenario.awaiting_001 4 0 700 1);
      [reflexivity | discriminate].
  - apply (proj2 (proj2 (proj2 C1_single_exit)) scenario.awaiting_000 4 0 700 1);
      [reflexivity | discriminate].
Defined.

(** C2 (as amended) — In part_001 and part_000 a falling edge on the echo
    pin always records the end timestamp; when the state is
    [STATE_WAITING_FOR_ECHO] it also cancels the armed alarm and sets the
    state to [STATE_MEASUREMENT_COMPLETE]; in any other state it cancels
    nothing and leaves the state as it is.  In main.c the handler acts on a
    falling edge only while [flag_f_trigger] is set: it then records the
    end timestamp, clears [flag_f_trigger] and [timer_fired], sets
    [action_completed], and cancels the alarm when it has not fired and its
    id is not zero; while the flag is clear it records nothing. *)
Theorem C2_falling_edge :
  (forall (g : part_001.system_state_t) events t_rise t_fall,
      Z.land events part_001.GPIO_IRQ_EDGE_FALL <> 0 ->
      let r := part_001.echo_callback part_001.ECHO_PIN events t_rise t_fall g in
      part_001.echo_end_time (fst r) = t_fall /\
      (part_001.current_state g = part_001.STATE_WAITING_FOR_ECHO ->
       part_001.current_state (fst r) = part_001.STATE_MEASUREMENT_COMPLETE /\
       snd r = [cancel_alarm (part_001.measurement_alarm_id g)]) /\
      (part_001.current_state g <> part_001.STATE_WAITING_FOR_ECHO ->
       part_001.current_state (fst r) = part_001.current_state g /\
       snd r = [])) /\
  (forall (g : part_000.globals) events t_rise t_fall,
      Z.land events part_000.GPIO_IRQ_EDGE_FALL <> 0 ->
      let r := part_000.echo_callback part_000.ECHO_PIN events t_rise t_fall g in
      part_000.echo_end_time (fst r) = t_fall /\
      (part_000.current_state g = part_000.STATE_WAITING_FOR_ECHO ->
       part_000.current_state (fst r) = part_000.STATE_MEASUREMENT_COMPLETE /\
       snd r = [cancel_alarm (part_000.measurement_alarm_id g)]) /\
      (part_000.current_state g <> part_000.STATE_WAITING_FOR_ECHO ->
       part_000.current_state (fst r) = part_000.current_state g /\
       snd r = [])) /\
  (forall (s : main_c.sensor_state_t) t_rise t_fall,
      let r := main_c.trigger_callback main_c.ECHO_PIN 4 t_rise t_fall s in
      (main_c.flag_f_trigger s = 0 -> r = (s, [])) /\
      (main_c.flag_f_trigger s <> 0 ->
       main_c.t_descida (fst r) = t_fall /\
       main_c.flag_f_trigger (fst r) = 0 /\
       main_c.timer_fired (fst r) = false /\
       main_c.action_completed (fst r) = true /\
       snd r = if negb (main_c.timer_fired s)
                  && negb (main_c.alarm_id s =? 0)
               then [cancel_alarm (main_c.alarm_id s)] else [])).
Proof.
  split; [|split].
  - intros g events t_rise t_fall Hf r. subst r.
    destruct (part_001.current_state g) eqn:E;
      [ destruct (facts_001.echo_fall_other_001 events t_rise t_fall g Hf)
          as (A & B & C); [congruence|]
      | destruct (facts_001.echo_fall_waiting_001 events t_rise t_fall g Hf E)
          as (A & B & C)
      | destruct (facts_001.echo_fall_other_001 events t_rise t_fall g Hf)
          as (A & B & C); [congruence|]
      | destruct (facts_001.echo_fall_other_001 events t_rise t_fall g Hf)
          as (A & B & C); [congruence|] ];
      (split; [exact B|]); split; intros H; try congruence;
      (split; [congruence | exact C]).
  - intros g events t_rise t_fall Hf r. subst r.
    destruct (part_000.current_state g) eqn:E;
      [ destruct (facts_000.echo_fall_other_000 events t_rise t_fall g Hf)
          as (A & B & C); [congruence|]
      | destruct (facts_000.echo_fall_waiting_000 events t_rise t_fall g Hf E)
          as (A & B & C)
      | destruct (facts_000.echo_fall_other_000 events t_rise t_fall g Hf)
          as (A & B & C); [congruence|]
      | destruct (facts_000.echo_fall_other_000 events t_rise t_fall g Hf)
          as (A & B & C); [congruence|] ];
      (split; [exact B|]); split; intros H; try congruence;
      (split; [congruence | exact C]).
  - intros s t_rise t_fall r. split; intros H; subst r.
    + now apply facts_main.trigger_fall_idle_main.
    + rewrite facts_main.trigger_fall_pending_main by assumption.
      simpl. auto.
Qed.

Lemma C2_falling_edge_witness :
  part_001.echo_end_time
    (fst (part_001.echo_callback part_001.ECHO_PIN 4 0 700
            scenario.awaiting_001)) = 700.
Proof.
  apply (proj1 C2_falling_edge scenario.awaiting_001 4 0 700). discriminate.
Defined.

(** C2, the claim as stated fails on main.c: a falling edge on the echo pin
    at 700 us, taken while no measurement is pending, leaves [t_descida] at
    its old value. *)
Lemma C2_counterexample :
  main_c.t_descida
    (fst (main_c.trigger_callback main_c.ECHO_PIN 4 0 700 main_c.sensor_state0))
  <> 700.
Proof. vm_compute. discriminate. Qed.

(** C3 (as amended) — In part_001 and part_000 the timeout callback sets the
    state to [STATE_MEASUREMENT_ERROR] when it is [STATE_WAITING_FOR_ECHO]
    and changes nothing in any other state, so it never replaces
    [STATE_MEASUREMENT_COMPLETE].  In main.c the alarm callback sets
    [timer_fired] whatever the other flags are and writes nothing else; a
    completed measurement is still printed as a distance, because the
    result is chosen on [action_completed] before [timer_fired]. *)
Theorem C3_timeout_callback :
  (forall id (g : part_001.system_state_t),
      snd (part_001.timeout_callback id g) = 0 /\
      (part_001.current_state g = part_001.STATE_WAITING_FOR_ECHO ->
       fst (part_001.timeout_callback id g)
       = part_001.set_current_state part_001.STATE_MEASUREMENT_ERROR g) /\
      (part_001.current_state g <> part_001.STATE_WAITING_FOR_ECHO ->
       fst (part_001.timeout_callback id g) = g)) /\
  (forall id (g : part_000.globals),
      snd (part_000.timeout_callback id g) = 0 /\
      (part_000.current_state g = part_000.STATE_WAITING_FOR_ECHO ->
       fst (part_000.timeout_callback id g)
       = part_000.set_current_state part_000.STATE_MEASUREMENT_ERROR g) /\
      (part_000.current_state g <> part_000.STATE_WAITING_FOR_ECHO ->
       fst (part_000.timeout_callback id g) = g)) /\
  (forall id (s : main_c.sensor_state_t),
      main_c.alarm_callback id s = (main_c.set_timer_fired true s, 0)) /\
  (forall (m : main_c.state),
      main_c.action_completed (main_c.sensor_state m) = true ->
      main_c.print_result m =
        Ok (tt, m,
            [printf
               (distance_cm
                  (distance_of
                     (absolute_time_diff_us
                        (main_c.t_subida (main_c.sensor_state m))
                        (main_c.t_descida (main_c.sensor_state m)))))])).
Proof.
  split; [|split; [|split]].
  - intros id g. split; [reflexivity|]. split; intros H.
    + now rewrite facts_001.timeout_waiting_001.
    + now rewrite facts_001.timeout_other_001.
  - intros id g. split; [reflexivity|]. split; intros H.
    + now rewrite facts_000.timeout_waiting_000.
    + now rewrite facts_000.timeout_other_000.
  - reflexivity.
  - intros m H. rewrite facts_main.print_result_main. now rewrite H.
Qed.

Lemma C3_timeout_callback_witness :
  fst (part_001.timeout_callback 1 scenario.awaiting_001)
  = part_001.set_current_state part_001.STATE_MEASUREMENT_ERROR
      scenario.awaiting_001 /\
  fst (part_001.timeout_callback 1 part_001.g_state) = part_001.g_state.
Proof.
  split.
  - apply (proj1 C3_timeout_callback 1 scenario.awaiting_001). reflexivity.
  - apply (proj1 C3_timeout_callback 1 part_001.g_state). discriminate.
Defined.

(** C3, the claim as stated fails on main.c: the alarm callback, run after
    the measurement has completed, does change the shared data. *)
Lemma C3_counterexample :
  fst (main_c.alarm_callback 1 scenario.completed_main)
  <> scenario.completed_main.
Proof. vm_compute. discriminate. Qed.

(** C4 — Single flight.  In part_001 and part_000 an iteration of the loop
    that starts in a state other than [STATE_IDLE] sends no trigger pulse
    and arms no alarm, whatever the run flag, the console input and the
    interrupts taken are; an iteration that does send a pulse or arm an
    alarm started in [STATE_IDLE] and has the run flag set.  In main.c,
    where a measurement begins and ends inside one iteration, the
    measurement block does nothing while the run flag is clear. *)
Theorem C4_single_flight :
  (forall e (g g' : part_001.system_state_t) t,
      part_001.loop_body e g = Ok (tt, g', t) ->
      (part_001.current_state g <> part_001.STATE_IDLE ->
       List.filter is_trigger t = []) /\
      (List.filter is_trigger t <> [] ->
       part_001.current_state g = part_001.STATE_IDLE /\
       part_001.system_running g' = true)) /\
  (forall e (g g' : part_000.globals) t,
      part_000.loop_body e g = Ok (tt, g', t) ->
      (part_000.current_state g <> part_000.STATE_IDLE ->
       List.filter is_trigger t = []) /\
      (List.filter is_trigger t <> [] ->
       part_000.current_state g = part_000.STATE_IDLE /\
       part_000.system_running g' = true)) /\
  (forall e (m : main_c.state),
      main_c.reading_active m = false -> main_c.measure e m = Ok (tt, m, [])).
Proof.
  split; [|split].
  - intros e g g' t H.
    destruct (facts_001.loop_body_trigger_001 e g g' t H) as [Q | [I R]];
      split; intros; auto; congruence.
  - intros e g g' t H.
    destruct (facts_000.loop_body_trigger_000 e g g' t H) as [Q | [I R]];
      split; intros; auto; congruence.
  - exact facts_main.measure_idle_main.
Qed.

Lemma C4_single_flight_witness :
  exists g' t,
    part_001.loop_body (scenario.iteration None []) scenario.awaiting_001
    = Ok (tt, g', t) /\
    List.filter is_trigger t = [].
Proof.
  eexists. eexists. split; [vm_compute; reflexivity|].
  refine (proj1 (proj1 C4_single_flight
                   (scenario.iteration None []) scenario.awaiting_001 _ _ _) _);
    [vm_compute; reflexivity | vm_compute; discriminate].
Defined.

(** C5 (as amended) — In part_001 and part_000 every transition from
    [STATE_IDLE] to [STATE_WAITING_FOR_ECHO] drives the trigger pin high,
    waits 10 us, drives it low and arms the alarm with 30000 us; the
    transition takes place whenever the run flag is set in [STATE_IDLE].
    In main.c the pulse is the same and the alarm is armed with 500 ms. *)
Theorem C5_pulse_and_budget :
  (forall e (g : part_001.system_state_t),
      part_001.system_running g = true ->
      part_001.current_state g = part_001.STATE_IDLE ->
      exists g',
        part_001.start_measurement e g =
          Ok (tt, g',
              [gpio_put 28 true; sleep_us 10; gpio_put 28 false;
               add_alarm_in_us 30000]) /\
        part_001.current_state g' = part_001.STATE_WAITING_FOR_ECHO) /\
  (forall e (g g' : part_001.system_state_t) t,
      part_001.start_measurement e g = Ok (tt, g', t) ->
      part_001.current_state g = part_001.STATE_IDLE ->
      part_001.current_state g' = part_001.STATE_WAITING_FOR_ECHO ->
      t = [gpio_put 28 true; sleep_us 10; gpio_put 28 false;
           add_alarm_in_us 30000] /\
      armed_budgets_us t = [30000]) /\
  (forall e (g : part_000.globals),
      part_000.system_running g = true ->
      part_000.current_state g = part_000.STATE_IDLE ->
      exists g',
        part_000.start_measurement e g =
          Ok (tt, g',
              [gpio_put 28 true; sleep_us 10; gpio_put 28 false;
               add_alarm_in_us 30000]) /\
        part_000.current_state g' = part_000.STATE_WAITING_FOR_ECHO) /\
  (forall e (g g' : part_000.globals) t,
      part_000.start_measurement e g = Ok (tt, g', t) ->
      part_000.current_state g = part_000.STATE_IDLE ->
      part_000.current_state g' = part_000.STATE_WAITING_FOR_ECHO ->
      t = [gpio_put 28 true; sleep_us 10; gpio_put 28 false;
           add_alarm_in_us 30000] /\
      armed_budgets_us t = [30000]) /\
  (forall e (m m' : main_c.state) t,
      main_c.reading_active m = true ->
      1000 * 1000 <=
        absolute_time_diff_us (main_c.last_measurement m) (main_c.t_check e) ->
      main_c.measure e m = Ok (tt, m', t) ->
      armed_budgets_us t = [500000] /\
      exists rest,
        t = [gpio_put 15 true; sleep_us 10] ++
            snd (main_c.handle_all (main_c.irq_pulse e) (obs_main.armed m)) ++
            [gpio_put 15 false; add_alarm_in_ms 500] ++ rest).
Proof.
  split; [|split; [|split; [|split]]].
  - intros e g Hr Hs. eexists. split.
    + apply facts_001.start_measurement_fires_001; assumption.
    + reflexivity.
  - intros e g g' t H Hi Hw.
    destruct (facts_001.start_measurement_transition_001 _ _ _ _ H Hi Hw)
      as (_ & -> & _). split; reflexivity.
  - intros e g Hr Hs. eexists. split.
    + apply facts_000.start_measurement_fires_000; assumption.
    + reflexivity.
  - intros e g g' t H Hi Hw.
    destruct (facts_000.start_measurement_transition_000 _ _ _ _ H Hi Hw)
      as (_ & -> & _). split; reflexivity.
  - intros e m m' t Hr Hd H. split.
    + now destruct (facts_main.measure_trace_main _ _ _ _ Hr Hd H).
    + destruct (facts_main.measure_inv_main _ _ _ _ Hr Hd H)
        as (m3 & tw & _ & _ & ->).
      eexists. reflexivity.
Qed.

Lemma C5_pulse_and_budget_witness :
  exists g',
    part_001.start_measurement (scenario.iteration None [])
      (part_001.set_system_running true part_001.g_state) =
      Ok (tt, g',
          [gpio_put 28 true; sleep_us 10; gpio_put 28 false;
           add_alarm_in_us 30000]) /\
    part_001.current_state g' = part_001.STATE_WAITING_FOR_ECHO.
Proof.
  apply (proj1 C5_pulse_and_budget (scenario.iteration None [])
           (part_001.set_system_running true part_001.g_state));
    reflexivity.
Defined.

(** C5, the claim as stated fails on main.c: the one alarm its measurement
    arms has a budget of 500000 us, not 30000 us. *)
Lemma C5_counterexample :
  armed_budgets_us
    (scenario.trace_of
       (main_c.measure (scenario.iteration_main None 2000000)
          scenario.started_main))
  = [500000] /\
  [500000] <> [30000].
Proof. split; [vm_compute; reflexivity | discriminate]. Qed.




(** C7 — The distance is computed from the signed 64-bit difference of the
    two timestamps by [(duration * 0.0343f) / 2.0f] in binary32.  For every
    pair of timestamps the result is a finite number, negative when the
    duration is negative, and equal to [duration * 0.0343 / 2] up to the
    rounding of binary32 (relative error at most 2^-22): nothing clamps or
    rejects it.  A rising edge at [t0] and a falling edge at [t0 + 600]
    give 10.29 cm within 10^-6.  This value is what the result line carries
    in part_001, part_000 and main.c. *)
Theorem C7_distance_formula :
  (forall from to,
      let d := absolute_time_diff_us from to in
      - 2 ^ 63 <= d < 2 ^ 63 /\
      (- 2 ^ 63 <= to - from < 2 ^ 63 -> d = to - from) /\
      binary32.is_finite (distance_of d) = true /\
      (d < 0 -> (binary32.to_Q (distance_of d) < 0)%Q) /\
      (Qabs (binary32.to_Q (distance_of d) - inject_Z d * (343 # 20000))
       <= (1 # 4194304) * Qabs (inject_Z d * (343 # 20000)))%Q) /\
  (forall t0,
      absolute_time_diff_us t0 (t0 + 600) = 600 /\
      (Qabs (binary32.to_Q
               (distance_of (absolute_time_diff_us t0 (t0 + 600)))
             - (1029 # 100)) <= 1 # 1000000)%Q) /\
  (forall e (g : part_001.system_state_t),
      part_001.current_state g = part_001.STATE_MEASUREMENT_COMPLETE ->
      exists g' rest,
        part_001.report e g =
          Ok (tt, g',
              printf (report_distance (fmt_time (rtc_now e))
                        (distance_of
                           (absolute_time_diff_us (part_001.echo_start_time g)
                              (part_001.echo_end_time g))))
              :: rest)) /\
  (forall e (g : part_000.globals),
      part_000.current_state g = part_000.STATE_MEASUREMENT_COMPLETE ->
      exists g' rest,
        part_000.report e g =
          Ok (tt, g',
              printf (report_distance (fmt_time (rtc_now e))
                        (distance_of
                           (absolute_time_diff_us (part_000.echo_start_time g)
                              (part_000.echo_end_time g))))
              :: rest)) /\
  (forall (m : main_c.state),
      main_c.action_completed (main_c.sensor_state m) = true ->
      main_c.print_result m =
        Ok (tt, m,
            [printf
               (distance_cm
                  (distance_of
                     (absolute_time_diff_us
                        (main_c.t_subida (main_c.sensor_state m))
                        (main_c.t_descida (main_c.sensor_state m)))))])).
Proof.
  split; [|split; [|split; [|split]]].
  - intros from to d.
    pose proof (float_facts.diff_range from to) as R. fold d in R.
    destruct (float_facts.distance_of_spec d R) as (F & S & B).
    split; [exact R|]. split; [apply float_facts.diff_plain|].
    split; [exact F|]. split; [exact S | exact B].
  - intros t0.
    assert (absolute_time_diff_us t0 (t0 + 600) = 600) as E.
    { rewrite float_facts.diff_plain; replace (t0 + 600 - t0) with 600 by lia;
        [reflexivity|]. split; [discriminate | reflexivity]. }
    split; [exact E|]. rewrite E.
    apply Qabs_Qle_condition. split; vm_compute; discriminate.
  - intros e g H. rewrite facts_001.report_complete_001 by assumption. eauto.
  - intros e g H. rewrite facts_000.report_complete_000 by assumption. eauto.
  - intros m H. rewrite facts_main.print_result_main. now rewrite H.
Qed.

Lemma C7_distance_formula_witness :
  absolute_time_diff_us 100 700 = 700 - 100 /\
  absolute_time_diff_us 700 100 = 100 - 700.
Proof.
  split.
  - apply (proj1 (proj2 (proj1 C7_distance_formula 100 700)));
      split; [discriminate | reflexivity].
  - apply (proj1 (proj2 (proj1 C7_distance_formula 700 100)));
      split; [discriminate | reflexivity].
Defined.




(** C9 — In part_001 and part_000 the line ["stop"] clears the run flag and
    the command buffer and writes nothing of the measurement (state,
    timestamps, alarm id).  A measurement that is awaited when the flag is
    cleared still ends, by the falling edge or by the timeout, and the next
    iteration prints its result once and resets the state; the iteration
    after that prints nothing and sends no pulse.  The result phase prints
    the line of a terminal state and resets the state whatever the run
    flag is; the flag only adds the one-second pause that follows. *)
Theorem C9_stop_keeps_measurement :
  (forall c (g : part_001.system_state_t) x rest,
      c = 13 \/ c = 10 ->
      part_001.cmd_index g = 4 ->
      part_001.cmd_buffer g = [115; 116; 111; 112] ++ x :: rest ->
      exists g',
        part_001.console c g = Ok (false, g', [putchar c; printf msg_stopped]) /\
        part_001.system_running g' = false /\
        part_001.cmd_index g' = 0 /\
        part_001.cmd_buffer g' = replicate (length (part_001.cmd_buffer g)) 0 /\
        obs_001.same_measurement g g') /\
  (forall (g : part_001.system_state_t) i e1 e2,
      part_001.current_state g = part_001.STATE_WAITING_FOR_ECHO ->
      part_001.system_running g = false ->
      obs_001.is_fall i \/ (exists id, i = alarm_irq id) ->
      in_char e1 = None -> in_char e2 = None ->
      exists g' l,
        part_001.main_loop [e1; e2] (fst (part_001.handle i g))
        = Ok (tt, g', [printf l; sleep_ms 10; sleep_ms 10]) /\
        is_report (printf l) = true /\
        part_001.current_state g' = part_001.STATE_IDLE /\
        part_001.system_running g' = false) /\
  (forall e (g : part_001.system_state_t),
      part_001.current_state g = part_001.STATE_MEASUREMENT_COMPLETE \/
      part_001.current_state g = part_001.STATE_MEASUREMENT_ERROR ->
      exists g' l,
        part_001.report e g =
          Ok (tt, g',
              printf l ::
              (if part_001.system_running g then [sleep_ms 1000] else [])) /\
        is_report (printf l) = true /\
        part_001.current_state g' = part_001.STATE_IDLE) /\
  (forall c (g : part_000.globals) x rest,
      c = 13 \/ c = 10 ->
      part_000.cmd_index g = 4 ->
      part_000.cmd_buffer g = [115; 116; 111; 112] ++ x :: rest ->
      exists g',
        part_000.console c g = Ok (false, g', [putchar c; printf msg_stopped]) /\
        part_000.system_running g' = false /\
        part_000.cmd_index g' = 0 /\
        part_000.cmd_buffer g' = replicate (length (part_000.cmd_buffer g)) 0 /\
        obs_000.same_measurement g g') /\
  (forall (g : part_000.globals) i e1 e2,
      part_000.current_state g = part_000.STATE_WAITING_FOR_ECHO ->
      part_000.system_running g = false ->
      obs_000.is_fall i \/ (exists id, i = alarm_irq id) ->
      in_char e1 = None -> in_char e2 = None ->
      exists g' l,
        part_000.main_loop [e1; e2] (fst (part_000.handle i g))
        = Ok (tt, g', [printf l; sleep_ms 10; sleep_ms 10]) /\
        is_report (printf l) = true /\
        part_000.current_state g' = part_000.STATE_IDLE /\
        part_000.system_running g' = false) /\
  (forall e (g : part_000.globals),
      part_000.current_state g = part_000.STATE_MEASUREMENT_COMPLETE \/
      part_000.current_state g = part_000.STATE_MEASUREMENT_ERROR ->
      exists g' l,
        part_000.report e g =
          Ok (tt, g',
              printf l ::
              (if part_000.system_running g then [sleep_ms 1000] else [])) /\
        is_report (printf l) = true /\
        part_000.current_state g' = part_000.STATE_IDLE).
Proof.
  split; [|split; [|split; [|split; [|split]]]].
  - exact facts_001.console_stop_001.
  - exact facts_001.stopped_in_flight_001.
  - exact facts_001.report_any_flag_001.
  - exact facts_000.console_stop_000.
  - exact facts_000.stopped_in_flight_000.
  - exact facts_000.report_any_flag_000.
Qed.

Lemma C9_stop_keeps_measurement_witness :
  exists g' l,
    part_001.main_loop [scenario.iteration None []; scenario.iteration None []]
      (fst (part_001.handle (alarm_irq 1) scenario.awaiting_001))
    = Ok (tt, g', [printf l; sleep_ms 10; sleep_ms 10]) /\
    is_report (printf l) = true /\
    part_001.current_state g' = part_001.STATE_IDLE /\
    part_001.system_running g' = false.
Proof.
  apply (proj1 (proj2 C9_stop_keeps_measurement) scenario.awaiting_001
           (alarm_irq 1)); try reflexivity.
  right. exists 1. reflexivity.
Defined.

(** C10 — Whatever the console sends, and whatever interrupts arrive, the
    loop never reads or writes outside the command buffer and the index
    stays between 0 and the size of the buffer less one: in part_001 and
    part_000 (64 bytes) every finite run from boot returns, in main.c
    (20 bytes) a run stops only when the supplied schedule ends.  A
    character that arrives when the index is at its maximum is dropped, and
    an empty line changes nothing and processes no command. *)
Theorem C10_command_buffer_bounds :
  (forall es,
      exists g' t,
        part_001.main_loop es part_001.g_state = Ok (tt, g', t) /\
        length (part_001.cmd_buffer g') = 64%nat /\
        0 <= part_001.cmd_index g' <= 63) /\
  (forall c (g : part_001.system_state_t),
      (c <> 13 -> c <> 10 -> part_001.cmd_index g = 63 ->
       part_001.console c g = Ok (false, g, [putchar c])) /\
      (c = 13 \/ c = 10 -> part_001.cmd_index g = 0 ->
       part_001.console c g = Ok (true, g, [putchar c]))) /\
  (forall es,
      exists g' t,
        part_000.main_loop es part_000.boot = Ok (tt, g', t) /\
        length (part_000.cmd_buffer g') = 64%nat /\
        0 <= part_000.cmd_index g' <= 63) /\
  (forall c (g : part_000.globals),
      (c <> 13 -> c <> 10 -> part_000.cmd_index g = 63 ->
       part_000.console c g = Ok (false, g, [putchar c])) /\
      (c = 13 \/ c = 10 -> part_000.cmd_index g = 0 ->
       part_000.console c g = Ok (true, g, [putchar c]))) /\
  (forall es t_boot,
      match main_c.main_loop es (main_c.boot t_boot) with
      | Ok (_, m', _) =>
          length (main_c.command m') = 20%nat /\
          0 <= main_c.cmd_index m' <= 19
      | Err err => err = no_more_ticks
      end) /\
  (forall ch (m : main_c.state),
      (ch <> 10 -> ch <> 13 -> main_c.cmd_index m = 19 ->
       main_c.console ch m = Ok (tt, m, [])) /\
      (ch = 10 \/ ch = 13 -> main_c.cmd_index m = 0 ->
       main_c.console ch m = Ok (tt, m, []))).
Proof.
  split; [|split; [|split; [|split; [|split]]]].
  - intros es.
    destruct (facts_001.main_loop_safe_001 es part_001.g_state
                facts_001.boot_buffer_ok_001) as (g' & t & H & L & I).
    exists g', t. auto.
  - intros c g. split.
    + intros. now apply facts_001.console_full_001.
    + intros. now apply facts_001.console_empty_line_001.
  - intros es.
    destruct (facts_000.main_loop_safe_000 es part_000.boot
                facts_000.boot_buffer_ok_000) as (g' & t & H & L & I).
    exists g', t. auto.
  - intros c g. split.
    + intros. now apply facts_000.console_full_000.
    + intros. now apply facts_000.console_empty_line_000.
  - intros es t_boot.
    pose proof (facts_main.main_loop_safe_main es (main_c.boot t_boot)
                  (facts_main.boot_buffer_ok_main t_boot)) as H.
    destruct (main_c.main_loop es (main_c.boot t_boot)) as [[[[] m'] t]|];
      exact H.
  - intros ch m. split.
    + intros. now apply facts_main.console_full_main.
    + intros. now apply facts_main.console_empty_line_main.
Qed.

Lemma C10_command_buffer_bounds_witness :
  part_001.console 13 part_001.g_state
  = Ok (true, part_001.g_state, [putchar 13]).
Proof.
  apply (proj2 (proj1 (proj2 C10_command_buffer_bounds) 13 part_001.g_state));
    [left|]; reflexivity.
Defined.

(** * Composing the phases of an iteration *)

Section steps.
Context {S : Type} (R : S -> S -> list effect -> Prop).
Hypothesis R_refl : forall s, R s s [].
Hypothesis R_trans : forall s s1 s2 t1 t2,
  R s s1 t1 -> R s1 s2 t2 -> R s s2 (t1 ++ t2).

Lemma respects_ret {X} (x : X) : respects R (ret x).
Proof. intros s x' s' t H. ok_inv H. apply R_refl. Qed.

Lemma respects_fetch : respects R fetch.
Proof. intros s x' s' t H. ok_inv H. apply R_refl. Qed.

Lemma respects_lift {X} (r : result X) : respects R (lift r).
Proof.
  intros s x' s' t H. unfold lift in H. destruct r; [|discriminate].
  ok_inv H. apply R_refl.
Qed.

Lemma respects_throw {X} (e : error) : respects R (@throw S X e).
Proof. intros s x' s' t H. discriminate H. Qed.

Lemma respects_bind {X Y} (m : M S X) (k : X -> M S Y) :
  respects R m -> (forall x, respects R (k x)) -> respects R (bind m k).
Proof.
  intros Hm Hk s y s' t H.
  apply bind_ok in H as (x & s1 & t1 & t2 & H1 & H2 & ->).
  eapply R_trans; [eapply Hm | eapply Hk]; eassumption.
Qed.

Lemma respects_emit (e : effect) :
  (forall s, R s s [e]) -> respects R (emit e).
Proof. intros He s x' s' t H. ok_inv H. apply He. Qed.

Lemma respects_modify (f : S -> S) :
  (forall s, R s (f s) []) -> respects R (modify f).
Proof. intros Hf s x' s' t H. ok_inv H. apply Hf. Qed.
End steps.

(** * part_000 and part_001 run alike *)

Module layout_facts.
Import layout.

Lemma state_eqb_of a b :
  part_000.state_eqb (state_of a) (state_of b) = part_001.state_eqb a b.
Proof. destruct a, b; reflexivity. Qed.

Lemma handle_of i g :
  part_000.handle i (globals_of g)
  = (globals_of (fst (part_001.handle i g)), snd (part_001.handle i g)).
Proof.
  destruct g as [st t0 t1 id run buf idx].
  destruct i as [gpio events tr tf | id']; simpl.
  - unfold part_000.echo_callback, part_001.echo_callback,
      part_000.ECHO_PIN, part_001.ECHO_PIN,
      part_000.GPIO_IRQ_EDGE_RISE, part_001.GPIO_IRQ_EDGE_RISE,
      part_000.GPIO_IRQ_EDGE_FALL, part_001.GPIO_IRQ_EDGE_FALL.
    destruct (gpio =? 27); [|reflexivity].
    destruct (Z.land events 8 =? 0), (Z.land events 4 =? 0), st;
      reflexivity.
  - unfold globals_of. simpl. destruct st; reflexivity.
Qed.

Lemma handle_all_of irqs : forall g,
  part_000.handle_all irqs (globals_of g)
  = (globals_of (fst (part_001.handle_all irqs g)),
     snd (part_001.handle_all irqs g)).
Proof.
  induction irqs as [|i rest IH]; intros g; [reflexivity|].
  simpl. rewrite handle_of.
  destruct (part_001.handle i g) as [g1 t1]. simpl.
  rewrite IH. now destruct (part_001.handle_all rest g1).
Qed.

Lemma same_run_bind {X Y}
  (m1 : M part_001.system_state_t X) (m0 : M part_000.globals X)
  (k1 : X -> M part_001.system_state_t Y) (k0 : X -> M part_000.globals Y) g :
  same_run (m1 g) (m0 (globals_of g)) ->
  (forall x g', same_run (k1 x g') (k0 x (globals_of g'))) ->
  same_run (bind m1 k1 g) (bind m0 k0 (globals_of g)).
Proof.
  intros Hm Hk. unfold bind.
  destruct (m1 g) as [[[x1 g1] t1]|e1], (m0 (globals_of g)) as [[[x0 g0] t0]|e0];
    simpl in Hm; try contradiction.
  - destruct Hm as (-> & -> & ->). specialize (Hk x1 g1).
    destruct (k1 x1 g1) as [[[y1 g1'] t1']|e1],
             (k0 x1 (globals_of g1)) as [[[y0 g0'] t0']|e0];
      simpl in Hk; try contradiction; simpl.
    + destruct Hk as (-> & -> & ->). auto.
    + exact Hk.
  - exact Hm.
Qed.

Lemma preempt_of irqs g :
  same_run (part_001.preempt irqs g) (part_000.preempt irqs (globals_of g)).
Proof.
  unfold part_001.preempt, part_000.preempt. rewrite handle_all_of.
  destruct (part_001.handle_all irqs g). simpl. auto.
Qed.

Lemma emit_of e g :
  same_run (X := unit) (emit e g) (emit e (globals_of g)).
Proof. simpl. auto. Qed.

Lemma ret_of {X} (x : X) g : same_run (ret x g) (ret x (globals_of g)).
Proof. simpl. auto. Qed.

Ltac split_run :=
  repeat match goal with
         | |- context [match ?x with _ => _ end] =>
             lazymatch x with
             | context [match _ with _ => _ end] => fail
             | _ => destruct x eqn:?
             end
         end.

Lemma console_of c g :
  same_run (part_001.console c g) (part_000.console c (globals_of g)).
Proof.
  destruct g as [st t0 t1 id run buf idx].
  unfold part_001.console, part_000.console, same_run,
    bind, ret, fetch, modify, emit, lift,
    part_001.CMD_BUFFER_SIZE, part_000.CMD_BUFFER_SIZE.
  cbv beta iota zeta delta
    [globals_of
     part_001.cmd_index part_001.cmd_buffer part_001.system_running
     part_001.current_state part_001.echo_start_time
     part_001.echo_end_time part_001.measurement_alarm_id
     part_000.cmd_index part_000.cmd_buffer part_000.system_running
     part_000.current_state part_000.echo_start_time
     part_000.echo_end_time part_000.measurement_alarm_id
     part_001.set_cmd_buffer part_001.set_cmd_index
     part_001.set_system_running
     part_000.set_cmd_buffer part_000.set_cmd_index
     part_000.set_system_running].
  split_run; cbv beta iota; auto.
Qed.

Lemma modify_of (f1 : part_001.system_state_t -> part_001.system_state_t)
  (f0 : part_000.globals -> part_000.globals) g :
  f0 (globals_of g) = globals_of (f1 g) ->
  same_run (modify f1 g) (modify f0 (globals_of g)).
Proof. intros H. simpl. auto. Qed.

Lemma fetch_bind_of {Y}
  (k1 : part_001.system_state_t -> M part_001.system_state_t Y)
  (k0 : part_000.globals -> M part_000.globals Y) g :
  same_run (k1 g g) (k0 (globals_of g) (globals_of g)) ->
  same_run (bind fetch k1 g) (bind fetch k0 (globals_of g)).
Proof.
  unfold bind, fetch.
  destruct (k1 g g) as [[[y1 g1] t1]|e1],
           (k0 (globals_of g) (globals_of g)) as [[[y0 g0] t0]|e0];
    simpl; auto.
Qed.

Ltac run_alike :=
  repeat first
    [ apply emit_of | apply ret_of | apply preempt_of
    | apply modify_of; reflexivity
    | apply same_run_bind; [|intros ? ?] ].

Lemma start_measurement_of e g :
  same_run (part_001.start_measurement e g)
    (part_000.start_measurement e (globals_of g)).
Proof.
  unfold part_001.start_measurement, part_000.start_measurement.
  apply fetch_bind_of.
  change (part_000.system_running (globals_of g))
    with (part_001.system_running g).
  change (part_000.state_eqb (part_000.current_state (globals_of g))
            part_000.STATE_IDLE)
    with (part_000.state_eqb (state_of (part_001.current_state g))
            (state_of part_001.STATE_IDLE)).
  rewrite state_eqb_of.
  destruct (part_001.system_running g
            && part_001.state_eqb (part_001.current_state g)
                 part_001.STATE_IDLE); [|apply ret_of].
  unfold part_001.send_trigger_pulse, part_000.send_trigger_pulse.
  run_alike.
Qed.

Lemma report_of e g :
  same_run (part_001.report e g) (part_000.report e (globals_of g)).
Proof.
  unfold part_001.report, part_000.report.
  apply fetch_bind_of.
  change (part_000.current_state (globals_of g))
    with (state_of (part_001.current_state g)).
  change part_000.STATE_MEASUREMENT_COMPLETE
    with (state_of part_001.STATE_MEASUREMENT_COMPLETE).
  change part_000.STATE_MEASUREMENT_ERROR
    with (state_of part_001.STATE_MEASUREMENT_ERROR).
  rewrite !state_eqb_of.
  change (part_000.echo_start_time (globals_of g))
    with (part_001.echo_start_time g).
  change (part_000.echo_end_time (globals_of g))
    with (part_001.echo_end_time g).
  destruct (part_001.state_eqb (part_001.current_state g)
              part_001.STATE_MEASUREMENT_COMPLETE
            || part_001.state_eqb (part_001.current_state g)
                 part_001.STATE_MEASUREMENT_ERROR); [|apply ret_of].
  apply same_run_bind.
  - destruct (part_001.state_eqb (part_001.current_state g)
                part_001.STATE_MEASUREMENT_COMPLETE); apply emit_of.
  - intros _ g1. apply same_run_bind; [apply modify_of; reflexivity|].
    intros _ g2. apply fetch_bind_of.
    change (part_000.system_running (globals_of g2))
      with (part_001.system_running g2).
    destruct (part_001.system_running g2); run_alike.
Qed.

Lemma loop_body_of e g :
  same_run (part_001.loop_body e g) (part_000.loop_body e (globals_of g)).
Proof.
  unfold part_001.loop_body, part_000.loop_body.
  apply same_run_bind; [apply preempt_of|]. intros _ g1.
  apply same_run_bind.
  - destruct (in_char e); [apply console_of | apply ret_of].
  - intros [] g2; [apply ret_of|].
    apply same_run_bind; [apply start_measurement_of|]. intros _ g3.
    apply same_run_bind; [apply preempt_of|]. intros _ g4.
    apply same_run_bind; [apply report_of|]. intros _ g5.
    apply same_run_bind; [apply emit_of|]. intros _ g6.
    apply preempt_of.
Qed.

Lemma main_loop_of es : forall g,
  same_run (part_001.main_loop es g) (part_000.main_loop es (globals_of g)).
Proof.
  induction es as [|e es IH]; intros g; [apply ret_of|].
  simpl. apply same_run_bind; [apply loop_body_of|]. intros _ g1. apply IH.
Qed.
End layout_facts.

(** * part_001: whole runs *)

Lemma cancels_filtered (f : effect -> bool) t :
  (forall id, f (cancel_alarm id) = false) ->
  forallb is_cancel t = true -> List.filter f t = [].
Proof.
  intros Hf. induction t as [|e t IH]; [reflexivity|].
  simpl. intros H. apply andb_true_iff in H as [He Ht].
  destruct e; try discriminate He. rewrite Hf. auto.
Qed.

Lemma cancels_not_armed t :
  forallb is_cancel t = true -> armed_budgets_us t = [].
Proof.
  induction t as [|e t IH]; [reflexivity|].
  simpl. intros H. apply andb_true_iff in H as [He Ht].
  destruct e; try discriminate He. auto.
Qed.

Lemma armed_app a b :
  armed_budgets_us (a ++ b) = armed_budgets_us a ++ armed_budgets_us b.
Proof.
  induction a as [|x a IHa]; [reflexivity|].
  destruct x; simpl; rewrite ?IHa; reflexivity.
Qed.

Module run_facts_001.
Import part_001 obs_001 facts_001 run_001.

Section phases.
Context (R : system_state_t -> system_state_t -> list effect -> Prop).
Hypothesis R_refl : forall s, R s s [].
Hypothesis R_trans : forall s s1 s2 t1 t2,
  R s s1 t1 -> R s1 s2 t2 -> R s s2 (t1 ++ t2).

Lemma preempt_respects_001 irqs :
  (forall i g, R g (fst (handle i g)) (snd (handle i g))) ->
  respects R (preempt irqs).
Proof.
  intros Hh g x g' t H. rewrite preempt_eq_001 in H. ok_inv H.
  revert g. induction irqs as [|i rest IH]; intros g.
  - apply R_refl.
  - rewrite handle_all_cons_001. simpl. eapply R_trans; [apply Hh | apply IH].
Qed.

Lemma loop_body_respects_001 e :
  (forall irqs, respects R (preempt irqs)) ->
  respects R (match in_char e with
              | Some c => console c
              | None => ret false
              end) ->
  respects R (start_measurement e) ->
  respects R (report e) ->
  (forall s, R s s [sleep_ms 10]) ->
  respects R (loop_body e).
Proof.
  intros Hp Hc Hs Hr Hz. unfold loop_body.
  apply respects_bind; [assumption | apply Hp |]. intros _.
  apply respects_bind; [assumption | apply Hc |]. intros [].
  - apply respects_ret; assumption.
  - apply respects_bind; [assumption | apply Hs |]. intros _.
    apply respects_bind; [assumption | apply Hp |]. intros _.
    apply respects_bind; [assumption | apply Hr |]. intros _.
    apply respects_bind; [assumption | | intros _; apply Hp].
    apply respects_emit. apply Hz.
Qed.

Lemma main_loop_respects_001 es :
  (forall e, In e es -> respects R (loop_body e)) ->
  respects R (main_loop es).
Proof.
  induction es as [|e es IH]; intros H; simpl.
  - apply respects_ret; assumption.
  - apply respects_bind; [assumption | apply H; now left |].
    intros _. apply IH. intros e' He'. apply H. now right.
Qed.
End phases.

(** ** Pulses, alarms and result lines *)

Lemma tally_refl g : tally g g [].
Proof. split; reflexivity. Qed.

Lemma tally_trans g g1 g2 t1 t2 :
  tally g g1 t1 -> tally g1 g2 t2 -> tally g g2 (t1 ++ t2).
Proof.
  intros [A1 B1] [A2 B2]. split.
  - rewrite List.filter_app, armed_app, length_app, replicate_add,
      concat_app, A1, A2. reflexivity.
  - rewrite List.filter_app, armed_app, !length_app. lia.
Qed.

Lemma pending_handle i g : pending (fst (handle i g)) = pending g.
Proof.
  unfold pending.
  destruct (current_state g) eqn:E.
  - rewrite handle_state_001, E by congruence. reflexivity.
  - destruct (handle_from_waiting_001 i g) as [H|H]; [|congruence].
    rewrite (state_eqb_neq_001 _ _ H). reflexivity.
  - rewrite handle_state_001, E by congruence. reflexivity.
  - rewrite handle_state_001, E by congruence. reflexivity.
Qed.

Lemma quiet_tally g g' t :
  pending g' = pending g ->
  List.filter is_trigger t = [] -> List.filter is_report t = [] ->
  tally g g' t.
Proof.
  intros Hp Ht Hr. unfold tally. rewrite Ht, Hr, Hp.
  assert (armed_budgets_us t = []) as ->.
  { clear -Ht. induction t as [|e t IH]; [reflexivity|].
    simpl in Ht. destruct e; simpl in *; try discriminate; auto. }
  split; reflexivity.
Qed.

Lemma handle_tally i g : tally g (fst (handle i g)) (snd (handle i g)).
Proof.
  apply quiet_tally; [apply pending_handle | |];
    apply cancels_filtered; auto using handle_trace_001.
Qed.

Lemma pending_handle_all irqs : forall g,
  pending (fst (handle_all irqs g)) = pending g.
Proof.
  induction irqs as [|i rest IH]; intros g; [reflexivity|].
  rewrite handle_all_cons_001. simpl. now rewrite IH, pending_handle.
Qed.

Lemma console_or_not_tally oc :
  respects tally (match oc with
                  | Some c => console c
                  | None => ret false
                  end).
Proof.
  intros g skip g' t H.
  apply console_or_not_001 in H as ((Hs & _) & Ht & Hr).
  apply quiet_tally; auto. unfold pending. now rewrite Hs.
Qed.

Lemma start_measurement_tally e : respects tally (start_measurement e).
Proof.
  intros g [] g' t H.
  destruct (system_running g && state_eqb (current_state g) STATE_IDLE)
    eqn:C.
  - apply andb_true_iff in C as [Hr Hs]. apply state_eqb_spec_001 in Hs.
    rewrite start_measurement_fires_001 in H by assumption. ok_inv H.
    unfold tally, pending. rewrite Hs. split; reflexivity.
  - rewrite start_measurement_skips_001 in H by assumption. ok_inv H.
    apply tally_refl.
Qed.

Lemma report_tally e : respects tally (report e).
Proof.
  intros g [] g' t H.
  destruct (spacing_trace_001 e g) as [St Sr].
  assert (armed_budgets_us (snd (spacing e g)) = []) as Sa
    by (unfold spacing; now destruct (system_running g)).
  destruct (current_state g) eqn:E.
  - rewrite report_none_001 in H by auto. ok_inv H. apply tally_refl.
  - rewrite report_none_001 in H by auto. ok_inv H. apply tally_refl.
  - rewrite report_complete_001 in H by auto. ok_inv H.
    unfold tally, pending. simpl. rewrite St, Sr, Sa, E, spacing_state_001.
    split; reflexivity.
  - rewrite report_error_001 in H by auto. ok_inv H.
    unfold tally, pending. simpl. rewrite St, Sr, Sa, E, spacing_state_001.
    split; reflexivity.
Qed.

Lemma loop_body_tally e : respects tally (loop_body e).
Proof.
  apply (loop_body_respects_001 tally tally_refl tally_trans).
  - intros irqs.
    apply (preempt_respects_001 tally tally_refl tally_trans).
    apply handle_tally.
  - apply console_or_not_tally.
  - apply start_measurement_tally.
  - apply report_tally.
  - intros s. split; reflexivity.
Qed.

Lemma main_loop_tally es : respects tally (main_loop es).
Proof.
  apply (main_loop_respects_001 tally tally_refl tally_trans).
  intros e _. apply loop_body_tally.
Qed.

(** ** Cancelled alarms and distance lines *)

Lemma settled_refl g : settled g g [].
Proof. reflexivity. Qed.

Lemma settled_trans g g1 g2 t1 t2 :
  settled g g1 t1 -> settled g1 g2 t2 -> settled g g2 (t1 ++ t2).
Proof.
  unfold settled. intros A B. rewrite !List.filter_app, !length_app. lia.
Qed.

Lemma handle_settled i g : settled g (fst (handle i g)) (snd (handle i g)).
Proof.
  unfold settled, completed.
  destruct g as [st t0 t1 id run buf idx].
  destruct i as [gpio events tr tf | id']; simpl.
  - unfold echo_callback. simpl.
    destruct (gpio =? ECHO_PIN); [|reflexivity].
    destruct (negb (Z.land events GPIO_IRQ_EDGE_RISE =? 0)),
             (negb (Z.land events GPIO_IRQ_EDGE_FALL =? 0)), st;
      reflexivity.
  - destruct st; reflexivity.
Qed.

Lemma console_quiet_001 c g skip g' t :
  console c g = Ok (skip, g', t) ->
  List.filter is_cancel t = [] /\ List.filter is_distance t = [].
Proof.
  unfold console. intros H. mrun H.
  all: inversion H; subst; clear H; split; reflexivity.
Qed.

Lemma console_or_not_settled oc :
  respects settled (match oc with
                    | Some c => console c
                    | None => ret false
                    end).
Proof.
  intros g skip g' t H. destruct oc as [c|].
  - destruct (console_quiet_001 _ _ _ _ _ H) as [A B].
    destruct (console_frame_001 _ _ _ _ _ H) as (S & _).
    unfold settled, completed. now rewrite A, B, S.
  - ok_inv H. reflexivity.
Qed.

Lemma start_measurement_settled e : respects settled (start_measurement e).
Proof.
  intros g [] g' t H.
  destruct (system_running g && state_eqb (current_state g) STATE_IDLE)
    eqn:C.
  - apply andb_true_iff in C as [Hr Hs]. apply state_eqb_spec_001 in Hs.
    rewrite start_measurement_fires_001 in H by assumption. ok_inv H.
    unfold settled, completed. rewrite Hs. reflexivity.
  - rewrite start_measurement_skips_001 in H by assumption. ok_inv H.
    reflexivity.
Qed.

Lemma report_settled e : respects settled (report e).
Proof.
  intros g [] g' t H.
  assert (List.filter is_cancel (snd (spacing e g)) = [] /\
          List.filter is_distance (snd (spacing e g)) = []) as [Sc Sd]
    by (unfold spacing; now destruct (system_running g)).
  destruct (current_state g) eqn:E.
  - rewrite report_none_001 in H by auto. ok_inv H. reflexivity.
  - rewrite report_none_001 in H by auto. ok_inv H. reflexivity.
  - rewrite report_complete_001 in H by auto. ok_inv H.
    unfold settled, completed. simpl.
    rewrite Sc, Sd, E, spacing_state_001. reflexivity.
  - rewrite report_error_001 in H by auto. ok_inv H.
    unfold settled, completed. simpl.
    rewrite Sc, Sd, E, spacing_state_001. reflexivity.
Qed.

Lemma main_loop_settled es : respects settled (main_loop es).
Proof.
  apply (main_loop_respects_001 settled settled_refl settled_trans).
  intros e _.
  apply (loop_body_respects_001 settled settled_refl settled_trans).
  - intros irqs.
    apply (preempt_respects_001 settled settled_refl settled_trans).
    apply handle_settled.
  - apply console_or_not_settled.
  - apply start_measurement_settled.
  - apply report_settled.
  - intros s. reflexivity.
Qed.

(** ** Empty lines *)

Lemma handle_all_app_001 a b g :
  handle_all (a ++ b) g
  = (fst (handle_all b (fst (handle_all a g))),
     snd (handle_all a g) ++ snd (handle_all b (fst (handle_all a g)))).
Proof.
  revert g. induction a as [|i a IH]; intros g.
  - simpl. now destruct (handle_all b g).
  - rewrite <- app_comm_cons, !handle_all_cons_001, IH. simpl.
    now rewrite app_assoc.
Qed.

Lemma loop_body_empty_line_001 e c g :
  in_char e = Some c -> c = 13 \/ c = 10 -> cmd_index g = 0 ->
  loop_body e g
  = Ok (tt, fst (handle_all (irq_getchar e) g),
        snd (handle_all (irq_getchar e) g) ++ [putchar c]).
Proof.
  intros Ec Hc Hi. unfold loop_body.
  unfold bind at 1. rewrite preempt_eq_001.
  unfold bind at 1. rewrite Ec.
  rewrite console_empty_line_001; [reflexivity | assumption |].
  now destruct (handle_all_frame_001 (irq_getchar e) g) as (_ & _ & -> & _).
Qed.

Lemma main_loop_empty_lines_001 es : forall g,
  Forall (fun e => in_char e = Some 13 \/ in_char e = Some 10) es ->
  cmd_index g = 0 ->
  exists t,
    main_loop es g
    = Ok (tt, fst (handle_all (flat_map irq_getchar es) g), t) /\
    List.filter (fun x => negb (is_cancel x || is_putchar x)) t = [].
Proof.
  induction es as [|e es IH]; intros g Hes Hi.
  - exists []. auto.
  - apply Forall_cons in Hes as [He Hes].
    assert (exists c, in_char e = Some c /\ (c = 13 \/ c = 10))
      as (c & Ec & Hc) by (destruct He; eauto).
    pose proof (loop_body_empty_line_001 e c g Ec Hc Hi) as H1.
    destruct (IH (fst (handle_all (irq_getchar e) g)) Hes) as (t & H2 & F).
    { now destruct (handle_all_frame_001 (irq_getchar e) g)
        as (_ & _ & -> & _). }
    eexists. split.
    + simpl. unfold bind. rewrite H1, H2.
      rewrite handle_all_app_001. reflexivity.
    + rewrite !List.filter_app, F. simpl.
      rewrite cancels_filtered; auto using handle_all_trace_001.
Qed.

End run_facts_001.

(** * Command lines *)

Lemma c_str_zeros l k : c_str (l ++ replicate k 0) = c_str l.
Proof.
  induction l as [|c l IH]; simpl.
  - destruct k; reflexivity.
  - now rewrite IH.
Qed.

Lemma strcmp_cons c1 r1 c2 r2 :
  strcmp (c1 :: r1) (c2 :: r2) =
  if c1 =? c2 then (if c1 =? 0 then Ok 0 else strcmp r1 r2) else Ok (c1 - c2).
Proof. reflexivity. Qed.

Lemma c_str_cons c rest :
  c_str (c :: rest) = if c =? 0 then [] else c :: c_str rest.
Proof. reflexivity. Qed.

(** [strcmp] against a literal compares the C strings. *)
Lemma strcmp_c_str cs : forall b,
  Forall (fun c => c <> 0) cs -> In 0 b ->
  exists r, strcmp b (cs ++ [0]) = Ok r /\ (r = 0 <-> c_str b = cs).
Proof.
  induction cs as [|c2 cs IH]; intros [|c1 r1] Hcs Hb; try destruct Hb.
  - change ([] ++ [0]) with [0]. rewrite strcmp_cons, c_str_cons.
    destruct (Z.eqb_spec c1 0) as [->|N].
    + exists 0. split; [reflexivity|]. tauto.
    + exists (c1 - 0). split; [reflexivity|].
      split; [lia | discriminate].
  - change ([] ++ [0]) with [0]. rewrite strcmp_cons, c_str_cons.
    destruct (Z.eqb_spec c1 0) as [->|N].
    + exists 0. split; [reflexivity|]. tauto.
    + exists (c1 - 0). split; [reflexivity|].
      split; [lia | discriminate].
  - subst c1. apply Forall_cons in Hcs as [H2 Hcs].
    change ((c2 :: cs) ++ [0]) with (c2 :: (cs ++ [0])).
    rewrite strcmp_cons, c_str_cons.
    destruct (Z.eqb_spec 0 c2) as [E|N]; [congruence|].
    exists (0 - c2). split; [reflexivity|].
    change (0 =? 0) with true. cbv iota. split; [lia | discriminate].
  - apply Forall_cons in Hcs as [H2 Hcs].
    change ((c2 :: cs) ++ [0]) with (c2 :: (cs ++ [0])).
    rewrite strcmp_cons, c_str_cons.
    destruct (Z.eqb_spec c1 c2) as [->|N].
    + destruct (Z.eqb_spec c2 0) as [E0|N0]; [congruence|].
      destruct (IH r1 Hcs H) as (r & Hr & Hiff).
      exists r. split; [exact Hr|]. rewrite Hiff.
      split; [now intros -> | now intros [= ->]].
    + exists (c1 - c2). split; [reflexivity|].
      split; [lia|]. destruct (c1 =? 0); [discriminate | congruence].
Qed.

Lemma chars_nonzero s :
  forallb (fun c => negb (c =? 0)) (chars s) = true ->
  Forall (fun c => c <> 0) (chars s).
Proof.
  intros H. apply Forall_forall. intros c Hc.
  rewrite forallb_forall in H. specialize (H c).
  rewrite <- list_elem_of_In in H. specialize (H Hc).
  apply negb_true_iff, Z.eqb_neq in H. exact H.
Qed.

Lemma strcmp_literal_c_str b s :
  forallb (fun c => negb (c =? 0)) (chars s) = true -> In 0 b ->
  exists r, strcmp b (literal s) = Ok r /\
            (r =? 0) = bool_decide (c_str b = chars s).
Proof.
  intros Hs Hb.
  destruct (strcmp_c_str (chars s) b (chars_nonzero s Hs) Hb) as (r & Hr & Hiff).
  exists r. split; [exact Hr|].
  destruct (r =? 0) eqn:E.
  - apply Z.eqb_eq in E. symmetry. apply bool_decide_eq_true. tauto.
  - apply Z.eqb_neq in E. symmetry. apply bool_decide_eq_false. tauto.
Qed.

Section typed.
Variable size : nat.
Hypothesis size_pos : (1 <= size)%nat.

Lemma typed_buffer_length cs : length (typed_buffer size cs) = size.
Proof.
  unfold typed_buffer. rewrite length_app, length_replicate.
  pose proof (firstn_le_length (size - 1) (List.map to_char cs)). lia.
Qed.

Lemma typed_buffer_nil : typed_buffer size [] = replicate size 0.
Proof.
  unfold typed_buffer. simpl. rewrite take_nil. simpl.
  now rewrite Nat.sub_0_r.
Qed.

Lemma typed_buffer_snoc p c :
  (length p < size - 1)%nat ->
  <[length p := to_char c]> (typed_buffer size p) = typed_buffer size (p ++ [c]).
Proof.
  intros H. unfold typed_buffer.
  rewrite List.map_app. simpl.
  rewrite !take_ge by (rewrite ?length_app, !length_map; simpl; lia).
  rewrite length_app, !length_map. simpl.
  rewrite insert_app_r_alt by (rewrite length_map; lia).
  rewrite length_map, Nat.sub_diag.
  replace (size - length p)%nat with (S (size - (length p + 1))) by lia.
  simpl. now rewrite <- app_assoc.
Qed.

Lemma typed_buffer_full p c :
  (size - 1 <= length p)%nat ->
  typed_buffer size (p ++ [c]) = typed_buffer size p.
Proof.
  intros H. unfold typed_buffer.
  rewrite List.map_app, take_app_le by (rewrite length_map; lia).
  reflexivity.
Qed.

Lemma typed_buffer_tail p (i : nat) :
  (Nat.min (length p) (size - 1) <= i < size)%nat ->
  typed_buffer size p !! i = Some 0.
Proof.
  intros H. unfold typed_buffer.
  assert (length (take (size - 1) (List.map to_char p))
          = Nat.min (length p) (size - 1)) as L
    by (rewrite length_take, length_map; lia).
  rewrite lookup_app_r by lia.
  apply lookup_replicate_2. lia.
Qed.

Lemma typed_buffer_terminated p :
  <[Nat.min (length p) (size - 1) := 0]> (typed_buffer size p)
  = typed_buffer size p.
Proof. apply list_insert_id, typed_buffer_tail. lia. Qed.

Lemma typed_buffer_has_nul p : In 0 (typed_buffer size p).
Proof.
  apply list_elem_of_In, list_elem_of_lookup.
  exists (size - 1)%nat. apply typed_buffer_tail. lia.
Qed.
End typed.

(** * part_001: the console *)

Module console_facts_001.
Import part_001 obs_001 facts_001 run_001 run_facts_001.

Lemma console_char_001 c g p :
  c <> 13 -> c <> 10 ->
  cmd_buffer g = typed_buffer 64 p ->
  cmd_index g = Z.of_nat (Nat.min (length p) 63) ->
  exists g',
    console c g = Ok (false, g', [putchar c]) /\
    system_running g' = system_running g /\
    cmd_buffer g' = typed_buffer 64 (p ++ [c]) /\
    cmd_index g' = Z.of_nat (Nat.min (length (p ++ [c])) 63) /\
    same_measurement g g'.
Proof.
  intros H13 H10 Hb Hi.
  apply Z.eqb_neq in H13, H10.
  unfold console, bind, ret, fetch, modify, emit, lift.
  cbv beta iota zeta. rewrite H13, H10. cbv beta iota zeta delta [orb].
  unfold CMD_BUFFER_SIZE. rewrite length_app. simpl (length [c]).
  destruct (Nat.lt_ge_cases (length p) 63) as [L|L].
  - rewrite Nat.min_l in Hi by lia.
    replace (cmd_index g <? 64 - 1) with true
      by (symmetry; apply Z.ltb_lt; lia).
    rewrite store_ok
      by (rewrite Hb, typed_buffer_length by lia; lia).
    cbv beta iota zeta. eexists. split; [reflexivity|].
    simpl. rewrite Hi, Hb, Nat2Z.id.
    rewrite typed_buffer_snoc by lia.
    repeat split. lia.
  - rewrite Nat.min_r in Hi by lia.
    replace (cmd_index g <? 64 - 1) with false
      by (symmetry; apply Z.ltb_ge; lia).
    exists g. split; [reflexivity|].
    rewrite typed_buffer_full by lia.
    repeat split; auto. rewrite Hi. lia.
Qed.

Lemma literals_nonzero_001 :
  forallb (fun c => negb (c =? 0)) (chars "start") = true /\
  forallb (fun c => negb (c =? 0)) (chars "stop") = true.
Proof. split; reflexivity. Qed.

Lemma console_enter_001 nl g p :
  nl = 13 \/ nl = 10 ->
  p <> [] ->
  cmd_buffer g = typed_buffer 64 p ->
  cmd_index g = Z.of_nat (Nat.min (length p) 63) ->
  exists g',
    console nl g =
      Ok (false, g',
          [putchar nl;
           printf (snd (command (system_running g) (typed_buffer 64 p)))]) /\
    console_view g'
    = (fst (command (system_running g) (typed_buffer 64 p)),
       replicate 64 0, 0) /\
    same_measurement g g'.
Proof.
  intros Hnl Hp Hb Hi.
  assert ((nl =? 13) || (nl =? 10) = true) as Hc
    by (destruct Hnl as [-> | ->]; reflexivity).
  assert ((cmd_index g =? 0) = false) as H0.
  { apply Z.eqb_neq. rewrite Hi. destruct p; [congruence|]. simpl. lia. }
  assert (store (cmd_buffer g) (cmd_index g) 0 = Ok (typed_buffer 64 p))
    as Hs.
  { rewrite store_ok by (rewrite Hb, typed_buffer_length by lia; lia).
    rewrite Hb, Hi, Nat2Z.id.
    now rewrite (typed_buffer_terminated 64) by lia. }
  destruct literals_nonzero_001 as [N1 N2].
  destruct (strcmp_literal_c_str (typed_buffer 64 p) "start" N1
              (typed_buffer_has_nul 64 ltac:(lia) p)) as (r1 & S1 & E1).
  destruct (strcmp_literal_c_str (typed_buffer 64 p) "stop" N2
              (typed_buffer_has_nul 64 ltac:(lia) p)) as (r2 & S2 & E2).
  unfold console, bind, ret, fetch, modify, emit, lift.
  cbv beta iota zeta. rewrite Hc, H0, Hs. cbv beta iota zeta.
  change (cmd_buffer (set_cmd_buffer (typed_buffer 64 p) g))
    with (typed_buffer 64 p).
  rewrite S1. cbv beta iota zeta. rewrite E1. unfold command.
  destruct (bool_decide (c_str (typed_buffer 64 p) = chars "start")).
  - eexists. split; [reflexivity|]. unfold console_view, memset0. simpl.
    rewrite (typed_buffer_length 64) by lia.
    split; [reflexivity|]. repeat split.
  - rewrite S2. cbv beta iota zeta. rewrite E2.
    destruct (bool_decide (c_str (typed_buffer 64 p) = chars "stop")).
    + eexists. split; [reflexivity|]. unfold console_view, memset0. simpl.
      rewrite (typed_buffer_length 64) by lia.
      split; [reflexivity|]. repeat split.
    + eexists. split; [reflexivity|]. unfold console_view, memset0. simpl.
      rewrite (typed_buffer_length 64) by lia.
      split; [reflexivity|]. repeat split.
Qed.

(** ** The other phases leave the console alone *)

Lemma beside_refl_001 g : beside_console g g [].
Proof. split; reflexivity. Qed.

Lemma beside_trans_001 g g1 g2 t1 t2 :
  beside_console g g1 t1 -> beside_console g1 g2 t2 ->
  beside_console g g2 (t1 ++ t2).
Proof.
  intros [A1 B1] [A2 B2]. split; [congruence|].
  now rewrite List.filter_app, B1, B2.
Qed.

Lemma view_frame g g' : same_console g g' -> console_view g' = console_view g.
Proof. intros (A & B & C & _). unfold console_view. congruence. Qed.

Lemma handle_beside i g :
  beside_console g (fst (handle i g)) (snd (handle i g)).
Proof.
  split; [apply view_frame, handle_frame_001|].
  apply cancels_filtered; auto using handle_trace_001.
Qed.

Lemma preempt_beside_001 irqs : respects beside_console (preempt irqs).
Proof.
  apply (preempt_respects_001 beside_console beside_refl_001 beside_trans_001).
  apply handle_beside.
Qed.

Lemma handle_all_view_001 irqs g :
  console_view (fst (handle_all irqs g)) = console_view g.
Proof. apply view_frame, handle_all_frame_001. Qed.

Lemma start_measurement_beside e :
  respects beside_console (start_measurement e).
Proof.
  intros g [] g' t H.
  destruct (system_running g && state_eqb (current_state g) STATE_IDLE)
    eqn:C.
  - apply andb_true_iff in C as [Hr Hs]. apply state_eqb_spec_001 in Hs.
    rewrite start_measurement_fires_001 in H by assumption. ok_inv H.
    split; [|reflexivity].
    rewrite <- (handle_all_view_001 (irq_pulse e) g). reflexivity.
  - rewrite start_measurement_skips_001 in H by assumption. ok_inv H.
    apply beside_refl_001.
Qed.

Lemma spacing_beside e g :
  console_view (fst (spacing e g)) = console_view g /\
  List.filter is_console (snd (spacing e g)) = [].
Proof.
  unfold spacing. destruct (system_running g); simpl; [|auto].
  split; [|reflexivity].
  now rewrite handle_all_view_001.
Qed.

Lemma report_beside e : respects beside_console (report e).
Proof.
  intros g [] g' t H.
  destruct (spacing_beside e g) as [Sv St].
  destruct (current_state g) eqn:E.
  - rewrite report_none_001 in H by auto. ok_inv H. apply beside_refl_001.
  - rewrite report_none_001 in H by auto. ok_inv H. apply beside_refl_001.
  - rewrite report_complete_001 in H by auto. ok_inv H.
    split; [exact Sv | simpl; exact St].
  - rewrite report_error_001 in H by auto. ok_inv H.
    split; [exact Sv | simpl; exact St].
Qed.

(** An iteration does to the console data what its console part does. *)
Lemma loop_body_console_001 e g g' t :
  loop_body e g = Ok (tt, g', t) ->
  exists skip gc tc,
    match in_char e with
    | Some c => console c
    | None => ret false
    end (fst (handle_all (irq_getchar e) g)) = Ok (skip, gc, tc) /\
    console_view g' = console_view gc /\
    List.filter is_console t = List.filter is_console tc.
Proof.
  intros H. unfold loop_body in H.
  apply bind_ok in H as (? & g1 & t1 & tr & H1 & H & ->).
  pose proof (preempt_beside_001 _ _ _ _ _ H1) as [_ F1].
  rewrite preempt_eq_001 in H1. ok_inv H1.
  apply bind_ok in H as (skip & gc & tc & tr' & Hc & H & ->).
  exists skip, gc, tc. split; [exact Hc|].
  assert (respects beside_console
            (if skip then ret tt
             else (start_measurement e ;; preempt (irq_armed e) ;;
                   report e ;; emit (sleep_ms 10) ;;
                   preempt (irq_poll e))%m)) as Hrest.
  { destruct skip.
    - apply respects_ret, beside_refl_001.
    - repeat (apply respects_bind; [apply beside_trans_001 | | intros _]).
      + apply start_measurement_beside.
      + apply preempt_beside_001.
      + apply report_beside.
      + apply respects_emit. intros s. split; reflexivity.
      + apply preempt_beside_001. }
  destruct (Hrest _ _ _ _ H) as [V F].
  split; [exact V|].
  rewrite !List.filter_app, F1, F, app_nil_r. reflexivity.
Qed.

Lemma view_buffer_ok_001 g g' :
  console_view g' = console_view g -> buffer_ok g -> buffer_ok g'.
Proof.
  unfold console_view, buffer_ok. intros [= A B C]. now rewrite B, C.
Qed.

Lemma main_loop_cons e es g g1 t1 g2 t2 :
  loop_body e g = Ok (tt, g1, t1) ->
  main_loop es g1 = Ok (tt, g2, t2) ->
  main_loop (e :: es) g = Ok (tt, g2, t1 ++ t2).
Proof. intros H1 H2. simpl. unfold bind. now rewrite H1, H2. Qed.

(** Iterations that receive no character. *)
Lemma idle_run_001 es : forall g,
  buffer_ok g -> omap in_char es = [] ->
  exists g' t,
    main_loop es g = Ok (tt, g', t) /\
    console_view g' = console_view g /\
    List.filter is_console t = [].
Proof.
  induction es as [|e es IH]; intros g Hb Hes.
  - exists g, []. auto.
  - simpl in Hes. destruct (in_char e) as [c|] eqn:Ec; [discriminate|].
    destruct (loop_body_safe_001 e g Hb) as (g1 & t1 & H1 & Hb1).
    destruct (loop_body_console_001 _ _ _ _ H1)
      as (skip & gc & tc & Hc & V & F).
    rewrite Ec in Hc. ok_inv Hc. rewrite handle_all_view_001 in V.
    destruct (IH g1 Hb1 Hes) as (g2 & t2 & H2 & V2 & F2).
    exists g2, (t1 ++ t2). split; [eapply main_loop_cons; eauto|].
    split; [congruence|]. now rewrite List.filter_app, F, F2.
Qed.

Lemma command_console r b : is_console (printf (snd (command r b))) = true.
Proof.
  unfold command.
  destruct (bool_decide _); [reflexivity|].
  destruct (bool_decide _); reflexivity.
Qed.

Lemma enter_console nl r b :
  List.filter is_console [putchar nl; printf (snd (command r b))]
  = [putchar nl; printf (snd (command r b))].
Proof.
  unfold command.
  destruct (bool_decide _); [reflexivity|].
  destruct (bool_decide _); reflexivity.
Qed.

Lemma typing_001 nl (Hnl : nl = 13 \/ nl = 10) es : forall p cs g,
  omap in_char es = cs ++ [nl] ->
  Forall (fun c => c <> 13 /\ c <> 10) cs ->
  p ++ cs <> [] ->
  cmd_buffer g = typed_buffer 64 p ->
  cmd_index g = Z.of_nat (Nat.min (length p) 63) ->
  exists g' t,
    main_loop es g = Ok (tt, g', t) /\
    console_view g'
    = (fst (command (system_running g) (typed_buffer 64 (p ++ cs))),
       replicate 64 0, 0) /\
    List.filter is_console t
    = List.map putchar (cs ++ [nl])
      ++ [printf (snd (command (system_running g)
                         (typed_buffer 64 (p ++ cs))))].
Proof.
  induction es as [|e es IH]; intros p cs g Hes Hcs Hne Hb Hi.
  - destruct cs; discriminate Hes.
  - assert (buffer_ok g) as Hok.
    { split; [rewrite Hb, typed_buffer_length by lia; reflexivity|].
      unfold CMD_BUFFER_SIZE. lia. }
    destruct (loop_body_safe_001 e g Hok) as (g1 & t1 & H1 & Hb1).
    destruct (loop_body_console_001 _ _ _ _ H1)
      as (skip & gc & tc & Hc & V & F).
    pose proof (handle_all_view_001 (irq_getchar e) g) as V0.
    set (g0 := fst (handle_all (irq_getchar e) g)) in *.
    assert (system_running g0 = system_running g /\
            cmd_buffer g0 = cmd_buffer g /\ cmd_index g0 = cmd_index g)
      as (R0 & B0 & I0) by (unfold console_view in V0; now inversion V0).
    simpl in Hes. destruct (in_char e) as [c|] eqn:Ec.
    + destruct cs as [|c' cs'].
      * injection Hes as -> Hes.
        rewrite app_nil_r in Hne |- *.
        destruct (console_enter_001 nl g0 p Hnl Hne) as (gc' & Hc' & V' & _);
          [congruence | congruence |].
        rewrite Hc' in Hc. ok_inv Hc.
        destruct (idle_run_001 es g1 Hb1 Hes) as (g2 & t2 & H2 & V2 & F2).
        exists g2, (t1 ++ t2). split; [eapply main_loop_cons; eauto|].
        rewrite <- R0. split; [congruence|].
        rewrite List.filter_app, F, F2, app_nil_r, enter_console.
        reflexivity.
      * injection Hes as -> Hes.
        apply Forall_cons in Hcs as [[N13 N10] Hcs].
        destruct (console_char_001 c' g0 p N13 N10)
          as (gc' & Hc' & R' & B' & I' & _); [congruence | congruence |].
        rewrite Hc' in Hc. ok_inv Hc.
        assert (system_running g1 = system_running g /\
                cmd_buffer g1 = cmd_buffer gc /\
                cmd_index g1 = cmd_index gc)
          as (R1 & B1 & I1)
          by (unfold console_view in V; inversion V; repeat split; congruence).
        destruct (IH (p ++ [c']) cs' g1 Hes Hcs) as (g2 & t2 & H2 & V2 & F2).
        { destruct p; discriminate. }
        { congruence. }
        { congruence. }
        exists g2, (t1 ++ t2). split; [eapply main_loop_cons; eauto|].
        rewrite <- app_assoc in V2, F2. simpl in V2, F2.
        rewrite R1 in V2, F2. split; [exact V2|].
        rewrite List.filter_app, F, F2. reflexivity.
    + ok_inv Hc.
      assert (system_running g1 = system_running g /\
              cmd_buffer g1 = cmd_buffer g /\
              cmd_index g1 = cmd_index g)
        as (R1 & B1 & I1)
        by (unfold console_view in V; inversion V; repeat split; congruence).
      destruct (IH p cs g1 Hes Hcs Hne) as (g2 & t2 & H2 & V2 & F2);
        [congruence | congruence |].
      exists g2, (t1 ++ t2). split; [eapply main_loop_cons; eauto|].
      rewrite R1 in V2, F2. split; [exact V2|].
      rewrite List.filter_app, F, F2. reflexivity.
Qed.

(** ** The echo *)

Lemma console_echo_001 c g skip g' t :
  console c g = Ok (skip, g', t) -> List.filter is_putchar t = [putchar c].
Proof.
  unfold console. intros H. mrun H.
  all: inversion H; subst; clear H; reflexivity.
Qed.

Lemma putchar_console t :
  List.filter is_putchar (List.filter is_console t) = List.filter is_putchar t.
Proof.
  induction t as [|e t IH]; [reflexivity|].
  destruct e as [| | | | | |c|l]; simpl; auto.
  - now rewrite IH.
  - destruct l; simpl; auto.
Qed.

Lemma main_loop_echo_001 es : forall g g' t,
  main_loop es g = Ok (tt, g', t) ->
  List.filter is_putchar t = List.map putchar (omap in_char es).
Proof.
  induction es as [|e es IH]; intros g g' t H; simpl in H.
  - ok_inv H. reflexivity.
  - apply bind_ok in H as ([] & g1 & t1 & t2 & H1 & H2 & ->).
    destruct (loop_body_console_001 _ _ _ _ H1)
      as (skip & gc & tc & Hc & V & F).
    rewrite List.filter_app, (IH _ _ _ H2), <- (putchar_console t1), F,
      putchar_console.
    simpl. destruct (in_char e) as [c|].
    + now rewrite (console_echo_001 _ _ _ _ _ Hc).
    + ok_inv Hc. reflexivity.
Qed.

(** ** The run flag *)

Lemma console_running_001 c g skip g' t :
  c <> 13 -> c <> 10 ->
  console c g = Ok (skip, g', t) -> system_running g' = system_running g.
Proof.
  intros H13 H10. apply Z.eqb_neq in H13, H10.
  unfold console. rewrite H13, H10. cbv beta iota delta [orb].
  intros H. mrun H.
  all: inversion H; subst; clear H; reflexivity.
Qed.

Lemma main_loop_running_001 es : forall g g' t,
  Forall (fun e => in_char e <> Some 13 /\ in_char e <> Some 10) es ->
  main_loop es g = Ok (tt, g', t) ->
  system_running g' = system_running g.
Proof.
  induction es as [|e es IH]; intros g g' t Hes H; simpl in H.
  - ok_inv H. reflexivity.
  - apply Forall_cons in Hes as [[N13 N10] Hes].
    apply bind_ok in H as ([] & g1 & t1 & t2 & H1 & H2 & ->).
    destruct (loop_body_console_001 _ _ _ _ H1)
      as (skip & gc & tc & Hc & V & F).
    rewrite (IH _ _ _ Hes H2).
    pose proof (handle_all_view_001 (irq_getchar e) g) as V0.
    unfold console_view in V, V0.
    transitivity (system_running gc); [congruence|].
    transitivity (system_running (fst (handle_all (irq_getchar e) g)));
      [|congruence].
    destruct (in_char e) as [c|].
    + eapply console_running_001; [| |exact Hc]; congruence.
    + now ok_inv Hc.
Qed.

(** ** The cells behind the index *)

Lemma console_tail_zero_001 c g skip g' t :
  buffer_ok g -> tail_zero g ->
  console c g = Ok (skip, g', t) -> tail_zero g'.
Proof.
  intros [Hl Hi] Hz H. unfold console in H. mrun H.
  all: inversion H; subst; clear H; try exact Hz.
  all: unfold tail_zero; simpl; intros i Hi'.
  all: repeat match goal with
         | E : store _ _ _ = Ok _ |- _ =>
             apply store_inv in E; destruct E as [? ->]
         end.
  1-3: unfold memset0 in *; rewrite length_replicate in Hi';
    apply lookup_replicate_2; lia.
  rewrite length_insert in Hi'.
  rewrite list_lookup_insert_ne by lia.
  apply Hz. lia.
Qed.

Lemma view_tail_zero_001 g g' :
  console_view g' = console_view g -> tail_zero g -> tail_zero g'.
Proof.
  unfold console_view, tail_zero. intros [= A B C]. now rewrite B, C.
Qed.

Lemma loop_body_tail_zero_001 e g g' t :
  buffer_ok g -> tail_zero g ->
  loop_body e g = Ok (tt, g', t) -> tail_zero g'.
Proof.
  intros Hb Hz H.
  destruct (loop_body_console_001 _ _ _ _ H)
    as (skip & gc & tc & Hc & V & F).
  pose proof (handle_all_view_001 (irq_getchar e) g) as V0.
  apply (view_tail_zero_001 gc); [exact V|].
  destruct (in_char e) as [c|].
  - eapply console_tail_zero_001; [| |exact Hc].
    + eapply view_buffer_ok_001; eauto.
    + eapply view_tail_zero_001; eauto.
  - ok_inv Hc. eapply view_tail_zero_001; eauto.
Qed.

Lemma main_loop_tail_zero_001 es : forall g,
  buffer_ok g -> tail_zero g ->
  exists g' t,
    main_loop es g = Ok (tt, g', t) /\ buffer_ok g' /\ tail_zero g'.
Proof.
  induction es as [|e es IH]; intros g Hb Hz.
  - exists g, []. auto.
  - destruct (loop_body_safe_001 e g Hb) as (g1 & t1 & H1 & Hb1).
    pose proof (loop_body_tail_zero_001 _ _ _ _ Hb Hz H1) as Hz1.
    destruct (IH g1 Hb1 Hz1) as (g2 & t2 & H2 & Hb2 & Hz2).
    exists g2, (t1 ++ t2). split; [eapply main_loop_cons; eauto | auto].
Qed.

Lemma terminator_in_place_001 g :
  buffer_ok g -> tail_zero g ->
  store (cmd_buffer g) (cmd_index g) 0 = Ok (cmd_buffer g).
Proof.
  intros [Hl Hi] Hz. unfold CMD_BUFFER_SIZE in *.
  rewrite store_ok by lia. f_equal.
  apply list_insert_id, Hz. lia.
Qed.

End console_facts_001.

(** * main.c: whole runs *)

Module run_facts_main.
Import main_c obs_main facts_main run_main.

Section phases.
Context (R : state -> state -> list effect -> Prop).
Hypothesis R_refl : forall s, R s s [].
Hypothesis R_trans : forall s s1 s2 t1 t2,
  R s s1 t1 -> R s1 s2 t2 -> R s s2 (t1 ++ t2).

Lemma preempt_respects_main irqs :
  (forall i m, R m (fst (handle i m)) (snd (handle i m))) ->
  respects R (preempt irqs).
Proof.
  intros Hh m x m' t H. rewrite preempt_eq_main in H. ok_inv H.
  revert m. induction irqs as [|i rest IH]; intros m.
  - apply R_refl.
  - rewrite handle_all_cons_main. simpl.
    eapply R_trans; [apply Hh | apply IH].
Qed.

Lemma loop_body_respects_main e :
  (forall irqs, respects R (preempt irqs)) ->
  respects R (match in_char e with
              | Some ch => console ch
              | None => ret tt
              end) ->
  respects R (measure e) ->
  (forall s, R s s [sleep_ms 10]) ->
  respects R (loop_body e).
Proof.
  intros Hp Hc Hm Hz. unfold loop_body.
  apply respects_bind; [assumption | apply Hp |]. intros _.
  apply respects_bind; [assumption | apply Hc |]. intros _.
  apply respects_bind; [assumption | apply Hm |]. intros _.
  apply respects_bind; [assumption | | intros _; apply Hp].
  apply respects_emit. apply Hz.
Qed.

Lemma main_loop_respects_main es :
  (forall e, In e es -> respects R (loop_body e)) ->
  respects R (main_loop es).
Proof.
  induction es as [|e es IH]; intros H; simpl.
  - apply respects_ret; assumption.
  - apply respects_bind; [assumption | apply H; now left |].
    intros _. apply IH. intros e' He'. apply H. now right.
Qed.
End phases.

(** ** The measurement block, case by case *)

Lemma measure_skips_main e m :
  reading_active m
  && (1000 * 1000 <=? absolute_time_diff_us (last_measurement m) (t_check e))
  = false ->
  measure e m = Ok (tt, m, []).
Proof.
  intros H. unfold measure, bind, fetch, ret. cbv beta iota zeta.
  now rewrite H.
Qed.

Lemma wait_loop_trace_main ms ts : forall m m' t,
  wait_loop ms ts m = Ok (tt, m', t) ->
  forallb (fun x => is_tick x || is_cancel x) t = true.
Proof.
  induction ts as [|[irqs now] rest IH]; intros m m' t H; simpl in H.
  - mrun H. ok_inv H. reflexivity.
  - unfold bind, fetch, ret, emit in H. cbv beta iota zeta in H.
    destruct (negb (action_completed (sensor_state m))
              && negb (timer_fired (sensor_state m))).
    2:{ ok_inv H. reflexivity. }
    rewrite preempt_eq_main in H.
    assert (forallb (fun x => is_tick x || is_cancel x)
              (snd (handle_all irqs m)) = true) as T.
    { pose proof (handle_all_trace_main irqs m) as T.
      rewrite forallb_forall in T |- *. intros x Hx.
      rewrite (T x Hx). apply orb_true_r. }
    destruct (absolute_time_diff_us ms now >? 1000000).
    + ok_inv H. simpl. rewrite !app_nil_r. exact T.
    + destruct (wait_loop ms rest (fst (handle_all irqs m)))
        as [[[[] m2] t2]|] eqn:W; [|discriminate H].
      ok_inv H. simpl. rewrite forallb_app, T. simpl. eapply IH; eauto.
Qed.

Lemma ticks_filtered (f : effect -> bool) t :
  f (sleep_ms 1) = false -> (forall id, f (cancel_alarm id) = false) ->
  forallb (fun x => is_tick x || is_cancel x) t = true ->
  List.filter f t = [].
Proof.
  intros F1 F2. induction t as [|x t IH]; [reflexivity|].
  simpl. intros H. apply andb_true_iff in H as [Hx Ht].
  destruct x as [| |ms| | |id| |]; try discriminate Hx.
  - destruct ms as [|[| |]|]; try discriminate Hx. rewrite F1. auto.
  - rewrite F2. auto.
Qed.

(** ** The console of main.c *)

Lemma beside_refl_main m : beside_console m m [].
Proof. split; reflexivity. Qed.

Lemma beside_trans_main m m1 m2 t1 t2 :
  beside_console m m1 t1 -> beside_console m1 m2 t2 ->
  beside_console m m2 (t1 ++ t2).
Proof.
  intros [A1 B1] [A2 B2]. split; [congruence|].
  now rewrite List.filter_app, B1, B2.
Qed.

Lemma view_locals m m' : same_locals m m' -> console_view m' = console_view m.
Proof. intros (A & B & C). unfold console_view. congruence. Qed.

Lemma handle_all_view_main irqs m :
  console_view (fst (handle_all irqs m)) = console_view m.
Proof. apply view_locals, handle_all_locals_main. Qed.

Lemma preempt_beside_main irqs : respects beside_console (preempt irqs).
Proof.
  apply (preempt_respects_main beside_console beside_refl_main beside_trans_main).
  intros i m. split; [apply view_locals, handle_locals_main|].
  apply cancels_filtered; auto using handle_trace_main.
Qed.

Lemma result_not_console id s m :
  List.filter is_console
    [cancel_alarm id; printf (datetime_prefix s); printf (result_line m)]
  = [].
Proof.
  unfold result_line.
  destruct (action_completed (sensor_state m)); [reflexivity|].
  destruct (timer_fired (sensor_state m)); reflexivity.
Qed.

Lemma measure_beside e : respects beside_console (measure e).
Proof.
  intros m [] m' t H.
  split; [apply view_locals; eapply measure_locals_main; eauto|].
  destruct (reading_active m
            && (1000 * 1000 <=?
                absolute_time_diff_us (last_measurement m) (t_check e)))
    eqn:C.
  - apply andb_true_iff in C as [Hr Hd]. apply Z.leb_le in Hd.
    destruct (measure_inv_main _ _ _ _ Hr Hd H) as (m3 & tw & W & -> & ->).
    apply wait_loop_trace_main in W.
    rewrite !List.filter_app.
    rewrite (cancels_filtered is_console
               (snd (handle_all (irq_pulse e) (armed m))))
      by auto using handle_all_trace_main.
    rewrite (ticks_filtered is_console tw) by auto.
    rewrite result_not_console. reflexivity.
  - rewrite measure_skips_main in H by assumption. ok_inv H. reflexivity.
Qed.

(** An iteration does to the console data what its console part does. *)
Lemma loop_body_console_main e m m' t :
  loop_body e m = Ok (tt, m', t) ->
  exists mc tc,
    match in_char e with
    | Some ch => console ch
    | None => ret tt
    end (fst (handle_all (irq_getchar e) m)) = Ok (tt, mc, tc) /\
    console_view m' = console_view mc /\
    List.filter is_console t = List.filter is_console tc.
Proof.
  intros H. unfold loop_body in H.
  apply bind_ok in H as (? & m1 & t1 & tr & H1 & H & ->).
  pose proof (preempt_beside_main _ _ _ _ _ H1) as [_ F1].
  rewrite preempt_eq_main in H1. ok_inv H1.
  apply bind_ok in H as ([] & mc & tc & tr' & Hc & H & ->).
  exists mc, tc. split; [exact Hc|].
  assert (respects beside_console
            (measure e ;; emit (sleep_ms 10) ;; preempt (irq_poll e))%m)
    as Hrest.
  { repeat (apply respects_bind; [apply beside_trans_main | | intros _]).
    - apply measure_beside.
    - apply respects_emit. intros s. split; reflexivity.
    - apply preempt_beside_main. }
  destruct (Hrest _ _ _ _ H) as [V F].
  split; [exact V|].
  rewrite !List.filter_app, F1, F, app_nil_r. reflexivity.
Qed.

Lemma console_char_main ch m p :
  ch <> 10 -> ch <> 13 ->
  command m = typed_buffer 20 p ->
  cmd_index m = Z.of_nat (Nat.min (length p) 19) ->
  exists m',
    console ch m = Ok (tt, m', []) /\
    reading_active m' = reading_active m /\
    command m' = typed_buffer 20 (p ++ [ch]) /\
    cmd_index m' = Z.of_nat (Nat.min (length (p ++ [ch])) 19).
Proof.
  intros H10 H13 Hb Hi.
  apply Z.eqb_neq in H13, H10.
  unfold console, bind, ret, fetch, modify, emit, lift.
  cbv beta iota zeta. rewrite H13, H10. cbv beta iota zeta delta [orb].
  unfold sizeof_command. rewrite length_app. simpl (length [ch]).
  destruct (Nat.lt_ge_cases (length p) 19) as [L|L].
  - rewrite Nat.min_l in Hi by lia.
    replace (cmd_index m <? 20 - 1) with true
      by (symmetry; apply Z.ltb_lt; lia).
    rewrite store_ok
      by (rewrite Hb, typed_buffer_length by lia; lia).
    cbv beta iota zeta. eexists. split; [reflexivity|].
    simpl. rewrite Hi, Hb, Nat2Z.id.
    rewrite typed_buffer_snoc by lia.
    repeat split. lia.
  - rewrite Nat.min_r in Hi by lia.
    replace (cmd_index m <? 20 - 1) with false
      by (symmetry; apply Z.ltb_ge; lia).
    exists m. split; [reflexivity|].
    rewrite typed_buffer_full by lia.
    repeat split; auto. rewrite Hi. lia.
Qed.

Lemma literals_nonzero_main :
  forallb (fun c => negb (c =? 0)) (chars "start") = true /\
  forallb (fun c => negb (c =? 0)) (chars "stop") = true.
Proof. split; reflexivity. Qed.

Lemma console_enter_main nl m p :
  nl = 10 \/ nl = 13 ->
  p <> [] ->
  command m = typed_buffer 20 p ->
  cmd_index m = Z.of_nat (Nat.min (length p) 19) ->
  exists m',
    console nl m =
      Ok (tt, m',
          [printf (snd (command_of (reading_active m) (typed_buffer 20 p)))])
    /\
    console_view m'
    = (fst (command_of (reading_active m) (typed_buffer 20 p)),
       replicate 20 0, 0).
Proof.
  intros Hnl Hp Hb Hi.
  assert ((nl =? 10) || (nl =? 13) = true) as Hc
    by (destruct Hnl as [-> | ->]; reflexivity).
  assert ((0 <? cmd_index m) = true) as H0.
  { apply Z.ltb_lt. rewrite Hi. destruct p; [congruence|]. simpl. lia. }
  assert (store (command m) (cmd_index m) 0 = Ok (typed_buffer 20 p))
    as Hs.
  { rewrite store_ok by (rewrite Hb, typed_buffer_length by lia; lia).
    rewrite Hb, Hi, Nat2Z.id.
    now rewrite (typed_buffer_terminated 20) by lia. }
  destruct literals_nonzero_main as [N1 N2].
  destruct (strcmp_literal_c_str (typed_buffer 20 p) "start" N1
              (typed_buffer_has_nul 20 ltac:(lia) p)) as (r1 & S1 & E1).
  destruct (strcmp_literal_c_str (typed_buffer 20 p) "stop" N2
              (typed_buffer_has_nul 20 ltac:(lia) p)) as (r2 & S2 & E2).
  unfold console, bind, ret, fetch, modify, emit, lift.
  cbv beta iota zeta. rewrite Hc, H0, Hs. cbv beta iota zeta.
  change (command (set_command (typed_buffer 20 p) m))
    with (typed_buffer 20 p).
  rewrite S1. cbv beta iota zeta. rewrite E1. unfold command_of.
  destruct (bool_decide (c_str (typed_buffer 20 p) = chars "start")).
  - eexists. split; [reflexivity|]. unfold console_view, memset0. simpl.
    rewrite (typed_buffer_length 20) by lia. reflexivity.
  - rewrite S2. cbv beta iota zeta. rewrite E2.
    destruct (bool_decide (c_str (typed_buffer 20 p) = chars "stop")).
    + eexists. split; [reflexivity|]. unfold console_view, memset0. simpl.
      rewrite (typed_buffer_length 20) by lia. reflexivity.
    + eexists. split; [reflexivity|]. unfold console_view, memset0. simpl.
      rewrite (typed_buffer_length 20) by lia. reflexivity.
Qed.

Lemma idle_run_main es : forall m m' t,
  omap in_char es = [] ->
  main_loop es m = Ok (tt, m', t) ->
  console_view m' = console_view m /\ List.filter is_console t = [].
Proof.
  induction es as [|e es IH]; intros m m' t Hes H; simpl in H.
  - ok_inv H. auto.
  - simpl in Hes. destruct (in_char e) as [c|] eqn:Ec; [discriminate|].
    apply bind_ok in H as ([] & m1 & t1 & t2 & H1 & H2 & ->).
    destruct (loop_body_console_main _ _ _ _ H1) as (mc & tc & Hc & V & F).
    rewrite Ec in Hc. ok_inv Hc. rewrite handle_all_view_main in V.
    destruct (IH _ _ _ Hes H2) as (V2 & F2).
    split; [congruence|]. now rewrite List.filter_app, F, F2.
Qed.

Lemma reply_console r b :
  List.filter is_console [printf (snd (command_of r b))]
  = [printf (snd (command_of r b))].
Proof.
  unfold command_of.
  destruct (bool_decide _); [reflexivity|].
  destruct (bool_decide _); reflexivity.
Qed.

Lemma typing_main nl (Hnl : nl = 10 \/ nl = 13) es : forall p cs m m' t,
  omap in_char es = cs ++ [nl] ->
  Forall (fun c => c <> 10 /\ c <> 13) cs ->
  p ++ cs <> [] ->
  command m = typed_buffer 20 p ->
  cmd_index m = Z.of_nat (Nat.min (length p) 19) ->
  main_loop es m = Ok (tt, m', t) ->
  console_view m'
  = (fst (command_of (reading_active m) (typed_buffer 20 (p ++ cs))),
     replicate 20 0, 0) /\
  List.filter is_console t
  = [printf (snd (command_of (reading_active m)
                    (typed_buffer 20 (p ++ cs))))].
Proof.
  induction es as [|e es IH]; intros p cs m m' t Hes Hcs Hne Hb Hi H.
  - destruct cs; discriminate Hes.
  - simpl in H.
    apply bind_ok in H as ([] & m1 & t1 & t2 & H1 & H2 & ->).
    destruct (loop_body_console_main _ _ _ _ H1) as (mc & tc & Hc & V & F).
    pose proof (handle_all_view_main (irq_getchar e) m) as V0.
    set (m0 := fst (handle_all (irq_getchar e) m)) in *.
    assert (reading_active m0 = reading_active m /\
            command m0 = command m /\ cmd_index m0 = cmd_index m)
      as (R0 & B0 & I0) by (unfold console_view in V0; now inversion V0).
    simpl in Hes. destruct (in_char e) as [c|] eqn:Ec.
    + destruct cs as [|c' cs'].
      * injection Hes as -> Hes.
        rewrite app_nil_r in Hne |- *.
        destruct (console_enter_main nl m0 p Hnl Hne) as (mc' & Hc' & V');
          [congruence | congruence |].
        rewrite Hc' in Hc. ok_inv Hc.
        destruct (idle_run_main es m1 m' t2 Hes H2) as (V2 & F2).
        rewrite <- R0. split; [congruence|].
        rewrite List.filter_app, F, F2, app_nil_r, reply_console.
        reflexivity.
      * injection Hes as -> Hes.
        apply Forall_cons in Hcs as [[N10 N13] Hcs].
        destruct (console_char_main c' m0 p N10 N13)
          as (mc' & Hc' & R' & B' & I'); [congruence | congruence |].
        rewrite Hc' in Hc. ok_inv Hc.
        assert (reading_active m1 = reading_active m /\
                command m1 = command mc /\
                cmd_index m1 = cmd_index mc)
          as (R1 & B1 & I1)
          by (unfold console_view in V; inversion V; repeat split;
              congruence).
        destruct (IH (p ++ [c']) cs' m1 m' t2 Hes Hcs) as (V2 & F2).
        { destruct p; discriminate. }
        { congruence. }
        { congruence. }
        { exact H2. }
        rewrite <- app_assoc in V2, F2. simpl in V2, F2.
        rewrite R1 in V2, F2. split; [exact V2|].
        rewrite List.filter_app, F, F2. reflexivity.
    + ok_inv Hc.
      assert (reading_active m1 = reading_active m /\
              command m1 = command m /\
              cmd_index m1 = cmd_index m)
        as (R1 & B1 & I1)
        by (unfold console_view in V; inversion V; repeat split;
            congruence).
      destruct (IH p cs m1 m' t2 Hes Hcs Hne) as (V2 & F2);
        [congruence | congruence | exact H2 |].
      rewrite R1 in V2, F2. split; [exact V2|].
      rewrite List.filter_app, F, F2. reflexivity.
Qed.

(** ** Pulses, alarms and lines *)

Lemma measured_refl m : measured m m [].
Proof. exists []. repeat split; auto. Qed.

Lemma measured_trans m m1 m2 t1 t2 :
  measured m m1 t1 -> measured m1 m2 t2 -> measured m m2 (t1 ++ t2).
Proof.
  intros (r1 & A1 & B1 & C1 & D1) (r2 & A2 & B2 & C2 & D2).
  exists (r1 ++ r2).
  rewrite !List.filter_app, !length_app, replicate_add, concat_app,
    List.flat_map_app, A1, A2, B1, B2.
  repeat split; auto. - now apply Forall_app. - lia.
Qed.

Lemma quiet_measured m m' t :
  List.filter is_trigger t = [] ->
  List.filter is_measurement_line t = [] -> measured m m' t.
Proof.
  intros A B. exists []. rewrite A, B. repeat split; auto. simpl. lia.
Qed.

Lemma console_quiet_main ch m m' t :
  console ch m = Ok (tt, m', t) ->
  List.filter is_trigger t = [] /\
  List.filter is_measurement_line t = [] /\
  List.filter is_result t = [] /\
  last_measurement m' = last_measurement m.
Proof.
  unfold console. intros H. mrun H.
  all: inversion H; subst; clear H; repeat split; reflexivity.
Qed.

Lemma result_line_is_result m : is_result (printf (result_line m)) = true.
Proof.
  unfold result_line.
  destruct (action_completed (sensor_state m)); [reflexivity|].
  destruct (timer_fired (sensor_state m)); reflexivity.
Qed.

Lemma result_lines id s m :
  List.filter is_measurement_line
    [cancel_alarm id; printf (datetime_prefix s); printf (result_line m)]
  = [printf (datetime_prefix s); printf (result_line m)] /\
  List.filter is_trigger
    [cancel_alarm id; printf (datetime_prefix s); printf (result_line m)]
  = [] /\
  List.filter is_result
    [cancel_alarm id; printf (datetime_prefix s); printf (result_line m)]
  = [printf (result_line m)].
Proof.
  unfold result_line.
  destruct (action_completed (sensor_state m)); [auto|].
  destruct (timer_fired (sensor_state m)); auto.
Qed.

Lemma measure_measured e : respects measured (measure e).
Proof.
  intros m [] m' t H.
  destruct (reading_active m
            && (1000 * 1000 <=?
                absolute_time_diff_us (last_measurement m) (t_check e)))
    eqn:C.
  - apply andb_true_iff in C as [Hr Hd]. apply Z.leb_le in Hd.
    destruct (measure_inv_main _ _ _ _ Hr Hd H) as (m3 & tw & W & -> & ->).
    apply wait_loop_trace_main in W.
    destruct (result_lines (alarm_id (sensor_state m3))
                (fmt_time (rtc_now e) ++ " - ")%string m3) as (L1 & L2 & _).
    exists [((fmt_time (rtc_now e) ++ " - ")%string, result_line m3)].
    rewrite !List.filter_app, L1, L2.
    rewrite !(cancels_filtered _
                (snd (handle_all (irq_pulse e) (armed m))))
      by auto using handle_all_trace_main.
    rewrite !(ticks_filtered _ tw) by auto.
    repeat split.
    + constructor; [apply result_line_is_result | constructor].
    + rewrite !length_app. simpl. lia.
  - rewrite measure_skips_main in H by assumption. ok_inv H.
    apply measured_refl.
Qed.

Lemma main_loop_measured es : respects measured (main_loop es).
Proof.
  apply (main_loop_respects_main measured measured_refl measured_trans).
  intros e _.
  apply (loop_body_respects_main measured measured_trans).
  - intros irqs.
    apply (preempt_respects_main measured measured_refl measured_trans).
    intros i m. apply quiet_measured;
      apply cancels_filtered; auto using handle_trace_main.
  - intros m [] m' t H. destruct (in_char e) as [ch|].
    + apply console_quiet_main in H as (A & B & _).
      now apply quiet_measured.
    + ok_inv H. apply measured_refl.
  - apply measure_measured.
  - intros s. now apply quiet_measured.
Qed.

(** ** The interval between measurements *)

Lemma last_kept_refl m : last_kept m m [].
Proof. intros _. reflexivity. Qed.

Lemma last_kept_trans m m1 m2 t1 t2 :
  last_kept m m1 t1 -> last_kept m1 m2 t2 -> last_kept m m2 (t1 ++ t2).
Proof.
  unfold last_kept. intros A B H. rewrite List.filter_app in H.
  apply app_eq_nil in H as [H1 H2]. rewrite B, A; auto.
Qed.

Lemma handle_last i m :
  last_measurement (fst (handle i m)) = last_measurement m.
Proof.
  destruct i as [gpio events t1 t2 | id]; simpl; [|reflexivity].
  now destruct (trigger_callback gpio events t1 t2 (sensor_state m)).
Qed.

Lemma handle_all_last irqs : forall m,
  last_measurement (fst (handle_all irqs m)) = last_measurement m.
Proof.
  induction irqs as [|i rest IH]; intros m; [reflexivity|].
  rewrite handle_all_cons_main. simpl. now rewrite IH, handle_last.
Qed.

Lemma console_or_not_quiet (oc : option Z) m m' t :
  match oc with
  | Some ch => console ch
  | None => ret tt
  end m = Ok (tt, m', t) ->
  List.filter is_result t = [] /\ last_measurement m' = last_measurement m.
Proof.
  destruct oc as [ch|]; intros H.
  - now apply console_quiet_main in H as (_ & _ & A & B).
  - ok_inv H. auto.
Qed.

Lemma loop_body_inv_main e m m' t :
  loop_body e m = Ok (tt, m', t) ->
  exists mc tc m2 t2,
    match in_char e with
    | Some ch => console ch
    | None => ret tt
    end (fst (handle_all (irq_getchar e) m)) = Ok (tt, mc, tc) /\
    measure e mc = Ok (tt, m2, t2) /\
    m' = fst (handle_all (irq_poll e) m2) /\
    t = snd (handle_all (irq_getchar e) m) ++ tc ++ t2 ++ [sleep_ms 10]
        ++ snd (handle_all (irq_poll e) m2).
Proof.
  intros H. unfold loop_body in H.
  apply bind_ok in H as (? & m1 & t1 & tr & H1 & H & ->).
  rewrite preempt_eq_main in H1. ok_inv H1.
  apply bind_ok in H as ([] & mc & tc & tr' & Hc & H & ->).
  apply bind_ok in H as ([] & m2 & t2 & tr2 & H2 & H & ->).
  apply bind_ok in H as (? & m3 & t3 & tr3 & H3 & H & ->).
  ok_inv H3. rewrite preempt_eq_main in H. ok_inv H.
  do 4 eexists. split; [eassumption|]. split; [eassumption|].
  split; reflexivity.
Qed.

(** An iteration that prints a result passed the interval test and
    stamped [last_measurement]. *)
Lemma loop_body_result_main e m m' t :
  loop_body e m = Ok (tt, m', t) ->
  List.filter is_result t <> [] ->
  1000 * 1000 <= absolute_time_diff_us (last_measurement m) (t_check e) /\
  last_measurement m' = t_done e.
Proof.
  intros H Hr.
  apply loop_body_inv_main in H as (mc & tc & m2 & t2 & Hc & Hm & -> & ->).
  apply console_or_not_quiet in Hc as (Fc & Lc).
  rewrite handle_all_last in Lc.
  rewrite !List.filter_app, Fc in Hr.
  rewrite (cancels_filtered is_result (snd (handle_all (irq_getchar e) m))),
    (cancels_filtered is_result (snd (handle_all (irq_poll e) m2)))
    in Hr by auto using handle_all_trace_main.
  simpl in Hr. rewrite ?app_nil_r in Hr.
  destruct (reading_active mc
            && (1000 * 1000 <=?
                absolute_time_diff_us (last_measurement mc) (t_check e)))
    eqn:C.
  - apply andb_true_iff in C as [Ha Hd]. apply Z.leb_le in Hd.
    destruct (measure_inv_main _ _ _ _ Ha Hd Hm) as (m3 & tw & W & -> & _).
    rewrite handle_all_last. simpl. split; [congruence | reflexivity].
  - rewrite measure_skips_main in Hm by assumption. ok_inv Hm.
    simpl in Hr. congruence.
Qed.

Lemma loop_body_last_kept e : respects last_kept (loop_body e).
Proof.
  apply (loop_body_respects_main last_kept last_kept_trans).
  - intros irqs.
    apply (preempt_respects_main last_kept last_kept_refl last_kept_trans).
    intros i m _. apply handle_last.
  - intros m [] m' t H _. now apply console_or_not_quiet in H.
  - intros m [] m' t H Hr.
    destruct (reading_active m
              && (1000 * 1000 <=?
                  absolute_time_diff_us (last_measurement m) (t_check e)))
      eqn:C.
    + apply andb_true_iff in C as [Ha Hd]. apply Z.leb_le in Hd.
      destruct (measure_trace_main _ _ _ _ Ha Hd H) as (_ & l & F & _).
      rewrite F in Hr. discriminate Hr.
    + rewrite measure_skips_main in H by assumption. now ok_inv H.
  - intros s _. reflexivity.
Qed.

Lemma main_loop_last_kept es : respects last_kept (main_loop es).
Proof.
  apply (main_loop_respects_main last_kept last_kept_refl last_kept_trans).
  intros e _. apply loop_body_last_kept.
Qed.

(** ** The wait loop *)

Lemma wait_loop_step ms irqs now rest m :
  wait_loop ms ((irqs, now) :: rest) m =
  if negb (action_completed (sensor_state m))
     && negb (timer_fired (sensor_state m))
  then
    if absolute_time_diff_us ms now >? 1000000
    then Ok (tt, fst (handle_all irqs m),
             sleep_ms 1 :: snd (handle_all irqs m))
    else
      match wait_loop ms rest (fst (handle_all irqs m)) with
      | Ok (_, m', t) =>
          Ok (tt, m', sleep_ms 1 :: snd (handle_all irqs m) ++ t)
      | Err err => Err err
      end
  else Ok (tt, m, []).
Proof.
  simpl. unfold bind, fetch, ret, emit. cbv beta iota zeta.
  destruct (negb _ && negb _); [|reflexivity].
  rewrite preempt_eq_main.
  destruct (absolute_time_diff_us ms now >? 1000000).
  - simpl. now rewrite app_nil_r.
  - now destruct (wait_loop ms rest (fst (handle_all irqs m)))
      as [[[[] m'] t]|].
Qed.

Lemma ticks_of_cancels t :
  forallb is_cancel t = true -> List.filter is_tick t = [].
Proof. intros H. apply cancels_filtered; auto. Qed.

(** The wait ends at the latest with the first clock reading more than
    one second after its start. *)
Lemma wait_loop_ends ms : forall ts (k : nat) irqs now m,
  ts !! k = Some (irqs, now) ->
  1000000 < absolute_time_diff_us ms now ->
  exists m' t,
    wait_loop ms ts m = Ok (tt, m', t) /\
    (length (List.filter is_tick t) <= S k)%nat.
Proof.
  induction ts as [|[i0 n0] rest IH]; intros k irqs now m Hk Hd;
    [discriminate Hk|].
  rewrite wait_loop_step.
  destruct (negb _ && negb _).
  2:{ exists m, []. split; [reflexivity | simpl; lia]. }
  destruct (absolute_time_diff_us ms n0 >? 1000000) eqn:E.
  - eexists _, _. split; [reflexivity|]. simpl.
    rewrite ticks_of_cancels by apply handle_all_trace_main. simpl. lia.
  - destruct k as [|k].
    + injection Hk as -> ->. rewrite Z.gtb_ltb in E.
      apply Z.ltb_ge in E. lia.
    + destruct (IH k irqs now (fst (handle_all i0 m)) Hk Hd)
        as (m' & t & -> & L).
      eexists _, _. split; [reflexivity|]. simpl.
      rewrite List.filter_app,
        ticks_of_cancels by apply handle_all_trace_main.
      simpl. lia.
Qed.

Lemma measure_ends e m (k : nat) irqs now :
  ticks e !! k = Some (irqs, now) ->
  1000000 < absolute_time_diff_us (t_measure_start e) now ->
  exists m' t,
    measure e m = Ok (tt, m', t) /\
    (length (List.filter is_tick t) <= S k)%nat.
Proof.
  intros Hk Hd.
  destruct (reading_active m
            && (1000 * 1000 <=?
                absolute_time_diff_us (last_measurement m) (t_check e)))
    eqn:C.
  - unfold measure, print_datetime, bind, fetch, ret, emit, modify.
    cbv beta iota zeta. rewrite C. rewrite preempt_eq_main.
    match goal with
    | |- context [wait_loop ?a ?b ?c] =>
        destruct (wait_loop_ends a b k irqs now c Hk Hd) as (m3 & tw & -> & L)
    end.
    cbv beta iota zeta. rewrite print_result_main.
    eexists _, _. split; [reflexivity|].
    rewrite !List.filter_app.
    match goal with
    | |- context [List.filter is_tick (snd (handle_all ?i ?s))] =>
        rewrite (ticks_of_cancels (snd (handle_all i s)))
          by apply handle_all_trace_main
    end.
    simpl. rewrite ?app_nil_r.
    destruct (action_completed (sensor_state m3)); [simpl; lia|].
    destruct (timer_fired (sensor_state m3)); simpl; lia.
  - rewrite measure_skips_main by assumption.
    exists m, []. split; [reflexivity | simpl; lia].
Qed.

(** ** The third result *)

Lemma marked_handle i m :
  marked m = true -> marked (fst (handle i m)) = true.
Proof.
  unfold marked. destruct i as [gpio events t1 t2 | id]; simpl.
  - unfold trigger_callback.
    destruct ((gpio =? ECHO_PIN) && (events =? 8));
      destruct ((gpio =? ECHO_PIN) && (events =? 4) && _); simpl; auto.
  - intros _. apply orb_true_r.
Qed.

Lemma handle_all_unmarked irqs : forall m,
  marked (fst (handle_all irqs m)) = false ->
  marked m = false /\ Forall (fun i => is_alarm_irq i = false) irqs.
Proof.
  induction irqs as [|i rest IH]; intros m H; [auto|].
  rewrite handle_all_cons_main in H. simpl in H.
  apply IH in H as [H F].
  assert (marked m = false) as Hm.
  { destruct (marked m) eqn:E; [|reflexivity].
    now rewrite (marked_handle i m E) in H. }
  split; [exact Hm|]. constructor; [|exact F].
  destruct i as [gpio events t1 t2 | id]; [reflexivity|].
  unfold marked in H. simpl in H. now rewrite orb_true_r in H.
Qed.

(** ** Edges and alarms in any order *)

Lemma set_sensor_state_same m : set_sensor_state (sensor_state m) m = m.
Proof. now destruct m. Qed.

Lemma handle_ignored i m :
  is_edge i = false -> is_alarm_irq i = false -> handle i m = (m, []).
Proof.
  destruct i as [gpio events t1 t2 | id]; [|discriminate].
  intros He _. simpl in He. simpl. unfold trigger_callback.
  destruct (gpio =? ECHO_PIN); simpl in *.
  - apply orb_false_iff in He as [-> ->]. simpl.
    now rewrite set_sensor_state_same.
  - now rewrite set_sensor_state_same.
Qed.

Lemma handle_all_ignored irqs : forall m,
  forallb (fun i => negb (is_edge i) && negb (is_alarm_irq i)) irqs = true ->
  handle_all irqs m = (m, []).
Proof.
  induction irqs as [|i rest IH]; intros m H; [reflexivity|].
  simpl in H. apply andb_true_iff in H as [Hi H].
  apply andb_true_iff in Hi as [A B].
  apply negb_true_iff in A, B.
  simpl. rewrite handle_ignored by assumption. now rewrite IH.
Qed.

(** Before the falling edge: the flag stays set. *)
Lemma handle_pending i m :
  is_fall i = false ->
  flag_f_trigger (sensor_state (fst (handle i m)))
  = flag_f_trigger (sensor_state m).
Proof.
  destruct i as [gpio events t1 t2 | id]; [|reflexivity].
  intros Hf. simpl in Hf. simpl. unfold trigger_callback.
  replace ((gpio =? ECHO_PIN) && (events =? 4)) with false.
  simpl. now destruct ((gpio =? ECHO_PIN) && (events =? 8)).
Qed.

Lemma handle_all_pending irqs : forall m,
  forallb (fun i => negb (is_fall i)) irqs = true ->
  flag_f_trigger (sensor_state (fst (handle_all irqs m)))
  = flag_f_trigger (sensor_state m).
Proof.
  induction irqs as [|i rest IH]; intros m H; [reflexivity|].
  simpl in H. apply andb_true_iff in H as [Hi H].
  apply negb_true_iff in Hi.
  rewrite handle_all_cons_main. simpl.
  now rewrite IH, handle_pending.
Qed.

(** After the falling edge: the completed measurement stays. *)
Lemma handle_done i m tf :
  flag_f_trigger (sensor_state m) = 0 ->
  action_completed (sensor_state m) = true ->
  t_descida (sensor_state m) = tf ->
  let m' := fst (handle i m) in
  flag_f_trigger (sensor_state m') = 0 /\
  action_completed (sensor_state m') = true /\
  t_descida (sensor_state m') = tf.
Proof.
  intros F A T. destruct i as [gpio events t1 t2 | id]; simpl; [|auto].
  unfold trigger_callback.
  destruct ((gpio =? ECHO_PIN) && (events =? 8)); simpl;
    rewrite F; simpl; rewrite andb_false_r; simpl; auto.
Qed.

Lemma handle_all_done irqs tf : forall m,
  flag_f_trigger (sensor_state m) = 0 ->
  action_completed (sensor_state m) = true ->
  t_descida (sensor_state m) = tf ->
  let m' := fst (handle_all irqs m) in
  flag_f_trigger (sensor_state m') = 0 /\
  action_completed (sensor_state m') = true /\
  t_descida (sensor_state m') = tf.
Proof.
  induction irqs as [|i rest IH]; intros m F A T; [simpl; auto|].
  rewrite handle_all_cons_main. simpl.
  destruct (handle_done i m tf F A T) as (F' & A' & T').
  now apply IH.
Qed.

Lemma first_fall_wins pre tr tf post m :
  flag_f_trigger (sensor_state m) <> 0 ->
  forallb (fun i => negb (is_fall i)) pre = true ->
  let m' := fst (handle_all (pre ++ gpio_irq ECHO_PIN 4 tr tf :: post) m) in
  flag_f_trigger (sensor_state m') = 0 /\
  action_completed (sensor_state m') = true /\
  t_descida (sensor_state m') = tf.
Proof.
  intros F Hpre.
  assert (forall a b m0,
            fst (handle_all (a ++ b) m0)
            = fst (handle_all b (fst (handle_all a m0)))) as App.
  { induction a as [|i a IH]; intros b m0; [reflexivity|].
    rewrite <- app_comm_cons, !handle_all_cons_main. simpl. apply IH. }
  cbv zeta. rewrite App, handle_all_cons_main. simpl.
  set (m1 := fst (handle_all pre m)).
  assert (flag_f_trigger (sensor_state m1) <> 0) as F1
    by (unfold m1; now rewrite handle_all_pending).
  rewrite trigger_fall_pending_main by exact F1. simpl.
  apply handle_all_done; reflexivity.
Qed.

(** ** The cells behind the index *)

Lemma console_tail_zero_main ch m m' t :
  buffer_ok m -> tail_zero m ->
  console ch m = Ok (tt, m', t) -> tail_zero m'.
Proof.
  intros [Hl Hi] Hz H. unfold console in H. mrun H.
  all: inversion H; subst; clear H; try exact Hz.
  all: unfold tail_zero; simpl; intros i Hi'.
  all: repeat match goal with
         | E : store _ _ _ = Ok _ |- _ =>
             apply store_inv in E; destruct E as [? ->]
         end.
  1-3: unfold memset0 in *; rewrite length_replicate in Hi';
    apply lookup_replicate_2; lia.
  rewrite length_insert in Hi'.
  rewrite list_lookup_insert_ne by lia.
  apply Hz. lia.
Qed.

Lemma view_tail_zero_main m m' :
  console_view m' = console_view m -> tail_zero m -> tail_zero m'.
Proof.
  unfold console_view, tail_zero. intros [= A B C]. now rewrite B, C.
Qed.

Lemma view_buffer_ok_main m m' :
  console_view m' = console_view m -> buffer_ok m -> buffer_ok m'.
Proof.
  unfold console_view, buffer_ok. intros [= A B C]. now rewrite B, C.
Qed.

Lemma main_loop_tail_zero_main es : forall m m' t,
  buffer_ok m -> tail_zero m ->
  main_loop es m = Ok (tt, m', t) ->
  buffer_ok m' /\ tail_zero m'.
Proof.
  induction es as [|e es IH]; intros m m' t Hb Hz H; simpl in H.
  - ok_inv H. auto.
  - apply bind_ok in H as ([] & m1 & t1 & t2 & H1 & H2 & ->).
    destruct (loop_body_console_main _ _ _ _ H1) as (mc & tc & Hc & V & F).
    pose proof (handle_all_view_main (irq_getchar e) m) as V0.
    assert (buffer_ok mc /\ tail_zero mc) as [Hbc Hzc].
    { destruct (in_char e) as [ch|].
      - split.
        + destruct (console_safe_main ch (fst (handle_all (irq_getchar e) m)))
            as (m'' & t'' & E & Hb''); [eapply view_buffer_ok_main; eauto|].
          rewrite E in Hc. now ok_inv Hc.
        + eapply console_tail_zero_main; [| |exact Hc].
          * eapply view_buffer_ok_main; eauto.
          * eapply view_tail_zero_main; eauto.
      - ok_inv Hc. split; [eapply view_buffer_ok_main | eapply view_tail_zero_main];
          eauto. }
    apply (IH m1 m' t2); auto.
    + eapply view_buffer_ok_main; eauto.
    + eapply view_tail_zero_main; eauto.
Qed.

Lemma terminator_in_place_main m :
  buffer_ok m -> tail_zero m ->
  store (command m) (cmd_index m) 0 = Ok (command m).
Proof.
  intros [Hl Hi] Hz. unfold sizeof_command in *.
  rewrite store_ok by lia. f_equal.
  apply list_insert_id, Hz. lia.
Qed.

(** ** No echo *)

Lemma console_no_echo_main ch m m' t :
  console ch m = Ok (tt, m', t) -> List.filter is_putchar t = [].
Proof.
  unfold console. intros H. mrun H.
  all: inversion H; subst; clear H; reflexivity.
Qed.

Lemma result_no_echo id s m :
  List.filter is_putchar
    [cancel_alarm id; printf (datetime_prefix s); printf (result_line m)]
  = [].
Proof. reflexivity. Qed.

Lemma main_loop_no_echo es :
  respects (fun _ _ t => List.filter is_putchar t = []) (main_loop es).
Proof.
  set (R := fun (_ _ : state) t => List.filter is_putchar t = []).
  assert (forall s, R s s []) as Rr by reflexivity.
  assert (forall s s1 s2 t1 t2, R s s1 t1 -> R s1 s2 t2 -> R s s2 (t1 ++ t2))
    as Rt.
  { unfold R. intros s s1 s2 t1 t2 A B.
    now rewrite List.filter_app, A, B. }
  apply (main_loop_respects_main R Rr Rt).
  intros e _. apply (loop_body_respects_main R Rt).
  - intros irqs. apply (preempt_respects_main R Rr Rt).
    intros i m. apply cancels_filtered; auto using handle_trace_main.
  - intros m [] m' t H. destruct (in_char e) as [ch|].
    + eapply console_no_echo_main; eauto.
    + now ok_inv H.
  - intros m [] m' t H. unfold R.
    destruct (reading_active m
              && (1000 * 1000 <=?
                  absolute_time_diff_us (last_measurement m) (t_check e)))
      eqn:C.
    + apply andb_true_iff in C as [Hr Hd]. apply Z.leb_le in Hd.
      destruct (measure_inv_main _ _ _ _ Hr Hd H) as (m3 & tw & W & -> & ->).
      apply wait_loop_trace_main in W.
      rewrite !List.filter_app, result_no_echo.
      rewrite (cancels_filtered is_putchar
                 (snd (handle_all (irq_pulse e) (armed m))))
        by auto using handle_all_trace_main.
      rewrite (ticks_filtered is_putchar tw) by auto.
      reflexivity.
    + rewrite measure_skips_main in H by assumption. now ok_inv H.
  - intros s. reflexivity.
Qed.

End run_facts_main.

(** * The time string *)

(** ["%02d"] of an [int8_t] value prints two to four characters. *)
Lemma fmt_02d_int8 n :
  -128 <= n <= 127 ->
  (2 <= String.length (fmt_02d n) <= 4)%nat.
Proof.
  intros H.
  assert (forallb (fun k =>
                     let l := String.length (fmt_02d (Z.of_nat k - 128)) in
                     Nat.leb 2 l && Nat.leb l 4)
            (List.seq 0 256) = true) as A by (vm_compute; reflexivity).
  rewrite forallb_forall in A.
  specialize (A (Z.to_nat (n + 128))).
  rewrite Z2Nat.id in A by lia.
  replace (n + 128 - 128) with n in A by lia.
  cbv zeta in A.
  assert (In (Z.to_nat (n + 128)) (List.seq 0 256)) as I
    by (apply List.in_seq; lia).
  apply A in I. apply andb_true_iff in I as [I1 I2].
  apply Nat.leb_le in I1, I2. lia.
Qed.

(** * The sign of the distance *)

Lemma round_aux_opp s mx ex lx :
  binary_round_aux binary32.prec binary32.emax (negb s) mx ex lx
  = SFopp (binary_round_aux binary32.prec binary32.emax s mx ex lx).
Proof.
  unfold binary_round_aux.
  destruct (shr_fexp _ _ mx ex lx) as [mrs' e'].
  destruct (shr_fexp _ _ _ e' loc_Exact) as [mrs'' e''].
  destruct (shr_m mrs''); try reflexivity.
  now destruct (e'' <=? binary32.emax - binary32.prec).
Qed.

Lemma of_int_opp d :
  d <> 0 -> binary32.of_int (- d) = SFopp (binary32.of_int d).
Proof.
  intros H. unfold binary32.of_int, binary_normalize.
  destruct d as [|p|p]; [congruence| |].
  - change (- Z.pos p) with (Z.neg p). cbv iota. unfold binary_round.
    destruct (shl_align _ _ _) as [mz ez].
    apply (round_aux_opp false).
  - change (- Z.neg p) with (Z.pos p). cbv iota. unfold binary_round.
    destruct (shl_align _ _ _) as [mz ez].
    pose proof (round_aux_opp false (Z.pos mz) ez loc_Exact) as E.
    change (negb false) with true in E. rewrite E.
    now destruct (binary_round_aux _ _ false _ _ _) as [[]|[]| |[] ? ?].
Qed.

Lemma mul_opp x s m e :
  binary32.mul (SFopp x) (S754_finite s m e)
  = SFopp (binary32.mul x (S754_finite s m e)).
Proof.
  unfold binary32.mul. destruct x as [sx|sx| |sx mx ex];
    cbn [SFopp SFmul];
    [now destruct sx, s | now destruct sx, s | reflexivity |].
  replace (xorb (negb sx) s) with (negb (xorb sx s))
    by (now destruct sx, s).
  apply round_aux_opp.
Qed.

Lemma div_opp x s m e :
  binary32.div (SFopp x) (S754_finite s m e)
  = SFopp (binary32.div x (S754_finite s m e)).
Proof.
  unfold binary32.div. destruct x as [sx|sx| |sx mx ex];
    cbn [SFopp SFdiv];
    [now destruct sx, s | now destruct sx, s | reflexivity |].
  destruct (SFdiv_core_binary _ _ _ _ _ _) as [[mz ez] lz].
  replace (xorb (negb sx) s) with (negb (xorb sx s))
    by (now destruct sx, s).
  apply round_aux_opp.
Qed.

Lemma distance_of_opp d :
  d <> 0 -> distance_of (- d) = SFopp (distance_of d).
Proof.
  intros H. unfold distance_of, binary32.c_0_0343, binary32.c_2_0.
  now rewrite of_int_opp, mul_opp, div_opp.
Qed.

(** * main.c: the measurement block, access by access *)

Module block_facts.
Import main_c obs_main facts_main run_main run_facts_main measure_block.

(** ** The callbacks *)

Lemma handle_all_app_main a : forall b m,
  fst (handle_all (a ++ b) m) = fst (handle_all b (fst (handle_all a m))).
Proof.
  induction a as [|i a IH]; intros b m; [reflexivity|].
  rewrite <- app_comm_cons, !handle_all_cons_main. simpl. apply IH.
Qed.

(** Once [flag_f_trigger] is clear with the measurement not completed,
    no interrupt completes it. *)
Lemma handle_deaf i m : deaf m -> deaf (fst (handle i m)).
Proof.
  unfold deaf. intros [F A].
  destruct i as [gpio events t1 t2 | id]; simpl; [|auto].
  unfold trigger_callback.
  destruct ((gpio =? ECHO_PIN) && (events =? 8)); simpl;
    rewrite F; simpl; rewrite andb_false_r; simpl; auto.
Qed.

Lemma handle_all_deaf irqs : forall m,
  deaf m -> deaf (fst (handle_all irqs m)).
Proof.
  induction irqs as [|i rest IH]; intros m H; [exact H|].
  rewrite handle_all_cons_main. simpl. now apply IH, handle_deaf.
Qed.

(** Only a falling edge writes [action_completed]. *)
Lemma handle_completed i m :
  is_fall i = false ->
  action_completed (sensor_state (fst (handle i m)))
  = action_completed (sensor_state m).
Proof.
  destruct i as [gpio events t1 t2 | id]; [|reflexivity].
  intros Hf. simpl in Hf. simpl. unfold trigger_callback.
  replace ((gpio =? ECHO_PIN) && (events =? 4)) with false.
  simpl. now destruct ((gpio =? ECHO_PIN) && (events =? 8)).
Qed.

Lemma handle_all_completed irqs : forall m,
  forallb (fun i => negb (is_fall i)) irqs = true ->
  action_completed (sensor_state (fst (handle_all irqs m)))
  = action_completed (sensor_state m).
Proof.
  induction irqs as [|i rest IH]; intros m H; [reflexivity|].
  simpl in H. apply andb_true_iff in H as [Hi H].
  apply negb_true_iff in Hi.
  rewrite handle_all_cons_main. simpl.
  now rewrite IH, handle_completed.
Qed.

(** No callback sets [flag_f_trigger]. *)
Lemma handle_flag_clear i m :
  flag_f_trigger (sensor_state m) = 0 ->
  flag_f_trigger (sensor_state (fst (handle i m))) = 0.
Proof.
  intros F. destruct i as [gpio events t1 t2 | id]; simpl; [|exact F].
  unfold trigger_callback.
  destruct ((gpio =? ECHO_PIN) && (events =? 8)); simpl;
    rewrite F; simpl; rewrite andb_false_r; simpl; exact F.
Qed.

Lemma handle_all_flag_clear irqs : forall m,
  flag_f_trigger (sensor_state m) = 0 ->
  flag_f_trigger (sensor_state (fst (handle_all irqs m))) = 0.
Proof.
  induction irqs as [|i rest IH]; intros m H; [exact H|].
  rewrite handle_all_cons_main. simpl. now apply IH, handle_flag_clear.
Qed.

(** A falling edge leaves [flag_f_trigger] clear. *)
Lemma handle_fall_clears i m :
  is_fall i = true ->
  flag_f_trigger (sensor_state (fst (handle i m))) = 0.
Proof.
  destruct i as [gpio events t1 t2 | id]; [|discriminate].
  intros H. simpl in H. apply andb_true_iff in H as [G E].
  apply Z.eqb_eq in E. subst events.
  simpl. unfold trigger_callback. rewrite G. simpl.
  destruct (flag_f_trigger (sensor_state m) =? 0) eqn:Z0; simpl.
  - now apply Z.eqb_eq.
  - reflexivity.
Qed.

Lemma handle_all_fall_clears irqs : forall m,
  existsb is_fall irqs = true ->
  flag_f_trigger (sensor_state (fst (handle_all irqs m))) = 0.
Proof.
  induction irqs as [|i rest IH]; intros m H; [discriminate|].
  rewrite handle_all_cons_main. simpl. simpl in H.
  destruct (is_fall i) eqn:Hi.
  - apply handle_all_flag_clear. now apply handle_fall_clears.
  - now apply IH.
Qed.

(** While [flag_f_trigger] is clear, only an alarm writes
    [timer_fired]. *)
Lemma handle_fired i m :
  flag_f_trigger (sensor_state m) = 0 ->
  is_alarm_irq i = false ->
  timer_fired (sensor_state (fst (handle i m)))
  = timer_fired (sensor_state m).
Proof.
  intros F A. destruct i as [gpio events t1 t2 | id]; [|discriminate].
  simpl. unfold trigger_callback.
  destruct ((gpio =? ECHO_PIN) && (events =? 8)); simpl;
    rewrite F; simpl; rewrite andb_false_r; reflexivity.
Qed.

Lemma handle_all_fired irqs : forall m,
  flag_f_trigger (sensor_state m) = 0 ->
  forallb (fun i => negb (is_alarm_irq i)) irqs = true ->
  timer_fired (sensor_state (fst (handle_all irqs m)))
  = timer_fired (sensor_state m).
Proof.
  induction irqs as [|i rest IH]; intros m F H; [reflexivity|].
  simpl in H. apply andb_true_iff in H as [Hi H].
  apply negb_true_iff in Hi.
  rewrite handle_all_cons_main. simpl.
  rewrite IH by (auto using handle_flag_clear).
  now apply handle_fired.
Qed.

(** A falling edge taken while [flag_f_trigger] is set leaves
    [timer_fired] false. *)
Lemma first_fall_unfires pre tr tf post m :
  flag_f_trigger (sensor_state m) <> 0 ->
  forallb (fun i => negb (is_fall i)) pre = true ->
  forallb (fun i => negb (is_alarm_irq i)) post = true ->
  timer_fired
    (sensor_state
       (fst (handle_all (pre ++ gpio_irq ECHO_PIN 4 tr tf :: post) m)))
  = false.
Proof.
  intros F Hpre Hpost.
  rewrite handle_all_app_main, handle_all_cons_main. simpl.
  set (m1 := fst (handle_all pre m)).
  assert (flag_f_trigger (sensor_state m1) <> 0) as F1
    by (unfold m1; now rewrite handle_all_pending).
  rewrite trigger_fall_pending_main by exact F1. simpl.
  rewrite handle_all_fired; [reflexivity | reflexivity | exact Hpost].
Qed.

(** ** The three phases of the block *)

Lemma arm_eq e m :
  let a := set_sensor_state (set_flag_f_trigger 1 (sensor_state m)) m in
  let b := fst (handle_all (irq_flag e) a) in
  let c := set_sensor_state (set_timer_fired false (sensor_state b)) b in
  let d := fst (handle_all (irq_fired e) c) in
  let f := set_sensor_state
             (set_action_completed false (sensor_state d)) d in
  let g := fst (handle_all (irq_pulse e) f) in
  let h := set_sensor_state
             (set_alarm_id (new_alarm e) (sensor_state g)) g in
  arm e m
  = Ok (tt, fst (handle_all (irq_armed e) h),
        snd (handle_all (irq_flag e) a) ++
        snd (handle_all (irq_fired e) c) ++
        [gpio_put TRIG_PIN true; sleep_us 10] ++
        snd (handle_all (irq_pulse e) f) ++
        [gpio_put TRIG_PIN false; add_alarm_in_ms 500] ++
        snd (handle_all (irq_armed e) h)).
Proof.
  intros a b c d f g h.
  unfold arm, bind, modify, emit. cbv beta iota zeta.
  repeat (rewrite preempt_eq_main; cbv beta iota zeta).
  simpl. rewrite ?app_nil_r, <- ?app_assoc. reflexivity.
Qed.

Lemma finish_eq e m :
  let r := fst (handle_all (irq_exit e) m) in
  let p := fst (handle_all (irq_result e) r) in
  finish e m
  = Ok (tt, set_last_measurement (t_done e) p,
        snd (handle_all (irq_exit e) m) ++
        [cancel_alarm (alarm_id (sensor_state r));
         printf (datetime_prefix (fmt_time (rtc_now e) ++ " - ")%string)] ++
        snd (handle_all (irq_result e) r) ++
        [printf
           (if action_completed (sensor_state r) then
              distance_cm
                (distance_of
                   (absolute_time_diff_us (t_subida (sensor_state p))
                      (t_descida (sensor_state p))))
            else if timer_fired (sensor_state p) then falha
            else leitura_nao_concluida)]).
Proof.
  intros r p.
  unfold finish, measure_block.print_result, print_datetime,
    bind, fetch, modify, emit.
  cbv beta iota zeta.
  repeat (rewrite preempt_eq_main; cbv beta iota zeta).
  fold r. fold p.
  destruct (action_completed (sensor_state r));
    [|destruct (timer_fired (sensor_state p))];
    simpl; rewrite ?app_nil_r, <- ?app_assoc; reflexivity.
Qed.

Lemma wait_loop_nil ms m :
  wait_loop ms [] m =
  if action_completed (sensor_state m) then Ok (tt, m, [])
  else if timer_fired (sensor_state m) then Ok (tt, m, [])
       else Err no_more_ticks.
Proof.
  simpl. unfold bind, fetch, ret, throw. cbv beta iota zeta.
  destruct (action_completed (sensor_state m)); [reflexivity|].
  rewrite preempt_eq_main. cbv beta iota zeta. simpl.
  now destruct (timer_fired (sensor_state m)).
Qed.

Lemma wait_loop_cons ms tk rest m :
  wait_loop ms (tk :: rest) m =
  if action_completed (sensor_state m) then Ok (tt, m, [])
  else
    let m1 := fst (handle_all (irq_test tk) m) in
    let t1 := snd (handle_all (irq_test tk) m) in
    if timer_fired (sensor_state m1) then Ok (tt, m1, t1)
    else
      let m2 := fst (handle_all (irq_sleep tk) m1) in
      let t2 := snd (handle_all (irq_sleep tk) m1) in
      if absolute_time_diff_us ms (t_now tk) >? 1000000
      then Ok (tt, m2, t1 ++ sleep_ms 1 :: t2)
      else
        match wait_loop ms rest m2 with
        | Ok (_, m', t) => Ok (tt, m', t1 ++ sleep_ms 1 :: t2 ++ t)
        | Err err => Err err
        end.
Proof.
  simpl. unfold bind, fetch, ret, emit. cbv beta iota zeta.
  destruct (action_completed (sensor_state m)); [reflexivity|].
  rewrite preempt_eq_main. cbv beta iota zeta.
  destruct (timer_fired (sensor_state (fst (handle_all (irq_test tk) m)))).
  { now rewrite app_nil_r. }
  rewrite preempt_eq_main. cbv beta iota zeta.
  destruct (absolute_time_diff_us ms (t_now tk) >? 1000000).
  - simpl. now rewrite app_nil_r.
  - now destruct (wait_loop ms rest _) as [[[[] m'] t]|].
Qed.

Lemma measure_skips_block e m :
  reading_active m
  && (1000 * 1000 <=?
      absolute_time_diff_us (last_measurement m) (t_check e)) = false ->
  measure e m = Ok (tt, m, []).
Proof.
  intros H. unfold measure, bind, fetch, ret. cbv beta iota zeta.
  now rewrite H.
Qed.

Lemma measure_inv_block e m m' t :
  measure e m = Ok (tt, m', t) ->
  reading_active m
  && (1000 * 1000 <=?
      absolute_time_diff_us (last_measurement m) (t_check e)) = true ->
  exists m1 t1 m2 t2 t3,
    arm e m = Ok (tt, m1, t1) /\
    wait_loop (t_measure_start e) (ticks e) m1 = Ok (tt, m2, t2) /\
    finish e m2 = Ok (tt, m', t3) /\
    t = t1 ++ t2 ++ t3.
Proof.
  intros H C. unfold measure in H.
  apply bind_ok in H as (m0 & s0 & t0 & t0' & H0 & H & ->).
  unfold fetch in H0. ok_inv H0. rewrite C in H.
  apply bind_ok in H as ([] & m1 & t1 & t' & H1 & H & ->).
  apply bind_ok in H as ([] & m2 & t2 & t3 & H2 & H3 & ->).
  exists m1, t1, m2, t2, t3. auto.
Qed.

Lemma measure_runs_block e m m1 t1 m2 t2 m' t3 :
  reading_active m = true ->
  1000 * 1000 <= absolute_time_diff_us (last_measurement m) (t_check e) ->
  arm e m = Ok (tt, m1, t1) ->
  wait_loop (t_measure_start e) (ticks e) m1 = Ok (tt, m2, t2) ->
  finish e m2 = Ok (tt, m', t3) ->
  measure e m = Ok (tt, m', t1 ++ t2 ++ t3).
Proof.
  intros Hr Hd H1 H2 H3. apply Z.leb_le in Hd.
  unfold measure, bind, fetch. cbv beta iota zeta.
  rewrite Hr, Hd. cbv beta iota delta [andb].
  rewrite H1. cbv beta iota zeta. rewrite H2. cbv beta iota zeta.
  rewrite H3. reflexivity.
Qed.

(** ** What each phase writes to the trace *)

Ltac quiet :=
  repeat (rewrite ?List.filter_app; simpl;
          repeat match goal with
          | |- context [List.filter ?f (snd (handle_all ?i ?s))] =>
              rewrite (cancels_filtered f (snd (handle_all i s)))
                by auto using handle_all_trace_main
          end).

Lemma arm_quiet e m m1 t1 :
  arm e m = Ok (tt, m1, t1) ->
  List.filter is_tick t1 = [] /\ List.filter is_result t1 = [].
Proof.
  rewrite arm_eq. intros H. ok_inv H. split; quiet; reflexivity.
Qed.

Lemma wait_loop_quiet ms : forall ts m m' t,
  wait_loop ms ts m = Ok (tt, m', t) -> List.filter is_result t = [].
Proof.
  induction ts as [|tk rest IH]; intros m m' t H.
  - rewrite wait_loop_nil in H.
    destruct (action_completed (sensor_state m)); [now ok_inv H|].
    destruct (timer_fired (sensor_state m)); [now ok_inv H|discriminate].
  - rewrite wait_loop_cons in H. cbv zeta in H.
    destruct (action_completed (sensor_state m)); [now ok_inv H|].
    destruct (timer_fired _).
    { ok_inv H. apply cancels_filtered; auto using handle_all_trace_main. }
    destruct (_ >? _).
    + ok_inv H. rewrite List.filter_app. simpl.
      rewrite !(cancels_filtered is_result (snd (handle_all _ _)))
        by auto using handle_all_trace_main.
      reflexivity.
    + destruct (wait_loop ms rest _) as [[[[] m3] t3]|] eqn:W;
        [|discriminate H].
      ok_inv H. rewrite List.filter_app. simpl. rewrite List.filter_app.
      rewrite !(cancels_filtered is_result (snd (handle_all _ _)))
        by auto using handle_all_trace_main.
      simpl. eapply IH, W.
Qed.

(** The result line of a measurement that ran, by the data [r] when
    [action_completed] is read and the data [p] when the next read
    follows. *)
Lemma finish_line e m m' t :
  finish e m = Ok (tt, m', t) ->
  let r := fst (handle_all (irq_exit e) m) in
  let p := fst (handle_all (irq_result e) r) in
  List.filter is_result t
  = [printf
       (if action_completed (sensor_state r) then
          distance_cm
            (distance_of
               (absolute_time_diff_us (t_subida (sensor_state p))
                  (t_descida (sensor_state p))))
        else if timer_fired (sensor_state p) then falha
        else leitura_nao_concluida)] /\
  List.filter is_tick t = [].
Proof.
  rewrite finish_eq. cbv zeta. intros H. ok_inv H.
  destruct (action_completed _); [|destruct (timer_fired _)];
    split; quiet; reflexivity.
Qed.

(** ** A falling edge before the three stores are done *)

Lemma arm_deaf e m m1 t1 :
  existsb is_fall (irq_flag e ++ irq_fired e) = true ->
  arm e m = Ok (tt, m1, t1) -> deaf m1.
Proof.
  intros Hf. rewrite arm_eq. intros H. ok_inv H.
  apply handle_all_deaf.
  assert (forall g, deaf g ->
            deaf (set_sensor_state
                    (set_alarm_id (new_alarm e) (sensor_state g)) g)) as Ha
    by (intros g Hg; exact Hg).
  apply Ha, handle_all_deaf. split; [|reflexivity].
  cbn [set_sensor_state sensor_state set_action_completed flag_f_trigger].
  rewrite existsb_app in Hf. apply orb_true_iff in Hf as [Hf|Hf].
  - apply handle_all_flag_clear.
    cbn [set_sensor_state sensor_state set_timer_fired flag_f_trigger].
    now apply handle_all_fall_clears.
  - now apply handle_all_fall_clears.
Qed.

Lemma wait_loop_deaf ms : forall ts m m' t,
  wait_loop ms ts m = Ok (tt, m', t) -> deaf m -> deaf m'.
Proof.
  induction ts as [|tk rest IH]; intros m m' t H D.
  - rewrite wait_loop_nil in H.
    destruct (action_completed (sensor_state m)); [now ok_inv H|].
    destruct (timer_fired (sensor_state m)); [now ok_inv H|discriminate].
  - rewrite wait_loop_cons in H. cbv zeta in H.
    destruct (action_completed (sensor_state m)); [now ok_inv H|].
    destruct (timer_fired _).
    { ok_inv H. now apply handle_all_deaf. }
    destruct (_ >? _).
    + ok_inv H. now apply handle_all_deaf, handle_all_deaf.
    + destruct (wait_loop ms rest _) as [[[[] m3] t3]|] eqn:W;
        [|discriminate H].
      ok_inv H. eapply IH; [exact W|].
      now apply handle_all_deaf, handle_all_deaf.
Qed.

Lemma measure_erased_edge e m m' t :
  existsb is_fall (irq_flag e ++ irq_fired e) = true ->
  measure e m = Ok (tt, m', t) ->
  forall d, ~ In (printf (distance_cm d)) t.
Proof.
  intros Hf H d Hin.
  destruct (reading_active m
            && (1000 * 1000 <=?
                absolute_time_diff_us (last_measurement m) (t_check e)))
    eqn:C.
  2:{ rewrite measure_skips_block in H by exact C. ok_inv H. destruct Hin. }
  destruct (measure_inv_block _ _ _ _ H C)
    as (m1 & t1 & m2 & t2 & t3 & A & W & F & ->).
  assert (In (printf (distance_cm d))
            (List.filter is_result (t1 ++ t2 ++ t3))) as I
    by (apply List.filter_In; auto).
  rewrite !List.filter_app in I.
  destruct (arm_quiet _ _ _ _ A) as [_ Q1]. rewrite Q1 in I.
  rewrite (wait_loop_quiet _ _ _ _ _ W) in I.
  destruct (finish_line _ _ _ _ F) as [Q3 _]. rewrite Q3 in I.
  pose proof (handle_all_deaf (irq_exit e) m2
                (wait_loop_deaf _ _ _ _ _ W (arm_deaf _ _ _ _ Hf A)))
    as [_ D].
  rewrite D in I. simpl in I.
  destruct (timer_fired _); destruct I as [I|[]]; discriminate I.
Qed.

(** ** A falling edge during the trigger pulse *)

Lemma wait_loop_completed ms ts m :
  action_completed (sensor_state m) = true ->
  wait_loop ms ts m = Ok (tt, m, []).
Proof.
  intros A. destruct ts as [|tk rest].
  - rewrite wait_loop_nil. now rewrite A.
  - rewrite wait_loop_cons. now rewrite A.
Qed.

Lemma measure_edge_in_pulse e m pre tr tf post :
  reading_active m = true ->
  1000 * 1000 <= absolute_time_diff_us (last_measurement m) (t_check e) ->
  forallb (fun i => negb (is_fall i)) (irq_flag e ++ irq_fired e) = true ->
  irq_pulse e = pre ++ gpio_irq ECHO_PIN 4 tr tf :: post ->
  forallb (fun i => negb (is_fall i)) pre = true ->
  exists m' t,
    measure e m = Ok (tt, m', t) /\
    List.filter is_tick t = [] /\
    List.filter is_result t
    = [printf
         (distance_cm
            (distance_of
               (absolute_time_diff_us
                  (last_rise
                     (irq_flag e ++ irq_fired e ++ irq_pulse e ++
                      irq_armed e ++ irq_exit e ++ irq_result e)
                     (t_subida (sensor_state m)))
                  tf)))].
Proof.
  intros Hr Hd Hq Hp Hpre.
  rewrite forallb_app in Hq. apply andb_true_iff in Hq as [Hq1 Hq2].
  pose proof (arm_eq e m) as A. cbv zeta in A.
  match type of A with
  | _ = Ok (_, ?s, ?u) => set (m1 := s) in *; set (t1 := u) in *
  end.
  assert (flag_f_trigger (sensor_state m1) = 0 /\
          action_completed (sensor_state m1) = true /\
          t_descida (sensor_state m1) = tf) as (F1 & A1 & T1).
  { unfold m1. apply handle_all_done;
      cbn [set_sensor_state sensor_state set_alarm_id flag_f_trigger
             action_completed t_descida];
      rewrite Hp;
      match goal with
      | |- context [handle_all _ ?s] =>
          destruct (first_fall_wins pre tr tf post s) as (F & A' & T);
            [|exact Hpre|auto]
      end;
      cbn [set_sensor_state sensor_state set_action_completed
             flag_f_trigger];
      rewrite handle_all_pending by exact Hq2;
      cbn [set_sensor_state sensor_state set_timer_fired flag_f_trigger];
      rewrite handle_all_pending by exact Hq1;
      simpl; discriminate. }
  assert (t_subida (sensor_state m1)
          = last_rise (irq_flag e ++ irq_fired e ++ irq_pulse e ++
                       irq_armed e) (t_subida (sensor_state m))) as S1.
  { unfold m1. rewrite !last_rise_app_main.
    rewrite handle_all_stamp_main.
    cbn [set_sensor_state sensor_state set_alarm_id t_subida].
    rewrite handle_all_stamp_main.
    cbn [set_sensor_state sensor_state set_action_completed t_subida].
    rewrite handle_all_stamp_main.
    cbn [set_sensor_state sensor_state set_timer_fired t_subida].
    rewrite handle_all_stamp_main. reflexivity. }
  pose proof (wait_loop_completed (t_measure_start e) (ticks e) m1 A1) as W.
  pose proof (finish_eq e m1) as Fi. cbv zeta in Fi.
  match type of Fi with
  | _ = Ok (_, ?s, ?u) => set (m3 := s) in *; set (t3 := u) in *
  end.
  exists m3, (t1 ++ [] ++ t3). split.
  { now apply (measure_runs_block e m m1 t1 m1 [] m3 t3). }
  destruct (arm_quiet _ _ _ _ A) as [K1 Q1].
  destruct (finish_line _ _ _ _ Fi) as [Q3 K3]. cbv zeta in Q3.
  rewrite !List.filter_app, K1, K3, Q1, Q3. split; [reflexivity|].
  destruct (handle_all_done (irq_exit e) tf m1 F1 A1 T1) as (F2 & A2 & T2).
  destruct (handle_all_done (irq_result e) tf _ F2 A2 T2) as (_ & _ & T3).
  cbv zeta in A2, T3. rewrite A2, T3.
  rewrite !handle_all_stamp_main, S1.
  rewrite <- !last_rise_app_main, <- !app_assoc. reflexivity.
Qed.

(** ** The third result *)

Lemma wait_loop_unmarked_block ms : forall ts m m' t,
  wait_loop ms ts m = Ok (tt, m', t) ->
  marked m' = false ->
  marked m = false /\
  exists (k : nat) tk,
    ts !! k = Some tk /\
    1000000 < absolute_time_diff_us ms (t_now tk) /\
    Forall (fun i => is_alarm_irq i = false) (taken (S k) ts).
Proof.
  induction ts as [|tk rest IH]; intros m m' t H Hm.
  - rewrite wait_loop_nil in H.
    unfold marked in Hm.
    destruct (action_completed (sensor_state m)) eqn:A.
    { ok_inv H. now rewrite A in Hm. }
    destruct (timer_fired (sensor_state m)) eqn:B; [|discriminate].
    ok_inv H. now rewrite A, B in Hm.
  - rewrite wait_loop_cons in H. cbv zeta in H.
    destruct (action_completed (sensor_state m)) eqn:A.
    { ok_inv H. unfold marked in Hm. now rewrite A in Hm. }
    destruct (timer_fired (sensor_state (fst (handle_all (irq_test tk) m))))
      eqn:B.
    { ok_inv H. unfold marked in Hm. rewrite B in Hm.
      now rewrite orb_true_r in Hm. }
    destruct (absolute_time_diff_us ms (t_now tk) >? 1000000) eqn:E.
    + ok_inv H. apply handle_all_unmarked in Hm as [Hm F2].
      apply handle_all_unmarked in Hm as [Hm F1].
      split; [exact Hm|]. exists 0%nat, tk.
      split; [reflexivity|].
      split; [rewrite Z.gtb_ltb in E; apply Z.ltb_lt in E; lia|].
      unfold taken. simpl. rewrite ?take_0. simpl. rewrite ?app_nil_r.
      apply Forall_app. auto.
    + destruct (wait_loop ms rest _) as [[[[] m3] t3]|] eqn:W;
        [|discriminate H].
      ok_inv H.
      destruct (IH _ _ _ W Hm) as (Hm2 & k & tk' & Hk & Hd & F).
      apply handle_all_unmarked in Hm2 as [Hm1 F2].
      apply handle_all_unmarked in Hm1 as [Hm0 F1].
      split; [exact Hm0|]. exists (S k), tk'.
      split; [exact Hk|]. split; [exact Hd|].
      unfold taken in *.
      change (take (S (S k)) (tk :: rest)) with (tk :: take (S k) rest).
      simpl. rewrite <- app_assoc. repeat (apply Forall_app; split); auto.
Qed.

Lemma arm_unmarked e m m1 t1 :
  arm e m = Ok (tt, m1, t1) ->
  marked m1 = false ->
  Forall (fun i => is_alarm_irq i = false) (irq_pulse e ++ irq_armed e).
Proof.
  rewrite arm_eq. intros H Hm. ok_inv H.
  apply handle_all_unmarked in Hm as [Hm F2].
  assert (forall g v,
            marked (set_sensor_state (set_alarm_id v (sensor_state g)) g)
            = marked g) as Ha by reflexivity.
  rewrite Ha in Hm.
  apply handle_all_unmarked in Hm as [_ F1].
  apply Forall_app. auto.
Qed.

Lemma measure_unfinished_block e m m' t :
  measure e m = Ok (tt, m', t) ->
  In (printf leitura_nao_concluida) t ->
  existsb is_fall (irq_result e) = true \/
  exists (k : nat) tk,
    ticks e !! k = Some tk /\
    1000000 < absolute_time_diff_us (t_measure_start e) (t_now tk) /\
    Forall (fun i => is_alarm_irq i = false)
      (irq_pulse e ++ irq_armed e ++ taken (S k) (ticks e) ++
       irq_exit e ++ irq_result e).
Proof.
  intros H Hin.
  destruct (reading_active m
            && (1000 * 1000 <=?
                absolute_time_diff_us (last_measurement m) (t_check e)))
    eqn:C.
  2:{ rewrite measure_skips_block in H by exact C. ok_inv H. destruct Hin. }
  destruct (measure_inv_block _ _ _ _ H C)
    as (m1 & t1 & m2 & t2 & t3 & A & W & F & ->).
  assert (In (printf leitura_nao_concluida)
            (List.filter is_result (t1 ++ t2 ++ t3))) as I
    by (apply List.filter_In; auto).
  rewrite !List.filter_app in I.
  destruct (arm_quiet _ _ _ _ A) as [_ Q1]. rewrite Q1 in I.
  rewrite (wait_loop_quiet _ _ _ _ _ W) in I.
  destruct (finish_line _ _ _ _ F) as [Q3 _]. cbv zeta in Q3.
  rewrite Q3 in I. clear Q3. simpl in I.
  set (r := fst (handle_all (irq_exit e) m2)) in *.
  set (p := fst (handle_all (irq_result e) r)) in *.
  destruct (action_completed (sensor_state r)) eqn:Ar;
    [destruct I as [I|[]]; discriminate I|].
  destruct (timer_fired (sensor_state p)) eqn:Bp;
    [destruct I as [I|[]]; discriminate I|].
  destruct (existsb is_fall (irq_result e)) eqn:Ef; [now left|right].
  assert (forallb (fun i => negb (is_fall i)) (irq_result e) = true) as Nf.
  { apply forallb_forall. intros i Hi. apply negb_true_iff.
    destruct (is_fall i) eqn:Fi; [|reflexivity].
    assert (existsb is_fall (irq_result e) = true) as X
      by (apply existsb_exists; eauto).
    congruence. }
  assert (marked p = false) as Mp.
  { unfold marked. rewrite Bp. unfold p.
    rewrite handle_all_completed by exact Nf. now rewrite Ar. }
  unfold p in Mp. apply handle_all_unmarked in Mp as [Mr F4].
  unfold r in Mr. apply handle_all_unmarked in Mr as [M2 F3].
  destruct (wait_loop_unmarked_block _ _ _ _ _ W M2)
    as (M1 & k & tk & Hk & Hd & Fw).
  pose proof (arm_unmarked _ _ _ _ A M1) as Fa.
  exists k, tk. split; [exact Hk|]. split; [exact Hd|].
  apply Forall_app in Fa as [Fa1 Fa2].
  repeat (apply Forall_app; split); auto.
Qed.

(** A falling edge between the two reads of the result [if]. *)

Lemma wait_loop_pending ms : forall ts m m' t,
  wait_loop ms ts m = Ok (tt, m', t) ->
  forallb (fun i => negb (is_fall i)) (taken (length ts) ts) = true ->
  flag_f_trigger (sensor_state m') = flag_f_trigger (sensor_state m) /\
  action_completed (sensor_state m') = action_completed (sensor_state m).
Proof.
  induction ts as [|tk rest IH]; intros m m' t H Hf.
  - rewrite wait_loop_nil in H.
    destruct (action_completed (sensor_state m)) eqn:A; [ok_inv H; auto|].
    destruct (timer_fired (sensor_state m)); [ok_inv H; auto|discriminate].
  - unfold taken in Hf.
    change (take (length (tk :: rest)) (tk :: rest))
      with (tk :: take (length rest) rest) in Hf.
    simpl in Hf. rewrite !forallb_app in Hf.
    apply andb_true_iff in Hf as [Hf Hr].
    apply andb_true_iff in Hf as [H1 H2].
    rewrite wait_loop_cons in H. cbv zeta in H.
    destruct (action_completed (sensor_state m)) eqn:A.
    { ok_inv H. auto. }
    destruct (timer_fired _).
    { ok_inv H. rewrite handle_all_pending, handle_all_completed by exact H1.
      auto. }
    assert (forall g,
      flag_f_trigger (sensor_state
        (fst (handle_all (irq_sleep tk)
                (fst (handle_all (irq_test tk) g)))))
      = flag_f_trigger (sensor_state g) /\
      action_completed (sensor_state
        (fst (handle_all (irq_sleep tk)
                (fst (handle_all (irq_test tk) g)))))
      = action_completed (sensor_state g)) as Two.
    { intros g.
      rewrite !handle_all_pending, !handle_all_completed by assumption.
      auto. }
    destruct (_ >? _).
    + ok_inv H. rewrite <- A. apply Two.
    + destruct (wait_loop ms rest _) as [[[[] m3] t3]|] eqn:W;
        [|discriminate H].
      ok_inv H. destruct (IH _ _ _ W Hr) as [X Y].
      destruct (Two m) as [X' Y']. rewrite <- A. split; congruence.
Qed.

Lemma measure_late_edge e m m' t pre tr tf post :
  reading_active m = true ->
  1000 * 1000 <= absolute_time_diff_us (last_measurement m) (t_check e) ->
  forallb (fun i => negb (is_fall i))
    (irq_flag e ++ irq_fired e ++ irq_pulse e ++ irq_armed e ++
     taken (length (ticks e)) (ticks e) ++ irq_exit e) = true ->
  irq_result e = pre ++ gpio_irq ECHO_PIN 4 tr tf :: post ->
  forallb (fun i => negb (is_fall i)) pre = true ->
  forallb (fun i => negb (is_alarm_irq i)) post = true ->
  measure e m = Ok (tt, m', t) ->
  List.filter is_result t = [printf leitura_nao_concluida].
Proof.
  intros Hr Hd Hf Hp Hpre Hpost H.
  rewrite !forallb_app in Hf.
  apply andb_true_iff in Hf as [F1 Hf]. apply andb_true_iff in Hf as [F2 Hf].
  apply andb_true_iff in Hf as [F3 Hf]. apply andb_true_iff in Hf as [F4 Hf].
  apply andb_true_iff in Hf as [F5 F6].
  assert (reading_active m
          && (1000 * 1000 <=?
              absolute_time_diff_us (last_measurement m) (t_check e))
          = true) as C.
  { rewrite Hr. simpl. now apply Z.leb_le. }
  destruct (measure_inv_block _ _ _ _ H C)
    as (m1 & t1 & m2 & t2 & t3 & A & W & F & ->).
  rewrite !List.filter_app.
  destruct (arm_quiet _ _ _ _ A) as [_ Q1]. rewrite Q1.
  rewrite (wait_loop_quiet _ _ _ _ _ W).
  destruct (finish_line _ _ _ _ F) as [Q3 _]. cbv zeta in Q3.
  rewrite Q3. clear Q3. simpl.
  assert (flag_f_trigger (sensor_state m1) = 1 /\
          action_completed (sensor_state m1) = false) as [G1 A1].
  { rewrite arm_eq in A. ok_inv A.
    rewrite handle_all_pending, handle_all_completed by exact F4.
    cbn [set_sensor_state sensor_state set_alarm_id flag_f_trigger
           action_completed].
    rewrite handle_all_pending, handle_all_completed by exact F3.
    cbn [set_sensor_state sensor_state set_action_completed flag_f_trigger
           action_completed].
    rewrite handle_all_pending by exact F2.
    cbn [set_sensor_state sensor_state set_timer_fired flag_f_trigger].
    rewrite handle_all_pending by exact F1.
    split; reflexivity. }
  destruct (wait_loop_pending _ _ _ _ _ W F5) as [G2 A2].
  set (r := fst (handle_all (irq_exit e) m2)).
  assert (flag_f_trigger (sensor_state r) = 1) as Gr
    by (unfold r; rewrite handle_all_pending by exact F6; congruence).
  assert (action_completed (sensor_state r) = false) as Ar
    by (unfold r; rewrite handle_all_completed by exact F6; congruence).
  rewrite Ar, Hp.
  rewrite first_fall_unfires; [reflexivity | | exact Hpre | exact Hpost].
  rewrite Gr. discriminate.
Qed.

(** ** The block that takes interrupts only where it sleeps *)

Lemma in_sleeps_wait_loop ms : forall ts m,
  wait_loop ms
    (List.map (fun tk => {| irq_test := []; irq_sleep := fst tk;
                            t_now := snd tk |}) ts) m
  = main_c.wait_loop ms ts m.
Proof.
  induction ts as [|[irqs now] rest IH]; intros m.
  - rewrite wait_loop_nil. simpl. unfold bind, fetch, ret, throw.
    cbv beta iota zeta.
    destruct (action_completed (sensor_state m)); [reflexivity|].
    now destruct (timer_fired (sensor_state m)).
  - cbn [List.map]. rewrite wait_loop_cons, wait_loop_step.
    cbv zeta. cbn [irq_test irq_sleep t_now fst snd handle_all].
    destruct (action_completed (sensor_state m)); [reflexivity|].
    destruct (timer_fired (sensor_state m)); [reflexivity|].
    cbn [negb andb app].
    destruct (_ >? _); [reflexivity|].
    now rewrite IH.
Qed.

Lemma in_sleeps_measure e m :
  measure (in_sleeps e) m = main_c.measure e m.
Proof.
  unfold measure, main_c.measure, bind, fetch. cbv beta iota zeta.
  cbn [in_sleeps t_check].
  destruct (reading_active m && _); [|reflexivity].
  rewrite arm_eq. cbv beta iota zeta.
  cbn [in_sleeps irq_flag irq_fired irq_pulse irq_armed new_alarm
         t_measure_start ticks handle_all fst snd app].
  unfold modify, emit. cbv beta iota zeta.
  rewrite preempt_eq_main. cbv beta iota zeta.
  rewrite in_sleeps_wait_loop.
  cbv beta iota zeta
    delta [set_sensor_state set_flag_f_trigger set_timer_fired
           set_action_completed set_alarm_id sensor_state reading_active
           command cmd_index last_measurement alarm_id flag_f_trigger
           timer_fired action_completed t_descida t_subida].
  match goal with
  | |- context [main_c.wait_loop ?a ?b ?c] =>
      destruct (main_c.wait_loop a b c) as [[[[] m3] tw]|]; [|reflexivity]
  end.
  rewrite finish_eq. cbv beta iota zeta.
  cbn [in_sleeps irq_exit irq_result rtc_now t_done handle_all fst snd app].
  unfold print_datetime, emit. cbv beta iota zeta.
  rewrite print_result_main. cbv beta iota zeta.
  simpl. rewrite ?app_nil_r, <- ?app_assoc. reflexivity.
Qed.

End block_facts.

(** * Whole runs: the two layouts, the console, the tallies *)

(** X1 — part_000 and part_001 are the same program on two layouts of the
    data.  The global variables of part_000 and the fields of [g_state]
    correspond one to one, the data at boot correspond, and on every
    schedule of console input and interrupts the two loops either make the
    same SDK calls in the same order and end in corresponding data, or stop
    on the same error. *)
Theorem X1_layouts_run_alike :
  layout.globals_of part_001.g_state = part_000.boot /\
  (forall g0 : part_000.globals, exists g, layout.globals_of g = g0) /\
  (forall es g,
      layout.same_run (part_001.main_loop es g)
        (part_000.main_loop es (layout.globals_of g))).
Proof.
  split; [reflexivity|]. split.
  - intros [st t0 t1 id run buf idx].
    exists {| part_001.current_state :=
                match st with
                | part_000.STATE_IDLE => part_001.STATE_IDLE
                | part_000.STATE_WAITING_FOR_ECHO =>
                    part_001.STATE_WAITING_FOR_ECHO
                | part_000.STATE_MEASUREMENT_COMPLETE =>
                    part_001.STATE_MEASUREMENT_COMPLETE
                | part_000.STATE_MEASUREMENT_ERROR =>
                    part_001.STATE_MEASUREMENT_ERROR
                end;
              part_001.echo_start_time := t0;
              part_001.echo_end_time := t1;
              part_001.measurement_alarm_id := id;
              part_001.system_running := run;
              part_001.cmd_buffer := buf;
              part_001.cmd_index := idx |}.
    destruct st; reflexivity.
  - intros es g. apply layout_facts.main_loop_of.
Qed.

(** X2 — part_001, a command line.  From a cleared buffer, the characters
    [cs] (none of them CR or LF) followed by CR or LF, received over any
    number of iterations with any interrupts and measurements in between:
    the loop returns; every character is echoed, in order, and one answer
    follows; the line is judged on its first 63 characters, cut at the
    first NUL: ["start"] sets the run flag, ["stop"] clears it, anything
    else leaves it; the buffer is cleared again and the index is 0. *)
Theorem X2_command_line :
  forall es cs nl (g : part_001.system_state_t),
    omap in_char es = cs ++ [nl] ->
    nl = 13 \/ nl = 10 ->
    Forall (fun c => c <> 13 /\ c <> 10) cs ->
    cs <> [] ->
    part_001.cmd_index g = 0 ->
    part_001.cmd_buffer g = replicate 64 0 ->
    exists g' t,
      part_001.main_loop es g = Ok (tt, g', t) /\
      run_001.console_view g'
      = (fst (run_001.command (part_001.system_running g)
                (typed_buffer 64 cs)),
         replicate 64 0, 0) /\
      List.filter is_console t
      = List.map putchar (cs ++ [nl])
        ++ [printf (snd (run_001.command (part_001.system_running g)
                           (typed_buffer 64 cs)))].
Proof.
  intros es cs nl g Hes Hnl Hcs Hne Hi Hb.
  apply (console_facts_001.typing_001 nl Hnl es [] cs g); auto.
Qed.

Lemma X2_command_line_witness :
  exists g' t,
    part_001.main_loop (scenario.typed "start" ++ [scenario.iteration (Some 13) []])
      part_001.g_state = Ok (tt, g', t) /\
    run_001.console_view g' = (true, replicate 64 0, 0) /\
    List.filter is_console t
    = List.map putchar (chars "start" ++ [13]) ++ [printf msg_started].
Proof.
  apply (X2_command_line
           (scenario.typed "start" ++ [scenario.iteration (Some 13) []])
           (chars "start") 13 part_001.g_state).
  - reflexivity.
  - left. reflexivity.
  - repeat constructor; discriminate.
  - discriminate.
  - reflexivity.
  - reflexivity.
Defined.

(** X3 — main.c, a command line.  From a cleared [command], the characters
    [cs] (none of them LF or CR) followed by LF or CR: when the loop
    returns, nothing was echoed and one answer was printed; the line is
    judged on its first 19 characters, cut at the first NUL: ["start"] sets
    [reading_active], ["stop"] clears it, anything else leaves it;
    [command] is cleared again and the index is 0. *)
Theorem X3_command_line_main :
  forall es cs nl (m m' : main_c.state) t,
    omap main_c.in_char es = cs ++ [nl] ->
    nl = 10 \/ nl = 13 ->
    Forall (fun c => c <> 10 /\ c <> 13) cs ->
    cs <> [] ->
    main_c.cmd_index m = 0 ->
    main_c.command m = replicate 20 0 ->
    main_c.main_loop es m = Ok (tt, m', t) ->
    run_main.console_view m'
    = (fst (run_main.command_of (main_c.reading_active m)
              (typed_buffer 20 cs)),
       replicate 20 0, 0) /\
    List.filter is_console t
    = [printf (snd (run_main.command_of (main_c.reading_active m)
                      (typed_buffer 20 cs)))].
Proof.
  intros es cs nl m m' t Hes Hnl Hcs Hne Hi Hb H.
  apply (run_facts_main.typing_main nl Hnl es [] cs m m' t); auto.
Qed.

Lemma X3_command_line_main_witness :
  exists m' t,
    main_c.main_loop
      (examples.typed_main "stop" ++ [scenario.iteration_main (Some 10) 0])
      scenario.started_main = Ok (tt, m', t) /\
    run_main.console_view m' = (false, replicate 20 0, 0) /\
    List.filter is_console t = [printf msg_leitura_parada].
Proof.
  eexists _, _. split; [vm_compute; reflexivity|].
  apply (X3_command_line_main
           (examples.typed_main "stop" ++ [scenario.iteration_main (Some 10) 0])
           (chars "stop") 10 scenario.started_main).
  - reflexivity.
  - left. reflexivity.
  - repeat constructor; discriminate.
  - discriminate.
  - reflexivity.
  - reflexivity.
  - vm_compute. reflexivity.
Defined.

(** X4 — part_001 keeps every cell of [cmd_buffer] from [cmd_index] on at
    NUL.  On every schedule the loop, started at boot, returns with the
    buffer in this form, so the store of the terminator at [cmd_index]
    changes nothing and [strcmp] always finds a terminated string. *)
Theorem X4_cells_behind_index_are_nul :
  forall es,
    exists g' t,
      part_001.main_loop es part_001.g_state = Ok (tt, g', t) /\
      run_001.tail_zero g' /\
      store (part_001.cmd_buffer g') (part_001.cmd_index g') 0
      = Ok (part_001.cmd_buffer g').
Proof.
  intros es.
  destruct (console_facts_001.main_loop_tail_zero_001 es part_001.g_state)
    as (g' & t & H & Hb & Hz).
  - apply facts_001.boot_buffer_ok_001.
  - intros i Hi. apply lookup_replicate_2.
    change (length (part_001.cmd_buffer part_001.g_state)) with 64%nat in Hi.
    change (Z.to_nat part_001.CMD_BUFFER_SIZE) with 64%nat. lia.
  - exists g', t. split; [exact H|]. split; [exact Hz|].
    now apply console_facts_001.terminator_in_place_001.
Qed.

(** X5 — part_001 echoes every character it receives, once and in order:
    the [putchar] calls of a run are the characters of its console input,
    whatever interrupts and measurements take place. *)
Theorem X5_echo :
  forall es (g g' : part_001.system_state_t) t,
    part_001.main_loop es g = Ok (tt, g', t) ->
    List.filter is_putchar t = List.map putchar (omap in_char es).
Proof. intros es g g' t. apply console_facts_001.main_loop_echo_001. Qed.

Lemma X5_echo_witness :
  exists g' t,
    part_001.main_loop scenario.two_cycles part_001.g_state = Ok (tt, g', t) /\
    List.filter is_putchar t
    = List.map putchar (omap in_char scenario.two_cycles).
Proof.
  eexists _, _. split; [vm_compute; reflexivity|].
  eapply (X5_echo scenario.two_cycles part_001.g_state).
  vm_compute. reflexivity.
Defined.

(** X6 — part_001, pulses and result lines over a whole run.  The trigger
    calls of the trace are whole pulses, each one high, 10 us, low and an
    alarm of 30000 us, so the pin is never left high; and every alarm
    armed is matched by one result line or by the one measurement still
    under way: their number plus the measurement pending at the start
    equals the number of result lines plus the measurement pending at the
    end. *)
Theorem X6_pulses_and_results :
  forall es (g g' : part_001.system_state_t) t,
    part_001.main_loop es g = Ok (tt, g', t) ->
    let n := length (armed_budgets_us t) in
    List.filter is_trigger t = concat (replicate n run_001.pulse) /\
    (n + run_001.pending g
     = length (List.filter is_report t) + run_001.pending g')%nat.
Proof. intros es g g' t H. exact (run_facts_001.main_loop_tally es _ _ _ _ H). Qed.

Lemma X6_pulses_and_results_witness :
  exists g' t,
    part_001.main_loop scenario.two_cycles part_001.g_state = Ok (tt, g', t) /\
    let n := length (armed_budgets_us t) in
    List.filter is_trigger t = concat (replicate n run_001.pulse) /\
    (n + run_001.pending part_001.g_state
     = length (List.filter is_report t) + run_001.pending g')%nat.
Proof.
  eexists _, _. split; [vm_compute; reflexivity|].
  eapply (X6_pulses_and_results scenario.two_cycles part_001.g_state).
  vm_compute. reflexivity.
Defined.

(** X7 — part_001, cancelled alarms and distances over a whole run.
    [cancel_alarm] is called exactly when a measurement completes, and a
    completed measurement is reported as a distance: the number of
    [cancel_alarm] calls plus the completed measurement pending at the
    start equals the number of distance lines plus the completed
    measurement pending at the end. *)
Theorem X7_cancels_and_distances :
  forall es (g g' : part_001.system_state_t) t,
    part_001.main_loop es g = Ok (tt, g', t) ->
    (length (List.filter is_cancel t) + run_001.completed g
     = length (List.filter is_distance t) + run_001.completed g')%nat.
Proof. intros es g g' t H. exact (run_facts_001.main_loop_settled es _ _ _ _ H). Qed.

Lemma X7_cancels_and_distances_witness :
  exists g' t,
    part_001.main_loop scenario.two_cycles part_001.g_state = Ok (tt, g', t) /\
    (length (List.filter is_cancel t) + run_001.completed part_001.g_state
     = length (List.filter is_distance t) + run_001.completed g')%nat.
Proof.
  eexists _, _. split; [vm_compute; reflexivity|].
  eapply (X7_cancels_and_distances scenario.two_cycles part_001.g_state).
  vm_compute. reflexivity.
Defined.

(** X8 — main.c, pulses and lines over a whole run.  The trigger calls of
    the trace are whole pulses, each one high, 10 us, low and an alarm of
    500 ms; the lines of the measurements come in pairs, a time prefix
    followed by one of the three results, one pair for each pulse; and
    [cancel_alarm] is called at least once for each pulse. *)
Theorem X8_pulses_and_lines_main :
  forall es (m m' : main_c.state) t,
    main_c.main_loop es m = Ok (tt, m', t) ->
    exists rs : list (string * line),
      List.filter is_trigger t = concat (replicate (length rs) run_main.pulse) /\
      List.filter is_measurement_line t
      = flat_map (fun r => [printf (datetime_prefix (fst r)); printf (snd r)])
          rs /\
      Forall (fun r => obs_main.is_result (printf (snd r)) = true) rs /\
      (length rs <= length (List.filter is_cancel t))%nat.
Proof. intros es m m' t H. exact (run_facts_main.main_loop_measured es _ _ _ _ H). Qed.

Lemma X8_pulses_and_lines_main_witness :
  exists m' t,
    main_c.main_loop
      [scenario.iteration_main None 2000000; scenario.unarmed_main 4000000]
      scenario.started_main = Ok (tt, m', t) /\
    exists rs : list (string * line),
      List.filter is_trigger t = concat (replicate (length rs) run_main.pulse) /\
      List.filter is_measurement_line t
      = flat_map (fun r => [printf (datetime_prefix (fst r)); printf (snd r)])
          rs /\
      Forall (fun r => obs_main.is_result (printf (snd r)) = true) rs /\
      (length rs <= length (List.filter is_cancel t))%nat.
Proof.
  eexists _, _. split; [vm_compute; reflexivity|].
  eapply (X8_pulses_and_lines_main
           [scenario.iteration_main None 2000000; scenario.unarmed_main 4000000]
           scenario.started_main).
  vm_compute. reflexivity.
Defined.

(** X9 — main.c, the interval between measurements.  When two iterations
    print a result and no result is printed in between, the second one
    tested the clock at least 1000000 us after the reading the first one
    stored in [last_measurement] when it ended. *)
Theorem X9_one_second_apart_main :
  forall e1 es e2 (m m1 m2 m3 : main_c.state) t1 t t2,
    main_c.loop_body e1 m = Ok (tt, m1, t1) ->
    List.filter obs_main.is_result t1 <> [] ->
    main_c.main_loop es m1 = Ok (tt, m2, t) ->
    List.filter obs_main.is_result t = [] ->
    main_c.loop_body e2 m2 = Ok (tt, m3, t2) ->
    List.filter obs_main.is_result t2 <> [] ->
    1000000 <= absolute_time_diff_us (main_c.t_done e1) (main_c.t_check e2).
Proof.
  intros e1 es e2 m m1 m2 m3 t1 t t2 H1 R1 H R H2 R2.
  destruct (run_facts_main.loop_body_result_main _ _ _ _ H1 R1) as [_ L1].
  destruct (run_facts_main.loop_body_result_main _ _ _ _ H2 R2) as [D2 _].
  rewrite (run_facts_main.main_loop_last_kept es _ _ _ _ H R), L1 in D2.
  exact D2.
Qed.

Lemma X9_one_second_apart_main_witness :
  1000000 <=
  absolute_time_diff_us
    (main_c.t_done (scenario.iteration_main None 2000000))
    (main_c.t_check (scenario.iteration_main None 3600000)).
Proof.
  eapply (X9_one_second_apart_main
            (scenario.iteration_main None 2000000)
            [scenario.iteration_main None 2600000]
            (scenario.iteration_main None 3600000)
            scenario.started_main).
  - vm_compute. reflexivity.
  - vm_compute. discriminate.
  - vm_compute. reflexivity.
  - vm_compute. reflexivity.
  - vm_compute. reflexivity.
  - vm_compute. discriminate.
Defined.

(** X10 — main.c, the wait is bounded.  If the clock readings of the wait
    loop contain one more than 1000000 us after its start, at position
    [k], the measurement block returns, and it has slept in the loop at
    most [k + 1] times, whatever the echo and the alarm do. *)
Theorem X10_wait_is_bounded_main :
  forall e (m : main_c.state) (k : nat) irqs now,
    main_c.ticks e !! k = Some (irqs, now) ->
    1000000 < absolute_time_diff_us (main_c.t_measure_start e) now ->
    exists m' t,
      main_c.measure e m = Ok (tt, m', t) /\
      (length (List.filter is_tick t) <= S k)%nat.
Proof. intros e m k irqs now. apply run_facts_main.measure_ends. Qed.

Lemma X10_wait_is_bounded_main_witness :
  exists m' t,
    main_c.measure (scenario.unarmed_main 2000000) scenario.started_main
    = Ok (tt, m', t) /\
    (length (List.filter is_tick t) <= 2)%nat.
Proof.
  apply (X10_wait_is_bounded_main (scenario.unarmed_main 2000000)
           scenario.started_main 1 [] 3000001).
  - reflexivity.
  - vm_compute. reflexivity.
Defined.

(** X11 — main.c, the third result.  The result [if] reads
    [action_completed] first and [timer_fired] after it, and a callback may
    run in between.  A measurement prints [Leitura não concluída] only in
    two cases: a falling edge on the echo pin was taken between these two
    reads; or the wait loop ran until a clock reading more than 1000000 us
    after its start and no alarm interrupt was taken from the trigger pulse
    up to the second read.  The first case occurs: when the first falling
    edge of the measurement is taken between the two reads, and no alarm
    after it, the third line is the result, whether the alarm had fired or
    not and however short the wait was. *)
Theorem X11_third_result_main :
  (forall e (m m' : main_c.state) t,
     measure_block.measure e m = Ok (tt, m', t) ->
     In (printf leitura_nao_concluida) t ->
     existsb run_main.is_fall (measure_block.irq_result e) = true \/
     exists (k : nat) tk,
       measure_block.ticks e !! k = Some tk /\
       1000000 < absolute_time_diff_us (measure_block.t_measure_start e)
                   (measure_block.t_now tk) /\
       Forall (fun i => is_alarm_irq i = false)
         (measure_block.irq_pulse e ++ measure_block.irq_armed e ++
          measure_block.taken (S k) (measure_block.ticks e) ++
          measure_block.irq_exit e ++ measure_block.irq_result e)) /\
  (forall e (m m' : main_c.state) t pre tr tf post,
     main_c.reading_active m = true ->
     1000 * 1000
     <= absolute_time_diff_us (main_c.last_measurement m)
          (measure_block.t_check e) ->
     forallb (fun i => negb (run_main.is_fall i))
       (measure_block.irq_flag e ++ measure_block.irq_fired e ++
        measure_block.irq_pulse e ++ measure_block.irq_armed e ++
        measure_block.taken (length (measure_block.ticks e))
          (measure_block.ticks e) ++
        measure_block.irq_exit e) = true ->
     measure_block.irq_result e
     = pre ++ gpio_irq main_c.ECHO_PIN 4 tr tf :: post ->
     forallb (fun i => negb (run_main.is_fall i)) pre = true ->
     forallb (fun i => negb (is_alarm_irq i)) post = true ->
     measure_block.measure e m = Ok (tt, m', t) ->
     List.filter obs_main.is_result t = [printf leitura_nao_concluida]).
Proof.
  split.
  - intros e m m' t. apply block_facts.measure_unfinished_block.
  - intros e m m' t pre tr tf post. apply block_facts.measure_late_edge.
Qed.

Lemma X11_third_result_main_witness :
  (existsb run_main.is_fall
     (measure_block.irq_result (examples.unarmed_block_main 2000000)) = true \/
   exists (k : nat) tk,
     measure_block.ticks (examples.unarmed_block_main 2000000) !! k = Some tk /\
     1000000 < absolute_time_diff_us 2000000 (measure_block.t_now tk) /\
     Forall (fun i => is_alarm_irq i = false)
       (measure_block.irq_pulse (examples.unarmed_block_main 2000000) ++
        measure_block.irq_armed (examples.unarmed_block_main 2000000) ++
        measure_block.taken (S k)
          (measure_block.ticks (examples.unarmed_block_main 2000000)) ++
        measure_block.irq_exit (examples.unarmed_block_main 2000000) ++
        measure_block.irq_result (examples.unarmed_block_main 2000000))) /\
  (exists m' t,
     measure_block.measure (examples.late_echo_main 2000000)
       scenario.started_main = Ok (tt, m', t) /\
     List.filter is_alarm_irq
       (measure_block.taken 1
          (measure_block.ticks (examples.late_echo_main 2000000)))
     = [alarm_irq 2] /\
     List.filter obs_main.is_result t = [printf leitura_nao_concluida]).
Proof.
  split.
  - eapply (proj1 X11_third_result_main (examples.unarmed_block_main 2000000)
              scenario.started_main).
    + vm_compute. reflexivity.
    + vm_compute. do 8 right. left. reflexivity.
  - eexists _, _. split; [vm_compute; reflexivity|].
    split; [reflexivity|].
    eapply (proj2 X11_third_result_main (examples.late_echo_main 2000000)
              scenario.started_main _ _ [] 0 2500025 []).
    + reflexivity.
    + vm_compute. discriminate.
    + reflexivity.
    + reflexivity.
    + reflexivity.
    + reflexivity.
    + vm_compute. reflexivity.
Defined.

(** X12 — main.c, the first falling edge decides.  While [flag_f_trigger]
    is set, a falling edge on the echo pin completes the measurement
    whatever comes before and after it: alarms before it, and alarms and
    further edges after it, do not change that the result printed is a
    distance, computed with the time of this edge. *)
Theorem X12_first_falling_edge_decides_main :
  forall pre tr tf post (m : main_c.state),
    main_c.flag_f_trigger (main_c.sensor_state m) <> 0 ->
    forallb (fun i => negb (run_main.is_fall i)) pre = true ->
    let m' := fst (main_c.handle_all
                     (pre ++ gpio_irq main_c.ECHO_PIN 4 tr tf :: post) m) in
    main_c.print_result m'
    = Ok (tt, m',
          [printf (distance_cm
                     (distance_of
                        (absolute_time_diff_us
                           (main_c.t_subida (main_c.sensor_state m')) tf)))]).
Proof.
  intros pre tr tf post m F Hpre m'.
  destruct (run_facts_main.first_fall_wins pre tr tf post m F Hpre)
    as (_ & A & T).
  fold m' in A, T.
  rewrite facts_main.print_result_main, A, T. reflexivity.
Qed.

Lemma X12_first_falling_edge_decides_main_witness :
  let m' := fst (main_c.handle_all
                   ([gpio_irq 14 8 100 0; alarm_irq 1]
                    ++ gpio_irq main_c.ECHO_PIN 4 0 700
                    :: [alarm_irq 1; gpio_irq 14 4 0 900])
                   examples.pending_main) in
  main_c.print_result m'
  = Ok (tt, m', [printf (distance_cm (distance_of (700 - 100)))]).
Proof.
  apply (X12_first_falling_edge_decides_main
           [gpio_irq 14 8 100 0; alarm_irq 1] 0 700
           [alarm_irq 1; gpio_irq 14 4 0 900] examples.pending_main).
  - vm_compute. discriminate.
  - reflexivity.
Defined.

(** X13 — main.c, the events the handler ignores.  [trigger_callback]
    compares the event word with 0x8 and with 0x4: an event on another
    pin, such as the trigger pin whose falling edge interrupt is enabled,
    or an event word on the echo pin that is not exactly one edge, such as
    both edges at once, changes nothing and calls nothing. *)
Theorem X13_ignored_events_main :
  forall irqs (m : main_c.state),
    forallb (fun i => negb (run_main.is_edge i) && negb (is_alarm_irq i)) irqs
    = true ->
    main_c.handle_all irqs m = (m, []).
Proof. intros irqs m. apply run_facts_main.handle_all_ignored. Qed.

Lemma X13_ignored_events_main_witness :
  main_c.handle_all
    [gpio_irq main_c.TRIG_PIN 4 0 700; gpio_irq main_c.ECHO_PIN 12 100 700]
    examples.pending_main
  = (examples.pending_main, []).
Proof.
  apply (X13_ignored_events_main
           [gpio_irq main_c.TRIG_PIN 4 0 700;
            gpio_irq main_c.ECHO_PIN 12 100 700]
           examples.pending_main).
  reflexivity.
Defined.

(** X14 — part_001, [time_str] is large enough.  The fields of
    [datetime_t] are [int8_t]; for every value they can take,
    ["%02d:%02d:%02d"] prints at most 14 characters, so [sprintf] writes at
    most 15 bytes into [char time_str[16]]; for the readings of a clock,
    0 to 59, it prints 8. *)
Theorem X14_time_str_fits :
  forall t : datetime_t,
    -128 <= hour t <= 127 -> -128 <= min t <= 127 -> -128 <= sec t <= 127 ->
    (String.length (fmt_time t) + 1 <= 16)%nat /\
    (0 <= hour t < 60 -> 0 <= min t < 60 -> 0 <= sec t < 60 ->
     String.length (fmt_time t) = 8%nat).
Proof.
  intros t Hh Hm Hs.
  unfold fmt_time. rewrite !string_app_length. simpl String.length.
  split.
  - pose proof (fmt_02d_int8 _ Hh). pose proof (fmt_02d_int8 _ Hm).
    pose proof (fmt_02d_int8 _ Hs). lia.
  - intros Vh Vm Vs.
    rewrite !fmt_02d_length by lia. reflexivity.
Qed.

Lemma X14_time_str_fits_witness :
  (String.length (fmt_time examples.rtc_extreme) + 1 <= 16)%nat /\
  (0 <= hour examples.rtc_extreme < 60 -> 0 <= min examples.rtc_extreme < 60 ->
   0 <= sec examples.rtc_extreme < 60 ->
   String.length (fmt_time examples.rtc_extreme) = 8%nat).
Proof.
  apply (X14_time_str_fits examples.rtc_extreme); simpl; lia.
Defined.

(** X15 — part_001, only a command changes the run flag.  Over a run in
    which no CR and no LF is received, [system_running] at the end is what
    it was at the start: no interrupt, no measurement, no report and no
    other character writes it. *)
Theorem X15_run_flag_kept :
  forall es (g g' : part_001.system_state_t) t,
    Forall (fun e => in_char e <> Some 13 /\ in_char e <> Some 10) es ->
    part_001.main_loop es g = Ok (tt, g', t) ->
    part_001.system_running g' = part_001.system_running g.
Proof. intros es g g' t. apply console_facts_001.main_loop_running_001. Qed.

Lemma X15_run_flag_kept_witness :
  exists g' t,
    part_001.main_loop
      (scenario.typed "stop" ++ [scenario.iteration None [alarm_irq 1]])
      examples.completed_001 = Ok (tt, g', t) /\
    part_001.system_running g' = true.
Proof.
  eexists _, _. split; [vm_compute; reflexivity|].
  eapply (X15_run_flag_kept
           (scenario.typed "stop" ++ [scenario.iteration None [alarm_irq 1]])
           examples.completed_001).
  - repeat constructor; discriminate.
  - vm_compute. reflexivity.
Defined.

(** X16 — part_001, empty lines.  An iteration that receives CR or LF
    while the buffer is empty runs [continue]: over a run of such
    iterations the data change only by the interrupts taken while the
    console is read, and nothing is called but the echo and what those
    interrupts call; no pulse is sent, no result is printed and the loop
    does not sleep, whatever the state and the run flag are. *)
Theorem X16_empty_lines_skip_the_rest :
  forall es (g : part_001.system_state_t),
    Forall (fun e => in_char e = Some 13 \/ in_char e = Some 10) es ->
    part_001.cmd_index g = 0 ->
    exists t,
      part_001.main_loop es g
      = Ok (tt, fst (part_001.handle_all (flat_map irq_getchar es) g), t) /\
      List.filter (fun x => negb (is_cancel x || is_putchar x)) t = [].
Proof. intros es g. apply run_facts_001.main_loop_empty_lines_001. Qed.

Lemma X16_empty_lines_skip_the_rest_witness :
  exists t,
    part_001.main_loop
      [scenario.iteration (Some 13) []; scenario.iteration (Some 10) []]
      examples.completed_001
    = Ok (tt, examples.completed_001, t) /\
    List.filter (fun x => negb (is_cancel x || is_putchar x)) t = [].
Proof.
  apply (X16_empty_lines_skip_the_rest
           [scenario.iteration (Some 13) []; scenario.iteration (Some 10) []]
           examples.completed_001).
  - constructor; [left; reflexivity|].
    constructor; [right; reflexivity|]. constructor.
  - reflexivity.
Defined.

(** X17 — main.c keeps every cell of [command] from [cmd_index] on at NUL.
    Whenever the loop, started at boot, returns, the array is in this
    form, so the store of the terminator at [cmd_index] changes nothing. *)
Theorem X17_cells_behind_index_are_nul_main :
  forall es t_boot (m' : main_c.state) t,
    main_c.main_loop es (main_c.boot t_boot) = Ok (tt, m', t) ->
    run_main.tail_zero m' /\
    store (main_c.command m') (main_c.cmd_index m') 0 = Ok (main_c.command m').
Proof.
  intros es t_boot m' t H.
  destruct (run_facts_main.main_loop_tail_zero_main es (main_c.boot t_boot) m' t)
    as [Hb Hz]; auto.
  - apply facts_main.boot_buffer_ok_main.
  - intros i Hi. apply lookup_replicate_2.
    change (length (main_c.command (main_c.boot t_boot))) with 20%nat in Hi.
    change (Z.to_nat main_c.sizeof_command) with 20%nat. lia.
  - split; [exact Hz|].
    now apply run_facts_main.terminator_in_place_main.
Qed.

Lemma X17_cells_behind_index_are_nul_main_witness :
  exists m' t,
    main_c.main_loop (examples.typed_main "sto") (main_c.boot 0)
    = Ok (tt, m', t) /\
    run_main.tail_zero m' /\
    store (main_c.command m') (main_c.cmd_index m') 0 = Ok (main_c.command m').
Proof.
  eexists _, _. split; [vm_compute; reflexivity|].
  eapply (X17_cells_behind_index_are_nul_main (examples.typed_main "sto") 0).
  vm_compute. reflexivity.
Defined.

(** X18 — main.c never echoes: no run of its loop calls [putchar],
    whatever it receives. *)
Theorem X18_no_echo_main :
  forall es (m m' : main_c.state) t,
    main_c.main_loop es m = Ok (tt, m', t) ->
    List.filter is_putchar t = [].
Proof. intros es m m' t H. exact (run_facts_main.main_loop_no_echo es _ _ _ _ H). Qed.

Lemma X18_no_echo_main_witness :
  exists m' t,
    main_c.main_loop
      (examples.typed_main "stop" ++ [scenario.iteration_main (Some 10) 2000000])
      scenario.started_main = Ok (tt, m', t) /\
    List.filter is_putchar t = [].
Proof.
  eexists _, _. split; [vm_compute; reflexivity|].
  eapply (X18_no_echo_main
            (examples.typed_main "stop"
             ++ [scenario.iteration_main (Some 10) 2000000])
            scenario.started_main).
  vm_compute. reflexivity.
Defined.

(** X19 — main.c, an echo edge while the measurement is armed.  The three
    flags are stored one after the other, with interrupts enabled, before
    the trigger pulse; the alarm is armed after it.  When no falling edge
    on the echo pin is taken between the three stores, one taken during the
    pulse completes the measurement at once: the block returns on any
    schedule of the wait loop, even an empty one, without sleeping in it,
    and prints a distance computed with the time of that edge and of the
    last rising edge taken before the timestamps are read.  A falling edge
    taken between the three stores is lost: it clears [flag_f_trigger], the
    store that follows clears [action_completed], and no later edge
    completes the measurement, which prints no distance. *)
Theorem X19_edge_during_pulse_main :
  (forall e (m : main_c.state) pre tr tf post,
     main_c.reading_active m = true ->
     1000 * 1000
     <= absolute_time_diff_us (main_c.last_measurement m)
          (measure_block.t_check e) ->
     forallb (fun i => negb (run_main.is_fall i))
       (measure_block.irq_flag e ++ measure_block.irq_fired e) = true ->
     measure_block.irq_pulse e
     = pre ++ gpio_irq main_c.ECHO_PIN 4 tr tf :: post ->
     forallb (fun i => negb (run_main.is_fall i)) pre = true ->
     exists m' t,
       measure_block.measure e m = Ok (tt, m', t) /\
       List.filter is_tick t = [] /\
       List.filter obs_main.is_result t
       = [printf
            (distance_cm
               (distance_of
                  (absolute_time_diff_us
                     (obs_main.last_rise
                        (measure_block.irq_flag e ++
                         measure_block.irq_fired e ++
                         measure_block.irq_pulse e ++
                         measure_block.irq_armed e ++
                         measure_block.irq_exit e ++
                         measure_block.irq_result e)
                        (main_c.t_subida (main_c.sensor_state m)))
                     tf)))]) /\
  (forall e (m m' : main_c.state) t,
     existsb run_main.is_fall
       (measure_block.irq_flag e ++ measure_block.irq_fired e) = true ->
     measure_block.measure e m = Ok (tt, m', t) ->
     forall d, ~ In (printf (distance_cm d)) t).
Proof.
  split.
  - intros e m pre tr tf post. apply block_facts.measure_edge_in_pulse.
  - intros e m m' t. apply block_facts.measure_erased_edge.
Qed.

Lemma X19_edge_during_pulse_main_witness :
  (exists m' t,
     measure_block.measure (examples.early_echo_main 2000000)
       scenario.started_main = Ok (tt, m', t) /\
     List.filter is_tick t = [] /\
     List.filter obs_main.is_result t
     = [printf (distance_cm (distance_of (absolute_time_diff_us 0 2000005)))]) /\
  (exists m' t,
     measure_block.measure (examples.erased_echo_main 2000000)
       scenario.started_main = Ok (tt, m', t) /\
     forall d, ~ In (printf (distance_cm d)) t).
Proof.
  split.
  - apply (proj1 X19_edge_during_pulse_main (examples.early_echo_main 2000000)
             scenario.started_main [] 0 2000005 []).
    + reflexivity.
    + vm_compute. discriminate.
    + reflexivity.
    + reflexivity.
    + reflexivity.
  - eexists _, _. split; [vm_compute; reflexivity|].
    eapply (proj2 X19_edge_during_pulse_main (examples.erased_echo_main 2000000)
              scenario.started_main).
    + reflexivity.
    + vm_compute. reflexivity.
Defined.

(** X20 — The distance of a reversed pair of timestamps.  For a duration
    [d] other than 0, [(-d * 0.0343f) / 2.0f] is exactly the negation of
    [(d * 0.0343f) / 2.0f] in binary32: an echo that ends before it starts
    is printed with the magnitude of the same echo in the right order. *)
Theorem X20_distance_is_odd :
  forall d,
    d <> 0 -> - 2 ^ 63 < d < 2 ^ 63 ->
    distance_of (- d) = SFopp (distance_of d).
Proof. intros d H _. now apply distance_of_opp. Qed.

Lemma X20_distance_is_odd_witness :
  distance_of (- 600) = SFopp (distance_of 600).
Proof. apply (X20_distance_is_odd 600); lia. Defined.
